(** * Task-management API: ownership-scoped CRUD, status transitions,
      filters, statistics and the password-reset request.

    A shallow embedding of [apps/tasks] (models, serializers, filters,
    views, permissions) and of the password-reset request and the
    profile image upload of [apps/accounts], followed by the properties
    of these operations.

    Conventions of the embedding.
    - A Python [str] is a [string] whose characters are code points below
      256; [isspace], [lower] and [upper] follow Python on that range.
    - A [date] is its proleptic Gregorian ordinal, an integer; [today] is an
      explicit argument wherever the source calls [date.today()].
    - A UUID primary key is an opaque number; the value drawn by
      [uuid.uuid4] on creation is an argument of the creating operation.
    - A database table is the list of its rows; a queryset is a list of
      rows.  The rows of [Database.t] carry neither an order nor the
      timestamp columns: the columns [created_at] and [updated_at] of
      the task table, the save that sets them and the default ordering
      of the task list are in [TaskTimestamps], beside the table.
    - Request bodies and query parameters are held as the field classes
      of the framework hand them over.  A text that does not parse as
      the type of its field (a UUID, a date), or that contains a NUL
      character, is answered 400 by these classes before the code of
      the repository runs; such requests are not represented.
    - Exceptions are values of type [Exc] and fallible code returns
      [result A], i.e. [Exc + A]. *)

From Stdlib Require Import ZArith Ascii String List Permutation Sorted Bool Lia.
From stdpp Require Import base gmap strings list.
Import ListNotations.

Local Open Scope string_scope.
Local Open Scope Z_scope.

Abbreviation uuid := N (only parsing).
Abbreviation date := Z (only parsing).

(* ===================================================================== *)
(** * Python built-ins used by the source                                 *)
(* ===================================================================== *)
Module Py.

(** [c.isspace()] for a code point below 256. *)
Definition isspace (c : ascii) : bool :=
  let n := N_of_ascii c in
  ((9 <=? n) && (n <=? 13) || (28 <=? n) && (n <=? 32)
   || (n =? 133) || (n =? 160))%N.

(** [c.lower()] for a code point below 256. *)
Definition lower_char (c : ascii) : ascii :=
  let n := N_of_ascii c in
  if ((65 <=? n) && (n <=? 90)
      || (192 <=? n) && (n <=? 222) && negb (n =? 215))%N
  then ascii_of_N (n + 32) else c.

Fixpoint lower (s : string) : string :=
  match s with
  | EmptyString => EmptyString
  | String c s' => String (lower_char c) (lower s')
  end.

(** [s.lstrip()], [s.rstrip()] and [s.strip()] without argument. *)
Fixpoint lstrip (s : string) : string :=
  match s with
  | EmptyString => EmptyString
  | String c s' => if isspace c then lstrip s' else s
  end.

Fixpoint rstrip (s : string) : string :=
  match s with
  | EmptyString => EmptyString
  | String c s' =>
      match rstrip s' with
      | EmptyString => if isspace c then EmptyString else String c EmptyString
      | r => String c r
      end
  end.

Definition strip (s : string) : string := rstrip (lstrip s).

(** [s.split(sep)] for a one-character separator: never empty, one more
    segment than there are separators. *)
Fixpoint split (sep : ascii) (s : string) : list string :=
  match s with
  | EmptyString => [EmptyString]
  | String c s' =>
      if Ascii.eqb c sep then EmptyString :: split sep s'
      else match split sep s' with
           | [] => [String c EmptyString]
           | seg :: rest => String c seg :: rest
           end
  end.

(** [sep.join(l)]. *)
Fixpoint join (sep : string) (l : list string) : string :=
  match l with
  | [] => EmptyString
  | [x] => x
  | x :: rest => x ++ sep ++ join sep rest
  end.

(** Truthiness of a [str]: non-empty. *)
Definition truthy (s : string) : bool :=
  match s with EmptyString => false | _ => true end.

(** [x in l] on strings. *)
Definition str_in (x : string) (l : list string) : bool :=
  existsb (String.eqb x) l.

(** [sorted(l)] on strings (code-point order), by insertion. *)
Fixpoint insert_sorted (x : string) (l : list string) : list string :=
  match l with
  | [] => [x]
  | y :: l' => if String.leb x y then x :: l else y :: insert_sorted x l'
  end.

Definition sorted (l : list string) : list string :=
  fold_right insert_sorted [] l.

(** The exceptions that the modelled code raises or lets through. *)
(** The detail of a [serializers.ValidationError]: a bare message, or a
    dictionary from field names to messages. *)
Inductive ErrorDetail : Type :=
| Message (m : string)
| FieldErrors (d : list (string * string)).

Inductive Exc : Type :=
| ValidationError (detail : ErrorDetail)
| KeyError (key : string)
| FieldError (name : string)
| IntegrityError
| Http404
| NotFound (detail : string)
| PermissionDenied
| DoesNotExist
| MultipleObjectsReturned.

Definition result (A : Type) : Type := (Exc + A)%type.

Definition ret {A} (a : A) : result A := inr a.
Definition raise {A} (e : Exc) : result A := inl e.
Definition bind {A B} (m : result A) (k : A -> result B) : result B :=
  match m with inl e => inl e | inr a => k a end.

End Py.

Notation "'let?' x ':=' m 'in' k" := (Py.bind m (fun x => k))
  (at level 10, x name, m at level 100, k at level 200).

(* ===================================================================== *)
(** * The part of the Django ORM the source relies on                     *)
(* ===================================================================== *)
Module Orm.

(** A field lookup [field__op=rhs] compares one column of a row with a
    constant.  A column declared [null=True] yields [None] for SQL NULL. *)
Inductive Lookup (Row : Type) : Type :=
| Field {A : Type} (get : Row -> A) (test : A -> bool)
| NullableField {A : Type} (get : Row -> option A) (test : A -> bool).
Arguments Field {Row A} get test.
Arguments NullableField {Row A} get test.

(** [Q] objects: a lookup, [q1 & q2], [~q]. *)
Inductive Q (Row : Type) : Type :=
| QLookup (l : Lookup Row)
| QAnd (q1 q2 : Q Row)
| QNot (q : Q Row).
Arguments QLookup {Row} l.
Arguments QAnd {Row} q1 q2.
Arguments QNot {Row} q.

(** The WHERE clause Django's query builder emits. *)
Inductive Where (Row : Type) : Type :=
| WCompare (l : Lookup Row)
| WIsNotNull (l : Lookup Row)
| WAnd (w1 w2 : Where Row)
| WNot (w : Where Row).
Arguments WCompare {Row} l.
Arguments WIsNotNull {Row} l.
Arguments WAnd {Row} w1 w2.
Arguments WNot {Row} w.

Section Semantics.
Context {Row : Type}.

Definition is_nullable (l : Lookup Row) : bool :=
  match l with Field _ _ => false | NullableField _ _ => true end.

(** [Query.build_filter]: under a negation a comparison on a nullable
    column is emitted as [col op rhs AND col IS NOT NULL];
    [Query._add_q]: [current_negated] flips at every negated node. *)
Fixpoint build (current_negated : bool) (q : Q Row) : Where Row :=
  match q with
  | QLookup l =>
      if current_negated && is_nullable l
      then WAnd (WCompare l) (WIsNotNull l)
      else WCompare l
  | QAnd q1 q2 => WAnd (build current_negated q1) (build current_negated q2)
  | QNot q' => WNot (build (negb current_negated) q')
  end.

(** SQL's three-valued logic: [None] is UNKNOWN. *)
Definition sql_and (a b : option bool) : option bool :=
  match a, b with
  | Some false, _ | _, Some false => Some false
  | Some true, Some true => Some true
  | _, _ => None
  end.

Definition sql_not (a : option bool) : option bool := option_map negb a.

Definition compare (l : Lookup Row) (r : Row) : option bool :=
  match l with
  | Field get test => Some (test (get r))
  | NullableField get test => option_map test (get r)
  end.

Definition is_not_null (l : Lookup Row) (r : Row) : bool :=
  match l with
  | Field _ _ => true
  | NullableField get _ => match get r with Some _ => true | None => false end
  end.

Fixpoint eval (w : Where Row) (r : Row) : option bool :=
  match w with
  | WCompare l => compare l r
  | WIsNotNull l => Some (is_not_null l r)
  | WAnd w1 w2 => sql_and (eval w1 r) (eval w2 r)
  | WNot w' => sql_not (eval w' r)
  end.

(** A row is returned when the WHERE clause is TRUE (not UNKNOWN). *)
Definition selected (w : Where Row) (r : Row) : bool :=
  match eval w r with Some true => true | _ => false end.

(** [qs.filter(q)] and [qs.exclude(q)]; the latter adds [~Q(q)]. *)
Definition filter (q : Q Row) (qs : list Row) : list Row :=
  List.filter (selected (build false q)) qs.

Definition exclude (q : Q Row) (qs : list Row) : list Row :=
  filter (QNot q) qs.

(** [qs.count()], [qs.exists()]. *)
Definition count (qs : list Row) : nat := length qs.
Definition exists_ (qs : list Row) : bool :=
  match qs with [] => false | _ => true end.

(** [qs.get(q)]. *)
Definition get (q : Q Row) (qs : list Row) : Py.result Row :=
  match filter q qs with
  | [] => Py.raise Py.DoesNotExist
  | [r] => Py.ret r
  | _ => Py.raise Py.MultipleObjectsReturned
  end.

(** PostgreSQL's [UPPER], which [__iexact] applies to both sides, in a
    UTF-8 database: the letters a to z and the accented letters from
    code point 224 to 254 (the division sign 247 apart) go to their
    capitals, 32 below.  The sharp s (223) has no capital; the capitals
    of the micro sign (181) and of y with diaeresis (255) lie above 255,
    where no other character of a string leads, so leaving these two in
    place does not change which strings are equal after folding. *)
Definition upper_char (c : ascii) : ascii :=
  let n := N_of_ascii c in
  if ((97 <=? n) && (n <=? 122)
      || (224 <=? n) && (n <=? 254) && negb (n =? 247))%N
  then ascii_of_N (n - 32) else c.

Fixpoint sql_upper (s : string) : string :=
  match s with
  | EmptyString => EmptyString
  | String c s' => String (upper_char c) (sql_upper s')
  end.

Definition iexact (rhs : string) (col : string) : bool :=
  String.eqb (sql_upper col) (sql_upper rhs).

(** The two-valued reading of a [Q]: a comparison with NULL fails. *)
Fixpoint matches (q : Q Row) (r : Row) : bool :=
  match q with
  | QLookup l => match compare l r with Some b => b | None => false end
  | QAnd q1 q2 => matches q1 r && matches q2 r
  | QNot q' => negb (matches q' r)
  end.
End Semantics.

End Orm.

(* ===================================================================== *)
(** * apps/tasks/models.py                                                *)
(* ===================================================================== *)
Module Category.

(** [class Category(models.Model)]. *)
Record t : Type := mk {
  id : uuid;
  name : string;       (* CharField(max_length=100) *)
  colour : string;     (* CharField(max_length=7), default below *)
  user : uuid          (* ForeignKey(User, on_delete=CASCADE) *)
}.

Definition default_colour : string := "#6366f1".

End Category.

Module Task.

(** [class Status(models.TextChoices)], in declaration order. *)
Module Status.
Inductive t : Type := TODO | IN_PROGRESS | DONE.
Definition value (s : t) : string :=
  match s with
  | TODO => "todo"
  | IN_PROGRESS => "in_progress"
  | DONE => "done"
  end.
Definition members : list t := [TODO; IN_PROGRESS; DONE].
Definition values : list string := map value members.
End Status.

(** [class Priority(models.TextChoices)], in declaration order. *)
Module Priority.
Inductive t : Type := LOW | MEDIUM | HIGH | URGENT.
Definition value (p : t) : string :=
  match p with
  | LOW => "low"
  | MEDIUM => "medium"
  | HIGH => "high"
  | URGENT => "urgent"
  end.
Definition members : list t := [LOW; MEDIUM; HIGH; URGENT].
Definition values : list string := map value members.
End Priority.

(** [class Task(models.Model)]: [status] and [priority] are character
    columns, [due_date] and [category] are nullable. *)
Record t : Type := mk {
  id : uuid;
  title : string;                 (* CharField(max_length=200) *)
  description : string;           (* TextField(blank=True), default empty *)
  status : string;                (* choices=Status, default=TODO *)
  priority : string;              (* choices=Priority, default=MEDIUM *)
  due_date : option date;         (* DateField(null=True) *)
  category : option uuid;         (* ForeignKey(Category, SET_NULL, null=True) *)
  user : uuid                     (* ForeignKey(User, on_delete=CASCADE) *)
}.

(** [Task.is_overdue]: a [date] is always truthy, so [self.due_date] is
    false exactly for [None]. *)
Definition is_overdue (today : date) (self : t) : bool :=
  match due_date self with
  | Some d =>
      if negb (String.eqb (status self) (Status.value Status.DONE))
      then d <? today
      else false
  | None => false
  end.

End Task.

(* ===================================================================== *)
(** * The part of Django REST framework the source relies on              *)
(* ===================================================================== *)
Module Drf.
Import Py.

(** One round of the loop of [Serializer.to_internal_value]: a skipped
    field leaves the state alone, a validated value is stored, a
    [ValidationError] is recorded under the field's name. *)
Definition collect {S A : Type} (field : string) (r : result (option A))
    (set : A -> S -> S) (st : S * list (string * string))
  : result (S * list (string * string)) :=
  match r with
  | inr None => ret st
  | inr (Some v) => ret (set v (fst st), snd st)
  | inl (ValidationError (Message m)) =>
      ret (fst st, (snd st ++ [(field, m)])%list)
  | inl e => raise e
  end.

(** The end of [to_internal_value]. *)
Definition finish {S : Type} (st : S * list (string * string)) : result S :=
  match snd st with
  | [] => ret (fst st)
  | errors => raise (ValidationError (FieldErrors errors))
  end.

(** [rest_framework.serializers.as_serializer_error]. *)
Definition as_serializer_error (e : Exc) : Exc :=
  match e with
  | ValidationError (Message m) =>
      ValidationError (FieldErrors [("non_field_errors", m)])
  | _ => e
  end.

(** A required, non-blank, trimmed [CharField(max_length=n)].  The
    check that refuses NUL characters is not represented: the field of
    the framework refuses more than this one. *)
Definition char_field (max_length : nat) (required : bool) (partial : bool)
    (data : option string) : result (option string) :=
  match data with
  | None =>
      if required && negb partial
      then raise (ValidationError (Message "This field is required."))
      else ret None
  | Some s =>
      let v := strip s in
      if negb (truthy v)
      then raise (ValidationError (Message "This field may not be blank."))
      else if (max_length <? String.length v)%nat
      then raise (ValidationError
             (Message "Ensure this field has no more than the maximum number of characters."))
      else ret (Some v)
  end.

(** [ChoiceField(choices=..., required=False)]. *)
Definition choice_field (choices : list string) (data : option string)
  : result (option string) :=
  match data with
  | None => ret None
  | Some s =>
      if str_in s choices then ret (Some s)
      else raise (ValidationError
                    (Message ("'" +:+ s +:+ "' is not a valid choice.")))
  end.

End Drf.

(* ===================================================================== *)
(** * apps/tasks/serializers.py                                           *)
(* ===================================================================== *)
Module CategorySerializer.
Import Py Orm.

(** Field lookups on the category table. *)
Definition name__iexact (v : string) : Q Category.t :=
  QLookup (Field Category.name (iexact v)).
Definition user (u : uuid) : Q Category.t :=
  QLookup (Field Category.user (N.eqb u)).
Definition pk (i : uuid) : Q Category.t :=
  QLookup (Field Category.id (N.eqb i)).

(** [re.match] of the pattern: a hash sign, six hexadecimal digits, end
    of string; the end anchor also matches before one final newline. *)
Definition is_hex (c : ascii) : bool :=
  let n := N_of_ascii c in
  ((48 <=? n) && (n <=? 57) || (65 <=? n) && (n <=? 70)
   || (97 <=? n) && (n <=? 102))%N.

Definition colour_re_match (value : string) : bool :=
  match value with
  | String h (String a (String b (String c (String d (String e
      (String f rest)))))) =>
      Ascii.eqb h "#" && forallb is_hex [a; b; c; d; e; f]
      && (String.eqb rest "" || String.eqb rest (String "010" ""))
  | _ => false
  end.

Definition validate_colour (value : string) : result string :=
  if negb (colour_re_match value)
  then raise (ValidationError
                (Message "Colour must be a valid hex code, e.g. #6366f1."))
  else ret value.

(** [validate_name]: [request] is [self.context.get(request)] reduced to
    its user, [instance] is [self.instance], [objects] the category
    table. *)
Definition validate_name (objects : list Category.t)
    (request : option uuid) (instance : option Category.t)
    (value : string) : result string :=
  match request with
  | None => ret value
  | Some request_user =>
      let qs := filter (QAnd (name__iexact value) (user request_user)) objects in
      let qs := match instance with
                | Some inst => exclude (pk (Category.id inst)) qs
                | None => qs
                end in
      if exists_ qs
      then raise (ValidationError
                    (Message "You already have a category with this name."))
      else ret value
  end.

(** The parsed request body and the validated data. *)
Module Data.
Record t : Type := mk { name : option string; colour : option string }.
End Data.

Module Attrs.
Record t : Type := mk { name : option string; colour : option string }.
Definition empty : t := mk None None.
Definition set_name v a := mk (Some v) (colour a).
Definition set_colour v a := mk (name a) (Some v).
End Attrs.

(** [name]: [CharField(max_length=100)], required, then [validate_name];
    [colour]: [CharField(max_length=7, required=False)], then
    [validate_colour]. *)
Definition name_field (objects : list Category.t) (request : option uuid)
    (instance : option Category.t) (partial : bool) (data : option string)
  : result (option string) :=
  let? v := Drf.char_field 100 true partial data in
  match v with
  | None => ret None
  | Some s => let? s' := validate_name objects request instance s in
              ret (Some s')
  end.

Definition colour_field (partial : bool) (data : option string)
  : result (option string) :=
  let? v := Drf.char_field 7 false partial data in
  match v with
  | None => ret None
  | Some s => let? s' := validate_colour s in ret (Some s')
  end.

Definition run_validation (objects : list Category.t)
    (request : option uuid) (instance : option Category.t) (partial : bool)
    (data : Data.t) : result Attrs.t :=
  let? st := Drf.collect "name"
      (name_field objects request instance partial (Data.name data))
      Attrs.set_name (Attrs.empty, []) in
  let? st := Drf.collect "colour"
      (colour_field partial (Data.colour data)) Attrs.set_colour st in
  Drf.finish st.

(** [ModelSerializer.create] under [serializer.save(user=...)], and
    [ModelSerializer.update]. *)
Definition create (new_id : uuid) (owner : uuid) (validated_data : Attrs.t)
  : Category.t :=
  Category.mk new_id
    (default "" (Attrs.name validated_data))
    (default Category.default_colour (Attrs.colour validated_data))
    owner.

Definition update (instance : Category.t) (validated_data : Attrs.t)
  : Category.t :=
  Category.mk (Category.id instance)
    (default (Category.name instance) (Attrs.name validated_data))
    (default (Category.colour instance) (Attrs.colour validated_data))
    (Category.user instance).

End CategorySerializer.

Module TaskSerializer.
Import Py Orm.

(** The parsed request body: an absent key is [None]; [due_date] and
    [category] may also be present and null. *)
Module Data.
Record t : Type := mk {
  title : option string;
  description : option string;
  status : option string;
  priority : option string;
  due_date : option (option date);
  category : option (option uuid)
}.
Definition empty : t := mk None None None None None None.
End Data.

(** [attrs] / [validated_data]: the keys that passed field validation. *)
Module Attrs.
Record t : Type := mk {
  title : option string;
  description : option string;
  status : option string;
  priority : option string;
  due_date : option (option date);
  category : option (option Category.t)
}.
Definition empty : t := mk None None None None None None.
Definition set_title v a :=
  mk (Some v) (description a) (status a) (priority a) (due_date a) (category a).
Definition set_description v a :=
  mk (title a) (Some v) (status a) (priority a) (due_date a) (category a).
Definition set_status v a :=
  mk (title a) (description a) (Some v) (priority a) (due_date a) (category a).
Definition set_priority v a :=
  mk (title a) (description a) (status a) (Some v) (due_date a) (category a).
Definition set_due_date v a :=
  mk (title a) (description a) (status a) (priority a) (Some v) (category a).
Definition set_category v a :=
  mk (title a) (description a) (status a) (priority a) (due_date a) (Some v).
End Attrs.

(** [class Meta]. *)
Definition Meta_fields : list string :=
  ["id"; "title"; "description"; "status"; "priority"; "due_date";
   "category"; "category_name"; "is_overdue"; "created_at"; "updated_at"].
Definition Meta_read_only_fields : list string :=
  ["id"; "created_at"; "updated_at"].
(** Fields declared on the class with [read_only=True]. *)
Definition declared_read_only : list string :=
  ["is_overdue"; "category_name"].

(** [Serializer._writable_fields]: a listed field that is not read-only. *)
Definition writable (field : string) : bool :=
  str_in field Meta_fields
  && negb (str_in field Meta_read_only_fields)
  && negb (str_in field declared_read_only).

(** [field.get_value(data)]: input for a read-only field is ignored. *)
Definition get_value {A} (field : string) (v : option A) : option A :=
  if writable field then v else None.

(* ------------------------------------------------------------------ *)
(** ** Field-level validation *)

Definition validate_due_date (today : date) (instance : option Task.t)
    (value : option date) : result (option date) :=
  match value, instance with
  | Some d, None =>
      if d <? today
      then raise (ValidationError (Message "Due date cannot be in the past."))
      else ret value
  | _, _ => ret value
  end.

Definition validate_category (request : option uuid)
    (value : option Category.t) : result (option Category.t) :=
  match value with
  | None => ret value
  | Some c =>
      match request with
      | Some request_user =>
          if negb (N.eqb (Category.user c) request_user)
          then raise (ValidationError
                        (Message "You can only assign your own categories."))
          else ret value
      | None => ret value
      end
  end.

(** The serializer fields that [ModelSerializer] builds from the model
    declaration; each returns [None] for a skipped field. *)

(** [title]: [CharField(max_length=200)], required. *)
Definition title_field (partial : bool) (data : option string)
  : result (option string) :=
  Drf.char_field 200 true partial data.

(** [description]: [CharField(required=False, allow_blank=True)]. *)
Definition description_field (data : option string)
  : result (option string) :=
  ret (option_map strip data).

(** [status], [priority]: [ChoiceField(choices=..., required=False)]. *)
Definition choice_field := Drf.choice_field.

(** [due_date]: [DateField(required=False, allow_null=True)], followed by
    [validate_due_date]. *)
Definition due_date_field (today : date) (instance : option Task.t)
    (data : option (option date)) : result (option (option date)) :=
  match data with
  | None => ret None
  | Some v => let? v' := validate_due_date today instance v in ret (Some v')
  end.

(** [category]: [PrimaryKeyRelatedField(queryset=Category.objects.all(),
    required=False, allow_null=True)], followed by [validate_category]. *)
Definition category_field (categories : list Category.t)
    (request : option uuid) (data : option (option uuid))
  : result (option (option Category.t)) :=
  match data with
  | None => ret None
  | Some None => let? v := validate_category request None in ret (Some v)
  | Some (Some key) =>
      match Orm.get (CategorySerializer.pk key) categories with
      | inr c => let? v := validate_category request (Some c) in ret (Some v)
      | inl _ => raise (ValidationError
                          (Message "Invalid pk - object does not exist."))
      end
  end.

Definition to_internal_value (categories : list Category.t) (today : date)
    (request : option uuid) (instance : option Task.t) (partial : bool)
    (data : Data.t) : result Attrs.t :=
  let? st := Drf.collect "title"
      (title_field partial (get_value "title" (Data.title data)))
      Attrs.set_title (Attrs.empty, []) in
  let? st := Drf.collect "description"
      (description_field (get_value "description" (Data.description data)))
      Attrs.set_description st in
  let? st := Drf.collect "status"
      (choice_field Task.Status.values (get_value "status" (Data.status data)))
      Attrs.set_status st in
  let? st := Drf.collect "priority"
      (choice_field Task.Priority.values
         (get_value "priority" (Data.priority data)))
      Attrs.set_priority st in
  let? st := Drf.collect "due_date"
      (due_date_field today instance (get_value "due_date" (Data.due_date data)))
      Attrs.set_due_date st in
  let? st := Drf.collect "category"
      (category_field categories request
         (get_value "category" (Data.category data)))
      Attrs.set_category st in
  Drf.finish st.

(* ------------------------------------------------------------------ *)
(** ** Object-level validation *)

Definition VALID_TRANSITIONS : gmap string (gset string) :=
  {[ "todo" := {[ "todo"; "in_progress" ]};
     "in_progress" := {[ "in_progress"; "done"; "todo" ]};
     "done" := {[ "done"; "todo" ]} ]}.

(** [d[key]]. *)
Definition getitem {V} (d : gmap string V) (key : string) : result V :=
  match d !! key with
  | Some v => ret v
  | None => raise (KeyError key)
  end.

Definition validate (instance : option Task.t) (attrs : Attrs.t)
  : result Attrs.t :=
  match instance, Attrs.status attrs with
  | Some inst, Some requested =>
      let current := Task.status inst in
      if negb (bool_decide
                 (requested ∈ default (∅ : gset string)
                                      (VALID_TRANSITIONS !! current)))
      then
        let? allowed := getitem VALID_TRANSITIONS current in
        raise (ValidationError (FieldErrors
          [("status",
            "Invalid transition from '" +:+ current +:+ "' to '"
            +:+ requested +:+ "'. Allowed: "
            +:+ join ", " (sorted (elements allowed)) +:+ ".")]))
      else ret attrs
  | _, _ => ret attrs
  end.

(** [Serializer.run_validation], behind [is_valid(raise_exception=True)]. *)
Definition run_validation (categories : list Category.t) (today : date)
    (request : option uuid) (instance : option Task.t) (partial : bool)
    (data : Data.t) : result Attrs.t :=
  let? value := to_internal_value categories today request instance partial data in
  match validate instance value with
  | inl e => raise (Drf.as_serializer_error e)
  | inr value' => ret value'
  end.

(* ------------------------------------------------------------------ *)
(** ** Saving and rendering *)

(** [ModelSerializer.create] under [serializer.save(user=...)]: a key
    missing from the validated data takes the model field's default. *)
Definition create (new_id : uuid) (owner : uuid) (validated_data : Attrs.t)
  : Task.t :=
  Task.mk new_id
    (default "" (Attrs.title validated_data))
    (default "" (Attrs.description validated_data))
    (default (Task.Status.value Task.Status.TODO) (Attrs.status validated_data))
    (default (Task.Priority.value Task.Priority.MEDIUM)
             (Attrs.priority validated_data))
    (default None (Attrs.due_date validated_data))
    (default None (option_map (option_map Category.id)
                              (Attrs.category validated_data)))
    owner.

(** [ModelSerializer.update]: [setattr] for every validated key. *)
Definition update (instance : Task.t) (validated_data : Attrs.t) : Task.t :=
  Task.mk (Task.id instance)
    (default (Task.title instance) (Attrs.title validated_data))
    (default (Task.description instance) (Attrs.description validated_data))
    (default (Task.status instance) (Attrs.status validated_data))
    (default (Task.priority instance) (Attrs.priority validated_data))
    (default (Task.due_date instance) (Attrs.due_date validated_data))
    (default (Task.category instance)
             (option_map (option_map Category.id)
                         (Attrs.category validated_data)))
    (Task.user instance).

(** [serializer.data]: the stored columns with the two computed fields. *)
Record Representation : Type := mkRepresentation {
  task : Task.t;
  category_name : option string;
  is_overdue : bool
}.

Definition to_representation (categories : list Category.t) (today : date)
    (instance : Task.t) : Representation :=
  mkRepresentation instance
    (match Task.category instance with
     | Some key =>
         match Orm.get (CategorySerializer.pk key) categories with
         | inr c => Some (Category.name c)
         | inl _ => None
         end
     | None => None
     end)
    (Task.is_overdue today instance).

End TaskSerializer.

(* ===================================================================== *)
(** * apps/tasks/filters.py                                               *)
(* ===================================================================== *)
Module TaskFilter.
Import Py Orm.

(** Field lookups on the task table. *)
Definition user (u : uuid) : Q Task.t :=
  QLookup (Field Task.user (N.eqb u)).
Definition pk (i : uuid) : Q Task.t :=
  QLookup (Field Task.id (N.eqb i)).
Definition status (s : string) : Q Task.t :=
  QLookup (Field Task.status (String.eqb s)).
Definition due_date__lt (d : date) : Q Task.t :=
  QLookup (NullableField Task.due_date (fun v => v <? d)).
Definition due_date__gte (d : date) : Q Task.t :=
  QLookup (NullableField Task.due_date (fun v => d <=? v)).
Definition due_date__lte (d : date) : Q Task.t :=
  QLookup (NullableField Task.due_date (fun v => v <=? d)).
Definition category__id (c : uuid) : Q Task.t :=
  QLookup (NullableField Task.category (N.eqb c)).

(** The character columns of the task table, by field name. *)
Definition char_column (name : string) : option (Task.t -> string) :=
  if String.eqb name "title" then Some Task.title
  else if String.eqb name "description" then Some Task.description
  else if String.eqb name "status" then Some Task.status
  else if String.eqb name "priority" then Some Task.priority
  else None.

(** The lookup [<name>__in = values], with the field named at run time. *)
Definition filter__in (name : string) (values : list string)
    (queryset : list Task.t) : result (list Task.t) :=
  match char_column name with
  | Some col => ret (Orm.filter (QLookup (Field col (fun v => str_in v values)))
                                queryset)
  | None => raise (FieldError name)
  end.

(** The comprehension over [value.split(',')]: the stripped segments that
    are not empty. *)
Definition csv_values (value : string) : list string :=
  flat_map (fun v => if truthy (strip v) then [strip v] else [])
           (split "," value).

Definition filter_csv_field (queryset : list Task.t) (name : string)
    (value : string) : result (list Task.t) :=
  let values := csv_values value in
  match values with
  | _ :: _ => filter__in name values queryset
  | [] => ret queryset
  end.

Definition filter_overdue (today : date) (queryset : list Task.t)
    (name : string) (value : bool) : result (list Task.t) :=
  let overdue_q :=
    QAnd (due_date__lt today)
         (QNot (status (Task.Status.value Task.Status.DONE))) in
  if value then ret (Orm.filter overdue_q queryset)
  else ret (Orm.exclude overdue_q queryset).

(** The query parameters the filter set declares, as the filter form
    hands them over: an absent parameter is [None]. *)
Module Params.
Record t : Type := mk {
  status : option string;
  priority : option string;
  category : option uuid;
  overdue : option bool;
  due_date_min : option date;
  due_date_max : option date
}.
Definition empty : t := mk None None None None None None.
End Params.

(** [CharFilter(method=...)]: the form field strips the raw value and an
    empty value leaves the queryset alone ([FilterMethod.__call__]). *)
Definition char_filter
    (method : list Task.t -> string -> string -> result (list Task.t))
    (name : string) (raw : option string) (queryset : list Task.t)
  : result (list Task.t) :=
  match raw with
  | None => ret queryset
  | Some s =>
      let value := strip s in
      if truthy value then method queryset name value else ret queryset
  end.

(** [BooleanFilter(method=...)]: [False] is not an empty value. *)
Definition boolean_filter
    (method : list Task.t -> string -> bool -> result (list Task.t))
    (name : string) (value : option bool) (queryset : list Task.t)
  : result (list Task.t) :=
  match value with
  | None => ret queryset
  | Some b => method queryset name b
  end.

(** A filter with [field_name] and [lookup_expr]. *)
Definition lookup_filter {A} (lookup : A -> Q Task.t) (value : option A)
    (queryset : list Task.t) : list Task.t :=
  match value with
  | None => queryset
  | Some v => Orm.filter (lookup v) queryset
  end.

(** [FilterSet.qs]: the declared filters, one after the other. *)
Definition qs (today : date) (params : Params.t) (queryset : list Task.t)
  : result (list Task.t) :=
  let? q := char_filter filter_csv_field "status" (Params.status params)
                        queryset in
  let? q := char_filter filter_csv_field "priority" (Params.priority params) q in
  let q := lookup_filter category__id (Params.category params) q in
  let? q := boolean_filter (filter_overdue today) "overdue"
                           (Params.overdue params) q in
  let q := lookup_filter due_date__gte (Params.due_date_min params) q in
  let q := lookup_filter due_date__lte (Params.due_date_max params) q in
  ret q.

End TaskFilter.

(* ===================================================================== *)
(** * apps/tasks/permissions.py                                           *)
(* ===================================================================== *)
Module IsOwner.

(** [has_object_permission]: [obj.user == request.user]. *)
Definition has_object_permission (request_user : uuid) (obj_user : uuid)
  : bool :=
  N.eqb obj_user request_user.

End IsOwner.

(* ===================================================================== *)
(** * apps/tasks/views.py                                                 *)
(* ===================================================================== *)

(** The persisted state the task application reads and writes. *)
Module Database.
Record t : Type := mk {
  categories : list Category.t;
  tasks : list Task.t
}.
End Database.

(** An authenticated request: the principal and the query string. *)
Module Request.
Record t : Type := mk {
  user : uuid;
  query_params : TaskFilter.Params.t;
  page : nat                         (* the page parameter, 1 when absent *)
}.
End Request.

Module Response.
Import Py.

(** [TaskStatsSerializer]: the four entries of the stats body. *)
Record Stats : Type := mkStats {
  total : nat;
  by_status : gmap string nat;
  by_priority : gmap string nat;
  overdue : nat
}.

Inductive Payload : Type :=
| NoContent
| Detail (message : string)
| Errors (d : list (string * string))
| TaskObject (r : TaskSerializer.Representation)
| TaskPage (count : nat) (results : list TaskSerializer.Representation)
| CategoryObject (c : Category.t) (task_count : option nat)
| CategoryPage (count : nat) (results : list (Category.t * nat))
| StatsObject (s : Stats).

Record t : Type := mk { status_code : nat; data : Payload }.

Definition HTTP_200_OK : nat := 200.
Definition HTTP_201_CREATED : nat := 201.
Definition HTTP_204_NO_CONTENT : nat := 204.
Definition HTTP_400_BAD_REQUEST : nat := 400.
Definition HTTP_403_FORBIDDEN : nat := 403.
Definition HTTP_404_NOT_FOUND : nat := 404.
Definition HTTP_500_INTERNAL_SERVER_ERROR : nat := 500.

(** [rest_framework.views.exception_handler]; an exception it does not
    know becomes the server-error page. *)
Definition exception_handler (e : Exc) : t :=
  match e with
  | ValidationError (FieldErrors d) => mk HTTP_400_BAD_REQUEST (Errors d)
  | ValidationError (Message m) => mk HTTP_400_BAD_REQUEST (Errors [("", m)])
  | Http404 => mk HTTP_404_NOT_FOUND (Detail "Not found.")
  | NotFound detail => mk HTTP_404_NOT_FOUND (Detail detail)
  | PermissionDenied =>
      mk HTTP_403_FORBIDDEN
         (Detail "You do not have permission to perform this action.")
  | _ => mk HTTP_500_INTERNAL_SERVER_ERROR (Detail "Server Error (500)")
  end.

(** [APIView.dispatch]: a handler that raises writes nothing. *)
Definition dispatch (db : Database.t) (r : result (t * Database.t))
  : t * Database.t :=
  match r with
  | inr out => out
  | inl e => (exception_handler e, db)
  end.

End Response.

(** [PageNumberPagination] with [PAGE_SIZE = 10]. *)
Module Pagination.
Import Py.

Definition PAGE_SIZE : nat := 10.

Definition num_pages (count : nat) : nat :=
  Nat.max 1 ((count + PAGE_SIZE - 1) / PAGE_SIZE).

Definition paginate_queryset {A} (page : nat) (queryset : list A)
  : result (list A) :=
  if ((page <? 1) || (num_pages (length queryset) <? page))%nat
  then raise (NotFound "Invalid page.")
  else ret (firstn PAGE_SIZE (skipn ((page - 1) * PAGE_SIZE) queryset)).

End Pagination.

Module CategoryViewSet.
Import Py Orm.

(** A row of the annotated queryset. *)
Record Annotated : Type := mkAnnotated {
  category : Category.t;
  task_count : nat
}.

(** [annotate(task_count=Count(tasks))]. *)
Definition annotate (tasks : list Task.t) (c : Category.t) : Annotated :=
  mkAnnotated c
    (Orm.count (Orm.filter (TaskFilter.category__id (Category.id c)) tasks)).

Definition pk (i : uuid) : Q Annotated :=
  QLookup (Field (fun r => Category.id (category r)) (N.eqb i)).

Definition get_queryset (db : Database.t) (request : Request.t)
  : list Annotated :=
  map (annotate (Database.tasks db))
      (Orm.filter (CategorySerializer.user (Request.user request))
                  (Database.categories db)).

(** [GenericAPIView.get_object]: [get_object_or_404] on the scoped
    queryset, then the object-level permission. *)
Definition get_object (db : Database.t) (request : Request.t) (key : uuid)
  : result Annotated :=
  let queryset := get_queryset db request in
  let? obj := match Orm.get (pk key) queryset with
              | inl DoesNotExist => raise Http404
              | other => other
              end in
  if IsOwner.has_object_permission (Request.user request)
       (Category.user (category obj))
  then ret obj
  else raise PermissionDenied.

Definition list (db : Database.t) (request : Request.t)
  : result (Response.t * Database.t) :=
  let queryset := get_queryset db request in
  let? page := Pagination.paginate_queryset (Request.page request) queryset in
  ret (Response.mk Response.HTTP_200_OK
         (Response.CategoryPage (Orm.count queryset)
            (map (fun r => (category r, task_count r)) page)),
       db).

Definition create (db : Database.t) (new_id : uuid) (request : Request.t)
    (data : CategorySerializer.Data.t) : result (Response.t * Database.t) :=
  let? attrs := CategorySerializer.run_validation (Database.categories db)
                  (Some (Request.user request)) None false data in
  let obj := CategorySerializer.create new_id (Request.user request) attrs in
  if existsb (fun c => N.eqb (Category.id c) new_id) (Database.categories db)
  then raise IntegrityError
  else ret (Response.mk Response.HTTP_201_CREATED
              (Response.CategoryObject obj None),
            Database.mk (Database.categories db ++ [obj]) (Database.tasks db)).

Definition retrieve (db : Database.t) (request : Request.t) (key : uuid)
  : result (Response.t * Database.t) :=
  let? instance := get_object db request key in
  ret (Response.mk Response.HTTP_200_OK
         (Response.CategoryObject (category instance)
                                  (Some (task_count instance))),
       db).

Definition partial_update (db : Database.t) (request : Request.t)
    (key : uuid) (data : CategorySerializer.Data.t)
  : result (Response.t * Database.t) :=
  let? instance := get_object db request key in
  let? attrs := CategorySerializer.run_validation (Database.categories db)
                  (Some (Request.user request)) (Some (category instance))
                  true data in
  let obj := CategorySerializer.update (category instance) attrs in
  ret (Response.mk Response.HTTP_200_OK
         (Response.CategoryObject obj (Some (task_count instance))),
       Database.mk
         (map (fun c => if N.eqb (Category.id c) (Category.id obj)
                        then obj else c)
              (Database.categories db))
         (Database.tasks db)).

(** [destroy]: the row is deleted and [SET_NULL] clears the reference in
    the tasks that pointed to it. *)
Definition destroy (db : Database.t) (request : Request.t) (key : uuid)
  : result (Response.t * Database.t) :=
  let? instance := get_object db request key in
  let gone := Category.id (category instance) in
  ret (Response.mk Response.HTTP_204_NO_CONTENT Response.NoContent,
       Database.mk
         (List.filter (fun c => negb (N.eqb (Category.id c) gone))
                      (Database.categories db))
         (map (fun t => if bool_decide (Task.category t = Some gone)
                        then Task.mk (Task.id t) (Task.title t)
                               (Task.description t) (Task.status t)
                               (Task.priority t) (Task.due_date t) None
                               (Task.user t)
                        else t)
              (Database.tasks db))).

End CategoryViewSet.

Module TaskViewSet.
Import Py Orm.

Definition get_queryset (db : Database.t) (request : Request.t)
  : list Task.t :=
  Orm.filter (TaskFilter.user (Request.user request)) (Database.tasks db).

(** [filter_queryset] through [filterset_class = TaskFilter].  The search
    and ordering backends are not represented: they narrow or reorder
    the queryset they are given. *)
Definition filter_queryset (today : date) (request : Request.t)
    (queryset : list Task.t) : result (list Task.t) :=
  TaskFilter.qs today (Request.query_params request) queryset.

Definition get_object (db : Database.t) (today : date)
    (request : Request.t) (key : uuid) : result Task.t :=
  let? queryset := filter_queryset today request (get_queryset db request) in
  let? obj := match Orm.get (TaskFilter.pk key) queryset with
              | inl DoesNotExist => raise Http404
              | other => other
              end in
  if IsOwner.has_object_permission (Request.user request) (Task.user obj)
  then ret obj
  else raise PermissionDenied.

Definition render (db : Database.t) (today : date) (obj : Task.t)
  : TaskSerializer.Representation :=
  TaskSerializer.to_representation (Database.categories db) today obj.

(** [perform_create]: [serializer.save(user=self.request.user)]. *)
Definition perform_create (new_id : uuid) (request : Request.t)
    (validated_data : TaskSerializer.Attrs.t) : Task.t :=
  TaskSerializer.create new_id (Request.user request) validated_data.

Definition create (db : Database.t) (today : date) (new_id : uuid)
    (request : Request.t) (data : TaskSerializer.Data.t)
  : result (Response.t * Database.t) :=
  let? attrs := TaskSerializer.run_validation (Database.categories db) today
                  (Some (Request.user request)) None false data in
  let obj := perform_create new_id request attrs in
  if existsb (fun t => N.eqb (Task.id t) new_id) (Database.tasks db)
  then raise IntegrityError
  else ret (Response.mk Response.HTTP_201_CREATED
              (Response.TaskObject (render db today obj)),
            Database.mk (Database.categories db) (Database.tasks db ++ [obj])).

Definition retrieve (db : Database.t) (today : date) (request : Request.t)
    (key : uuid) : result (Response.t * Database.t) :=
  let? instance := get_object db today request key in
  ret (Response.mk Response.HTTP_200_OK
         (Response.TaskObject (render db today instance)),
       db).

(** PATCH: PUT is not among [http_method_names], every update is
    partial. *)
Definition partial_update (db : Database.t) (today : date)
    (request : Request.t) (key : uuid) (data : TaskSerializer.Data.t)
  : result (Response.t * Database.t) :=
  let? instance := get_object db today request key in
  let? attrs := TaskSerializer.run_validation (Database.categories db) today
                  (Some (Request.user request)) (Some instance) true data in
  let obj := TaskSerializer.update instance attrs in
  ret (Response.mk Response.HTTP_200_OK
         (Response.TaskObject (render db today obj)),
       Database.mk (Database.categories db)
         (map (fun t => if N.eqb (Task.id t) (Task.id obj) then obj else t)
              (Database.tasks db))).

Definition destroy (db : Database.t) (today : date) (request : Request.t)
    (key : uuid) : result (Response.t * Database.t) :=
  let? instance := get_object db today request key in
  ret (Response.mk Response.HTTP_204_NO_CONTENT Response.NoContent,
       Database.mk (Database.categories db)
         (List.filter (fun t => negb (N.eqb (Task.id t) (Task.id instance)))
                      (Database.tasks db))).

(** The queryset of [values_list(col).annotate(count=Count(id))] read
    into a [dict]: one key per value that occurs, with its number of
    rows. *)
Definition group_count (col : Task.t -> string) (qs : list Task.t)
  : gmap string nat :=
  fold_right (fun t m => <[ col t := S (default 0%nat (m !! col t)) ]> m) ∅ qs.

(** The dictionary comprehension over the members of a choices class. *)
Definition zero_filled (values : list string) (counts : gmap string nat)
  : gmap string nat :=
  list_to_map (map (fun v => (v, default 0%nat (counts !! v))) values).

Definition stats (db : Database.t) (today : date) (request : Request.t)
  : result (Response.t * Database.t) :=
  let qs := get_queryset db request in
  let total := Orm.count qs in
  let status_counts := group_count Task.status qs in
  let by_status := zero_filled Task.Status.values status_counts in
  let priority_counts := group_count Task.priority qs in
  let by_priority := zero_filled Task.Priority.values priority_counts in
  let overdue :=
    Orm.count (Orm.exclude (TaskFilter.status (Task.Status.value Task.Status.DONE))
                           (Orm.filter (TaskFilter.due_date__lt today) qs)) in
  ret (Response.mk Response.HTTP_200_OK
         (Response.StatsObject
            (Response.mkStats total by_status by_priority overdue)),
       db).

(** [list] up to the order of the rows, which here is that of the
    table; [TaskTimestamps.list] puts them in the order of the view
    set. *)
Definition list (db : Database.t) (today : date) (request : Request.t)
  : result (Response.t * Database.t) :=
  let? queryset := filter_queryset today request (get_queryset db request) in
  let? page := Pagination.paginate_queryset (Request.page request) queryset in
  ret (Response.mk Response.HTTP_200_OK
         (Response.TaskPage (Orm.count queryset) (map (render db today) page)),
       db).

End TaskViewSet.

(* ===================================================================== *)
(** * apps/accounts: the password-reset request                           *)
(* ===================================================================== *)
Module User.

(** The columns of [accounts.User] that the reset request reads. *)
Record t : Type := mk {
  id : uuid;
  username : string;
  email : string;        (* EmailField(unique=True) *)
  first_name : string;
  is_active : bool
}.

Definition email_is (v : string) : Orm.Q t :=
  Orm.QLookup (Orm.Field email (String.eqb v)).
Definition is_active_is (b : bool) : Orm.Q t :=
  Orm.QLookup (Orm.Field is_active (Bool.eqb b)).

End User.

(** The settings the reset request reads. *)
Module Settings.
Record t : Type := mk {
  SENDGRID_API_KEY : string;
  DEFAULT_FROM_EMAIL : option string;
  FRONTEND_BASE_URL : string
}.
End Settings.

(** apps/accounts/emails.py *)
Module Emails.
Import Py.

Record Mail : Type := mkMail {
  from_email : string;
  to_emails : string;
  subject : string;
  html_content : string
}.

Section Sending.
  (** [SendGridAPIClient(api_key).send]: the status code of the response,
      or [None] when the call raises. *)
Variable client_send : string -> Mail -> option nat.

(** [_send_email]: the result, and the messages handed to the client. *)
Definition _send_email (settings : Settings.t)
    (to_email subject html_content : string) : bool * list Mail :=
  let api_key := Settings.SENDGRID_API_KEY settings in
  if negb (truthy api_key) then (false, [])
  else
    let message :=
      mkMail (default "noreply@esetaskmanager.com"
                      (Settings.DEFAULT_FROM_EMAIL settings))
             to_email subject html_content in
    match client_send api_key message with
    | Some _ => (true, [message])
    | None => (false, [message])
    end.

Definition send_password_reset_email (settings : Settings.t)
    (user : User.t) (reset_url : string) : bool * list Mail :=
  let display_name :=
    if truthy (User.first_name user) then User.first_name user
    else User.username user in
  let html :=
    "<div style='font-family:sans-serif;max-width:600px;margin:auto'>"
    +:+ "<h2 style='color:#1e293b'>Password Reset</h2>"
    +:+ "<p>Hi " +:+ display_name +:+ ",</p>"
    +:+ "<p>You requested a password reset for your ESE Task Manager "
    +:+ "account. Click the button below to set a new password:</p>"
    +:+ "<p style='text-align:center;margin:32px 0'>"
    +:+ "<a href='" +:+ reset_url +:+ "' style='background:#2563eb;color:#fff;"
    +:+ "padding:12px 32px;border-radius:6px;text-decoration:none;"
    +:+ "font-weight:600'>Reset Password</a></p>"
    +:+ "<p style='font-size:13px;color:#64748b'>Or copy and paste this "
    +:+ "link into your browser:</p>"
    +:+ "<p style='font-size:13px;word-break:break-all'>" +:+ reset_url
    +:+ "</p>"
    +:+ "<hr style='border:none;border-top:1px solid #e2e8f0;margin:24px 0'>"
    +:+ "<p style='font-size:12px;color:#94a3b8'>This link expires in "
    +:+ "1 hour. If you did not request this, you can safely ignore "
    +:+ "this email.</p>"
    +:+ "</div>" in
  _send_email settings (User.email user)
    "Password Reset — ESE Task Manager" html.
End Sending.

End Emails.

(** apps/accounts/serializers.py *)
Module PasswordResetRequestSerializer.
Import Py.

Section Validation.
  (** Django's [EmailValidator], applied by [EmailField]. *)
Variable email_validator : string -> bool.

Definition validate_email (value : string) : string :=
  strip (lower value).

(** [email = serializers.EmailField()]: required, trimmed, not blank,
    a valid address; then [validate_email]. *)
Definition email_field (data : option string) : result string :=
  match data with
  | None => raise (ValidationError (Message "This field is required."))
  | Some s =>
      let v := strip s in
      if negb (truthy v)
      then raise (ValidationError (Message "This field may not be blank."))
      else if negb (email_validator v)
      then raise (ValidationError (Message "Enter a valid email address."))
      else ret (validate_email v)
  end.

(** [is_valid(raise_exception=True)] followed by
    [validated_data[email]]. *)
Definition run_validation (data : option string) : result string :=
  match email_field data with
  | inl (ValidationError (Message m)) =>
      raise (ValidationError (FieldErrors [("email", m)]))
  | other => other
  end.
End Validation.

End PasswordResetRequestSerializer.

(** apps/accounts/views.py *)
Module PasswordResetRequestView.
Import Py.

Section View.
Variable email_validator : string -> bool.
Variable client_send : string -> Emails.Mail -> option nat.
(** [urlsafe_base64_encode(force_bytes(user.pk))] and
    [default_token_generator.make_token(user)]. *)
Variable urlsafe_base64_encode : uuid -> string.
Variable make_token : User.t -> string.

Definition success_msg : Response.Payload :=
  Response.Detail
    "If an account with that email exists, a reset link has been sent.".

(** [post]: the response and the messages handed to the mail client. *)
Definition post (settings : Settings.t) (users : list User.t)
    (data : option string) : result (Response.t * list Emails.Mail) :=
  let? email := PasswordResetRequestSerializer.run_validation
                  email_validator data in
  match Orm.get (Orm.QAnd (User.email_is email) (User.is_active_is true))
                users with
  | inl DoesNotExist =>
      ret (Response.mk Response.HTTP_200_OK success_msg, [])
  | inl e => raise e
  | inr user =>
      let uid := urlsafe_base64_encode (User.id user) in
      let token := make_token user in
      let reset_url :=
        Settings.FRONTEND_BASE_URL settings
        +:+ "/password-reset/confirm" +:+ "?uid=" +:+ uid
        +:+ "&token=" +:+ token in
      let sent := Emails.send_password_reset_email client_send settings
                    user reset_url in
      ret (Response.mk Response.HTTP_200_OK success_msg, snd sent)
  end.

(** The response the client receives, exceptions rendered. *)
Definition response (settings : Settings.t) (users : list User.t)
    (data : option string) : Response.t :=
  match post settings users data with
  | inr out => fst out
  | inl e => Response.exception_handler e
  end.
End View.

End PasswordResetRequestView.


(* ===================================================================== *)
(** * apps/accounts/cloudinary_utils.py                                   *)
(* ===================================================================== *)
Module CloudinaryUtils.
Import Py.

(** The attributes of an [UploadedFile] that the code reads. *)
Record UploadedFile : Type := mkFile {
  name : string;
  content_type : string;
  size : N
}.

Definition ALLOWED_IMAGE_TYPES : gset string :=
  {[ "image/jpeg"; "image/png"; "image/gif"; "image/webp" ]}.
Definition MAX_IMAGE_SIZE : N := 5 * 1024 * 1024.
Definition PROFILE_IMAGE_FOLDER : string := "ese-task-manager/profiles".

(** [ImageValidationError] and the [RuntimeError] of a failed upload. *)
Inductive Error : Type :=
| ImageValidationError (message : string)
| RuntimeError (message : string).

(** Decimal digits, least significant first; [str(n)] and
    [format(n, ",")] for a natural number. *)
Fixpoint decimal_rev (fuel : nat) (n : N) : list ascii :=
  match fuel with
  | O => []
  | S fuel' =>
      if (n <? 10)%N then [ascii_of_N (48 + n)]
      else ascii_of_N (48 + n mod 10) :: decimal_rev fuel' (n / 10)
  end.

Fixpoint group_rev (digits : list ascii) : list ascii :=
  match digits with
  | a :: ((b :: (c :: rest) as tail2) as tail1) =>
      match rest with
      | [] => digits
      | _ :: _ => a :: b :: c :: ","%char :: group_rev rest
      end
  | _ => digits
  end.

Definition str_int (n : N) : string :=
  string_of_list_ascii (rev (decimal_rev (S (N.to_nat (N.log2 n))) n)).

Definition format_thousands (n : N) : string :=
  string_of_list_ascii
    (rev (group_rev (decimal_rev (S (N.to_nat (N.log2 n))) n))).

Definition validate_image (image_file : UploadedFile) : Error + unit :=
  if negb (bool_decide (content_type image_file ∈ ALLOWED_IMAGE_TYPES))
  then
    let allowed := join ", " (sorted (elements ALLOWED_IMAGE_TYPES)) in
    inl (ImageValidationError
           ("Unsupported file type '" +:+ content_type image_file +:+ "'. "
            +:+ "Allowed: " +:+ allowed))
  else if (MAX_IMAGE_SIZE <? size image_file)%N
  then
    let mb := (MAX_IMAGE_SIZE / (1024 * 1024))%N in
    inl (ImageValidationError
           ("Image file size (" +:+ format_thousands (size image_file)
            +:+ " bytes) exceeds " +:+ "the " +:+ str_int mb
            +:+ " MB limit."))
  else inr tt.

(** The keyword arguments of [cloudinary.uploader.upload] that depend on
    the call; a key whose value is [None] is removed before the call.
    The transformation and the resource type are constants. *)
Record UploadKwargs : Type := mkKwargs {
  folder : option string;
  public_id : option string;
  overwrite : bool
}.

Section Upload.
  (** [cloudinary.uploader.upload(...)[secure_url]]: the URL, or [None]
      when the call or the subscript raises. *)
Variable uploader : UploadedFile -> UploadKwargs -> option string.

Definition upload_profile_image (image_file : UploadedFile)
    (user_id : option string) : Error + string :=
  match validate_image image_file with
  | inl e => inl e
  | inr _ =>
      let public_id :=
        match user_id with
        | Some u =>
            if truthy u then Some (PROFILE_IMAGE_FOLDER +:+ "/" +:+ u)
            else None
        | None => None
        end in
      let upload_kwargs :=
        mkKwargs (match public_id with
                  | None => Some PROFILE_IMAGE_FOLDER
                  | Some _ => None
                  end)
                 public_id true in
      match uploader image_file upload_kwargs with
      | Some url => inr url
      | None => inl (RuntimeError "Image upload to Cloudinary failed.")
      end
  end.
End Upload.

End CloudinaryUtils.

(** [ProfileImageUploadView] of apps/accounts/views.py.  The column
    [profile_image] of the user table is a map from primary keys to
    URLs. *)
Module ProfileImageUploadView.
Import Py.

Record Reply : Type := mkReply {
  status_code : nat;
  detail : string;
  profile_image : option string
}.

Section View.
Variable uploader
  : CloudinaryUtils.UploadedFile -> CloudinaryUtils.UploadKwargs
    -> option string.
(** [str(request.user.pk)]. *)
Variable str_pk : uuid -> string.

(** [post]: [image] is [request.FILES.get(image)]; a file object is
    truthy when its name is not empty. *)
Definition post (profiles : gmap N string) (user : uuid)
    (image : option CloudinaryUtils.UploadedFile)
  : Reply * gmap N string :=
  match image with
  | None =>
      (mkReply Response.HTTP_400_BAD_REQUEST "No image file provided." None,
       profiles)
  | Some file =>
      if negb (truthy (CloudinaryUtils.name file))
      then (mkReply Response.HTTP_400_BAD_REQUEST "No image file provided."
              None, profiles)
      else
        match CloudinaryUtils.upload_profile_image uploader file
                (Some (str_pk user)) with
        | inl (CloudinaryUtils.ImageValidationError exc) =>
            (mkReply Response.HTTP_400_BAD_REQUEST exc None, profiles)
        | inl (CloudinaryUtils.RuntimeError _) =>
            (mkReply Response.HTTP_500_INTERNAL_SERVER_ERROR
               "Image upload failed. Please try again later." None,
             profiles)
        | inr url =>
            (mkReply Response.HTTP_200_OK
               "Profile image uploaded successfully." (Some url),
             <[ user := url ]> profiles)
        end
  end.
End View.

End ProfileImageUploadView.

(* ===================================================================== *)
(** * The timestamps of the task table                                    *)
(* ===================================================================== *)
(** [created_at = DateTimeField(auto_now_add=True)] and
    [updated_at = DateTimeField(auto_now=True)] of apps/tasks/models.py,
    as two maps from primary keys to instants, with the routes of
    [TaskViewSet] that write or read them.  [now] is the instant of the
    save. *)
Module TaskTimestamps.
Import Py.

Record t : Type := mk {
  created_at : gmap N Z;
  updated_at : gmap N Z
}.

(** [create]: the insert sets both columns of the new row. *)
Definition create (db : Database.t) (stamps : t) (today : date) (now : Z)
    (new_id : uuid) (request : Request.t) (data : TaskSerializer.Data.t)
  : result (Response.t * Database.t * t) :=
  let? out := TaskViewSet.create db today new_id request data in
  ret (out, mk (<[ new_id := now ]> (created_at stamps))
               (<[ new_id := now ]> (updated_at stamps))).

(** [partial_update]: [ModelSerializer.update] ends in [instance.save()],
    which sets [updated_at] of the row whatever the body carries. *)
Definition partial_update (db : Database.t) (stamps : t) (today : date)
    (now : Z) (request : Request.t) (key : uuid)
    (data : TaskSerializer.Data.t)
  : result (Response.t * Database.t * t) :=
  let? out := TaskViewSet.partial_update db today request key data in
  ret (out, mk (created_at stamps) (<[ key := now ]> (updated_at stamps))).

(** [order_by(-created_at)], the [ordering] of the view set that
    [OrderingFilter] applies to a request without ordering parameter.
    The database fixes no order among rows with the same instant; here
    they stay in table order. *)
Fixpoint insert_desc (key : Task.t -> Z) (x : Task.t) (l : list Task.t)
  : list Task.t :=
  match l with
  | [] => [x]
  | y :: l' => if key x <? key y then y :: insert_desc key x l' else x :: l
  end.

Definition order_by_desc (key : Task.t -> Z) (queryset : list Task.t)
  : list Task.t :=
  fold_right (insert_desc key) [] queryset.

Definition created (stamps : t) (row : Task.t) : Z :=
  default 0 (created_at stamps !! Task.id row).

(** [list]: the filter backends in their order (the declared filters,
    then the ordering), then the page. *)
Definition list (db : Database.t) (stamps : t) (today : date)
    (request : Request.t) : result (Response.t * Database.t) :=
  let? queryset := TaskViewSet.filter_queryset today request
                     (TaskViewSet.get_queryset db request) in
  let queryset := order_by_desc (created stamps) queryset in
  let? page := Pagination.paginate_queryset (Request.page request) queryset in
  ret (Response.mk Response.HTTP_200_OK
         (Response.TaskPage (Orm.count queryset)
            (map (TaskViewSet.render db today) page)),
       db).

End TaskTimestamps.
(* ===================================================================== *)
(** * Vocabulary of the properties                                        *)
(* ===================================================================== *)
Module Spec.
Import Py.

(** A field result that is a value or a bare validation message. *)
Definition tame {A} (r : result A) : Prop :=
  match r with
  | inr _ | inl (ValidationError (Message _)) => True
  | inl _ => False
  end.

Definition field_errors {A} (field : string) (r : result A)
  : list (string * string) :=
  match r with
  | inl (ValidationError (Message m)) => [(field, m)]
  | _ => []
  end.

Definition stored {S A} (r : result (option A)) (set : A -> S -> S) (s : S)
  : S :=
  match r with inr (Some v) => set v s | _ => s end.

(** The fields of a task request and what they contribute. *)
Section TaskFields.
Import TaskSerializer.
Variables (categories : list Category.t) (today : date)
          (request : option uuid) (instance : option Task.t)
          (partial : bool) (data : Data.t).

Definition r_title := title_field partial (Data.title data).
Definition r_description := description_field (Data.description data).
Definition r_status := choice_field Task.Status.values (Data.status data).
Definition r_priority :=
  choice_field Task.Priority.values (Data.priority data).
Definition r_due_date := due_date_field today instance (Data.due_date data).
Definition r_category :=
  category_field categories request (Data.category data).

Definition collected_attrs : Attrs.t :=
  stored r_category Attrs.set_category
    (stored r_due_date Attrs.set_due_date
       (stored r_priority Attrs.set_priority
          (stored r_status Attrs.set_status
             (stored r_description Attrs.set_description
                (stored r_title Attrs.set_title Attrs.empty))))).

Definition collected_errors : list (string * string) :=
  (field_errors "title" r_title ++ field_errors "description" r_description
   ++ field_errors "status" r_status ++ field_errors "priority" r_priority
   ++ field_errors "due_date" r_due_date
   ++ field_errors "category" r_category)%list.
End TaskFields.

(** The PATCH bodies with a single key. *)
Definition patch_status (s : string) : TaskSerializer.Data.t :=
  TaskSerializer.Data.mk None None (Some s) None None None.

Definition patch_title (s : string) : TaskSerializer.Data.t :=
  TaskSerializer.Data.mk (Some s) None None None None None.

(** A request body with its due-date key replaced. *)
Definition with_due_date (v : option (option date))
    (data : TaskSerializer.Data.t) : TaskSerializer.Data.t :=
  TaskSerializer.Data.mk
    (TaskSerializer.Data.title data) (TaskSerializer.Data.description data)
    (TaskSerializer.Data.status data) (TaskSerializer.Data.priority data)
    v (TaskSerializer.Data.category data).

(** The transition table as the specification gives it. *)
Definition transition_allowed (current requested : Task.Status.t) : bool :=
  match current, requested with
  | Task.Status.TODO, Task.Status.TODO
  | Task.Status.TODO, Task.Status.IN_PROGRESS
  | Task.Status.IN_PROGRESS, Task.Status.IN_PROGRESS
  | Task.Status.IN_PROGRESS, Task.Status.DONE
  | Task.Status.IN_PROGRESS, Task.Status.TODO
  | Task.Status.DONE, Task.Status.DONE
  | Task.Status.DONE, Task.Status.TODO => true
  | _, _ => false
  end.

(** The allowed targets in the order the error message lists them. *)
Definition allowed_sorted (current : Task.Status.t) : list string :=
  match current with
  | Task.Status.TODO => ["in_progress"; "todo"]
  | Task.Status.IN_PROGRESS => ["done"; "in_progress"; "todo"]
  | Task.Status.DONE => ["done"; "todo"]
  end.

Definition transition_message (current requested : Task.Status.t) : string :=
  "Invalid transition from '" +:+ Task.Status.value current +:+ "' to '"
  +:+ Task.Status.value requested +:+ "'. Allowed: "
  +:+ join ", " (allowed_sorted current) +:+ ".".

(** Overdue, in the words of the specification: a due date is set, it is
    strictly before the current date, and the status is not done. *)
Definition overdue_spec (today : date) (t : Task.t) : Prop :=
  exists d, Task.due_date t = Some d /\ d < today /\ Task.status t <> "done".

(** The query string [overdue=true] or [overdue=false] and nothing else. *)
Definition overdue_params (b : bool) : TaskFilter.Params.t :=
  TaskFilter.Params.mk None None None (Some b) None None.

(** The two query parameters that take comma-separated values. *)
Inductive csv_param : Type := status_param | priority_param.

Definition param_name (p : csv_param) : string :=
  match p with status_param => "status" | priority_param => "priority" end.

Definition param_column (p : csv_param) : Task.t -> string :=
  match p with status_param => Task.status | priority_param => Task.priority end.

Definition param_query (p : csv_param) (raw : string) : TaskFilter.Params.t :=
  match p with
  | status_param => TaskFilter.Params.mk (Some raw) None None None None None
  | priority_param => TaskFilter.Params.mk None (Some raw) None None None None
  end.

(** Every character of a string is white space. *)
Fixpoint all_space (s : string) : bool :=
  match s with
  | EmptyString => true
  | String c s' => isspace c && all_space s'
  end.

(** A character occurs in a string. *)
Fixpoint occurs (c : ascii) (s : string) : bool :=
  match s with
  | EmptyString => false
  | String c' s' => Ascii.eqb c' c || occurs c s'
  end.

(** Two names are equal up to the case of their letters. *)
Definition same_name (a b : string) : Prop :=
  Orm.sql_upper a = Orm.sql_upper b.

(** The invariant of the category table: per owner, names are unique up
    to case. *)
Definition names_unique (objects : list Category.t) : Prop :=
  forall c1 c2,
    In c1 objects -> In c2 objects ->
    Category.user c1 = Category.user c2 ->
    same_name (Category.name c1) (Category.name c2) ->
    Category.id c1 = Category.id c2.

Definition duplicate_name_message : string :=
  "You already have a category with this name.".

(** A submitted address that passes [EmailField], and the address the
    view then looks up. *)
Definition well_formed (email_validator : string -> bool) (raw : string)
  : Prop :=
  strip raw <> EmptyString /\ email_validator (strip raw) = true.

Definition looked_up (raw : string) : string :=
  PasswordResetRequestSerializer.validate_email (strip raw).

(** The answer to a lookup that finds nothing. *)
Definition not_found : Response.t :=
  Response.mk Response.HTTP_404_NOT_FOUND (Response.Detail "Not found.").

(** The rows shown by a list response. *)
Definition listed_tasks (r : Response.t) : list Task.t :=
  match Response.data r with
  | Response.TaskPage _ results => map TaskSerializer.task results
  | _ => []
  end.

Definition listed_categories (r : Response.t) : list Category.t :=
  match Response.data r with
  | Response.CategoryPage _ results => map fst results
  | _ => []
  end.

(** The number of rows of a queryset that satisfy a test. *)
Definition count_where (f : Task.t -> bool) (qs : list Task.t) : nat :=
  length (List.filter f qs).

(** The status column of the stored row with a given primary key. *)
Definition stored_task (db : Database.t) (key : uuid) : option Task.t :=
  List.find (fun t => N.eqb (Task.id t) key) (Database.tasks db).

Definition stored_status (db : Database.t) (key : uuid) : option string :=
  option_map Task.status (stored_task db key).

End Spec.


(** Concrete rows and requests on which the properties are exercised. *)
Module Fixtures.

Definition alice : uuid := 7%N.
Definition bob : uuid := 8%N.
Definition today : date := 739000.

Definition work : Category.t := Category.mk 20%N "Work" "#ef4444" alice.
Definition bobs_work : Category.t := Category.mk 21%N "Work" "#6366f1" bob.

Definition t_todo : Task.t :=
  Task.mk 1%N "Write report" "" "todo" "medium" (Some 738990) None alice.
Definition t_doing : Task.t :=
  Task.mk 2%N "Review" "" "in_progress" "high" (Some 738999) (Some 20%N) alice.
Definition t_done : Task.t :=
  Task.mk 3%N "Ship" "" "done" "urgent" (Some 738000) None alice.
Definition t_undated : Task.t :=
  Task.mk 4%N "Someday" "" "todo" "low" None None alice.
Definition t_bob : Task.t :=
  Task.mk 5%N "Bob's task" "" "todo" "medium" (Some 738000) None bob.

Definition db : Database.t :=
  Database.mk [work; bobs_work] [t_todo; t_doing; t_done; t_undated; t_bob].

Definition carol : uuid := 9%N.

Definition users : list User.t :=
  [User.mk alice "alice" "alice@example.com" "Alice" true;
   User.mk bob "bob" "bob@example.com" "" false].

Definition settings : Settings.t :=
  Settings.mk "SG.key" None "http://localhost:5173".

Definition has_at_sign (s : string) : bool := Spec.occurs "@" s.
Definition accepting_client (key : string) (m : Emails.Mail) : option nat :=
  Some 202%nat.
Definition failing_client (key : string) (m : Emails.Mail) : option nat := None.
Definition encode_key (k : uuid) : string := "uid".
Definition token_of (u : User.t) : string := "token".

Definition as_carol : Request.t :=
  Request.mk carol TaskFilter.Params.empty 1.

Definition as_alice : Request.t :=
  Request.mk alice TaskFilter.Params.empty 1.
Definition as_bob : Request.t :=
  Request.mk bob TaskFilter.Params.empty 1.

(** The instants at which the five tasks were created and last saved. *)
Definition stamps : TaskTimestamps.t :=
  TaskTimestamps.mk
    (list_to_map [(1%N, 100); (2%N, 200); (3%N, 300); (4%N, 400); (5%N, 150)])
    (list_to_map [(1%N, 100); (2%N, 250); (3%N, 300); (4%N, 400); (5%N, 150)]).

(** A creation body that supplies a status. *)
Definition new_done_task : TaskSerializer.Data.t :=
  TaskSerializer.Data.mk (Some "T") None (Some "done") None None None.

End Fixtures.

(* ===================================================================== *)
(** * Vocabulary of the further properties                                *)
(* ===================================================================== *)
Module Cover.
Import Py.

(** One comma-separated parameter as a test on a row: absent, or with no
    value left, it lets every row through. *)
Definition csv_ok (col : Task.t -> string) (raw : option string) (t : Task.t)
  : bool :=
  match raw with
  | None => true
  | Some s =>
      match TaskFilter.csv_values s with
      | [] => true
      | values => str_in (col t) values
      end
  end.

Definition when {A} (v : option A) (test : A -> bool) : bool :=
  match v with None => true | Some x => test x end.

(** The six declared filters as one test on a row. *)
Definition passes (today : date) (params : TaskFilter.Params.t) (t : Task.t)
  : bool :=
  csv_ok Task.status (TaskFilter.Params.status params) t
  && csv_ok Task.priority (TaskFilter.Params.priority params) t
  && when (TaskFilter.Params.category params)
          (fun c => bool_decide (Task.category t = Some c))
  && when (TaskFilter.Params.overdue params)
          (fun b => Bool.eqb (Task.is_overdue today t) b)
  && when (TaskFilter.Params.due_date_min params)
          (fun d => match Task.due_date t with
                    | Some v => d <=? v
                    | None => false
                    end)
  && when (TaskFilter.Params.due_date_max params)
          (fun d => match Task.due_date t with
                    | Some v => v <=? d
                    | None => false
                    end).

(** Query parameters that the filter form lets through.  The category,
    the overdue flag and the date bounds are held as parsed, so a text
    that is no UUID or no date, for which the form answers 400, is no
    value of theirs; of the two text parameters the form refuses a value
    with a NUL character. *)
Definition form_accepts (params : TaskFilter.Params.t) : Prop :=
  (forall s, TaskFilter.Params.status params = Some s ->
             Spec.occurs "000" s = false)
  /\ (forall s, TaskFilter.Params.priority params = Some s ->
                Spec.occurs "000" s = false).

(** Every category reference of a task points to a stored category of the
    task's owner. *)
Definition refs_owned (db : Database.t) : Prop :=
  forall t k,
    In t (Database.tasks db) -> Task.category t = Some k ->
    exists c, In c (Database.categories db)
              /\ Category.id c = k /\ Category.user c = Task.user t.

(** Both primary keys are unique. *)
Definition keys_unique (db : Database.t) : Prop :=
  List.NoDup (map Task.id (Database.tasks db))
  /\ List.NoDup (map Category.id (Database.categories db)).

(** The rows of one user. *)
Definition tasks_of (owner : uuid) (db : Database.t) : list Task.t :=
  List.filter (fun t => N.eqb (Task.user t) owner) (Database.tasks db).

Definition categories_of (owner : uuid) (db : Database.t) : list Category.t :=
  List.filter (fun c => N.eqb (Category.user c) owner) (Database.categories db).

(** A write request to the task application. *)
Inductive Write : Type :=
| TaskCreate (new_id : uuid) (data : TaskSerializer.Data.t)
| TaskUpdate (key : uuid) (data : TaskSerializer.Data.t)
| TaskDestroy (key : uuid)
| CategoryCreate (new_id : uuid) (data : CategorySerializer.Data.t)
| CategoryUpdate (key : uuid) (data : CategorySerializer.Data.t)
| CategoryDestroy (key : uuid).

(** The handler a write request is routed to, behind [dispatch]. *)
Definition perform (db : Database.t) (today : date) (request : Request.t)
    (w : Write) : Response.t * Database.t :=
  Response.dispatch db
    match w with
    | TaskCreate new_id data => TaskViewSet.create db today new_id request data
    | TaskUpdate key data =>
        TaskViewSet.partial_update db today request key data
    | TaskDestroy key => TaskViewSet.destroy db today request key
    | CategoryCreate new_id data =>
        CategoryViewSet.create db new_id request data
    | CategoryUpdate key data =>
        CategoryViewSet.partial_update db request key data
    | CategoryDestroy key => CategoryViewSet.destroy db request key
    end.

(** The database after a sequence of write requests, each with its date
    and its requester. *)
Definition run (db : Database.t) (steps : list (date * Request.t * Write))
  : Database.t :=
  fold_left (fun d step => snd (perform d (fst (fst step)) (snd (fst step))
                                       (snd step)))
            steps db.

Definition empty_database : Database.t := Database.mk [] [].

(** A status from which the requested one is one accepted step away and
    which is itself one accepted step from the current one. *)
Definition via (current requested : Task.Status.t) : Task.Status.t :=
  match current, requested with
  | Task.Status.TODO, Task.Status.DONE => Task.Status.IN_PROGRESS
  | Task.Status.DONE, Task.Status.IN_PROGRESS => Task.Status.TODO
  | _, _ => current
  end.

(** A task with its category reference cleared. *)
Definition uncategorised (t : Task.t) : Task.t :=
  Task.mk (Task.id t) (Task.title t) (Task.description t) (Task.status t)
    (Task.priority t) (Task.due_date t) None (Task.user t).

(** A hash sign followed by exactly six hexadecimal digits. *)
Definition hex_colour (v : string) : bool :=
  match v with
  | String h digits =>
      Ascii.eqb h "#" && (String.length digits =? 6)%nat
      && forallb CategorySerializer.is_hex (list_ascii_of_string digits)
  | EmptyString => false
  end.

(** No white space at either end. *)
Definition trimmed (v : string) : Prop := strip v = v.

(** What the serializers promise of the stored text columns. *)
Definition valid_task (t : Task.t) : Prop :=
  Task.title t <> EmptyString
  /\ (String.length (Task.title t) <= 200)%nat
  /\ trimmed (Task.title t)
  /\ trimmed (Task.description t)
  /\ In (Task.status t) Task.Status.values
  /\ In (Task.priority t) Task.Priority.values.

Definition valid_category (c : Category.t) : Prop :=
  Category.name c <> EmptyString
  /\ (String.length (Category.name c) <= 100)%nat
  /\ trimmed (Category.name c)
  /\ hex_colour (Category.colour c) = true.

Definition columns_valid (db : Database.t) : Prop :=
  (forall t, In t (Database.tasks db) -> valid_task t)
  /\ (forall c, In c (Database.categories db) -> valid_category c).

(** The link of a reset mail, and the occurrence of a text in another. *)
Definition reset_link (settings : Settings.t) (uid token : string) : string :=
  Settings.FRONTEND_BASE_URL settings +:+ "/password-reset/confirm?uid="
  +:+ uid +:+ "&token=" +:+ token.

Definition contains (part whole : string) : Prop :=
  exists before after, whole = before +:+ part +:+ after.

(** A request with its page parameter replaced, and the tasks the list
    route shows for it. *)
Definition on_page (request : Request.t) (p : nat) : Request.t :=
  Request.mk (Request.user request) (Request.query_params request) p.

Definition shown (db : Database.t) (stamps : TaskTimestamps.t) (today : date)
    (request : Request.t) (p : nat) : list Task.t :=
  Spec.listed_tasks
    (fst (Response.dispatch db
            (TaskTimestamps.list db stamps today (on_page request p)))).

(** Newest first: no row comes before one that was created later. *)
Definition newest_first (stamps : TaskTimestamps.t) (rows : list Task.t)
  : Prop :=
  StronglySorted
    (fun a b => TaskTimestamps.created stamps b
                <= TaskTimestamps.created stamps a)
    rows.

(** An upload that passes the checks made before Cloudinary is called:
    one of the four image types, and at most five mebibytes. *)
Definition acceptable (file : CloudinaryUtils.UploadedFile) : bool :=
  str_in (CloudinaryUtils.content_type file)
         ["image/jpeg"; "image/png"; "image/gif"; "image/webp"]
  && (CloudinaryUtils.size file <=? 5242880)%N.

(** The arguments of the upload for a user whose key is written [pk]. *)
Definition profile_kwargs (pk : string) : CloudinaryUtils.UploadKwargs :=
  CloudinaryUtils.mkKwargs None (Some ("ese-task-manager/profiles/" +:+ pk))
    true.

Definition unsupported_type_message (content_type : string) : string :=
  "Unsupported file type '" +:+ content_type
  +:+ "'. Allowed: image/gif, image/jpeg, image/png, image/webp".

(** The number of tasks filed under a category key. *)
Definition filed_under (key : uuid) (tasks : list Task.t) : nat :=
  length (List.filter (fun t => bool_decide (Task.category t = Some key))
                      tasks).

(** The constraint [unique_category_per_user] of the category table. *)
Definition unique_category_per_user (objects : list Category.t) : Prop :=
  forall c1 c2,
    In c1 objects -> In c2 objects ->
    Category.name c1 = Category.name c2 ->
    Category.user c1 = Category.user c2 ->
    c1 = c2.

Definition foreign_category_message : string :=
  "You can only assign your own categories.".

(** The entry of a stats dictionary, 0 for a key it does not have. *)
Definition entry (d : gmap string nat) (key : string) : nat :=
  default 0%nat (d !! key).

End Cover.
(* ===================================================================== *)
(** * Properties                                                          *)
(* ===================================================================== *)

(** Run a handler whose steps are known: unfold the exception plumbing. *)
Ltac run_handler :=
  cbv beta iota zeta delta
    [Py.bind Py.ret Py.raise Response.dispatch Response.exception_handler
     Drf.as_serializer_error fst snd].

(** ** Python strings *)
Section PyFacts.
Import Py Spec.

Lemma append_cons c (l s : string) : (String c l +:+ s) = String c (l +:+ s).
Proof. reflexivity. Qed.

Lemma append_nil (s : string) : ("" +:+ s) = s.
Proof. reflexivity. Qed.

Lemma split_not_nil sep s : split sep s <> [].
Proof.
  destruct s as [|c s]; cbn [split]; [discriminate|].
  destruct (Ascii.eqb c sep); [discriminate|].
  destruct (split sep s); discriminate.
Qed.

(** Splitting loses nothing: joining the segments with the separator gives
    the string back. *)
Lemma split_join sep s : join (String sep EmptyString) (split sep s) = s.
Proof.
  induction s as [|c s IH]; cbn [split]; [reflexivity|].
  destruct (Ascii.eqb c sep) eqn:E.
  - apply Ascii.eqb_eq in E. subst c.
    pose proof (split_not_nil sep s) as Hne.
    destruct (split sep s) as [|seg rest]; [contradiction|].
    change (join (String sep "") ("" :: seg :: rest))
      with (String sep (join (String sep "") (seg :: rest))).
    rewrite IH. reflexivity.
  - pose proof (split_not_nil sep s) as Hne.
    destruct (split sep s) as [|seg rest]; [contradiction|].
    destruct rest as [|seg' rest].
    + cbn [join] in *. rewrite IH. reflexivity.
    + change (join (String sep "") (String c seg :: seg' :: rest))
        with (String c (join (String sep "") (seg :: seg' :: rest))).
      rewrite IH. reflexivity.
Qed.

(** No segment contains the separator. *)
Lemma split_no_sep sep s seg : In seg (split sep s) -> occurs sep seg = false.
Proof.
  revert seg. induction s as [|c s IH]; cbn [split]; intros seg Hin.
  - destruct Hin as [<-|[]]. reflexivity.
  - destruct (Ascii.eqb c sep) eqn:E.
    + destruct Hin as [<-|Hin]; [reflexivity | apply IH; exact Hin].
    + pose proof (split_not_nil sep s) as Hne.
      destruct (split sep s) as [|seg0 rest]; [contradiction|].
      destruct Hin as [<-|Hin].
      * cbn [occurs]. rewrite E. apply IH. left. reflexivity.
      * apply IH. right. exact Hin.
Qed.

Lemma lstrip_decompose s :
  exists l, s = (l ++ lstrip s)%string /\ all_space l = true.
Proof.
  induction s as [|c s [l [Hl Hs]]]; cbn [lstrip].
  - exists "". split; reflexivity.
  - destruct (isspace c) eqn:E.
    + exists (String c l). split.
      * rewrite append_cons, <- Hl. reflexivity.
      * cbn [all_space]. rewrite E, Hs. reflexivity.
    + exists "". split; reflexivity.
Qed.

Lemma rstrip_decompose s :
  exists r, s = (rstrip s ++ r)%string /\ all_space r = true.
Proof.
  induction s as [|c s [r [Hr Hs]]]; cbn [rstrip].
  - exists "". split; reflexivity.
  - destruct (rstrip s) as [|c' t] eqn:Ht.
    + destruct (isspace c) eqn:E.
      * exists (String c s). split; [reflexivity|].
        cbn [all_space]. rewrite E. rewrite append_nil in Hr. rewrite Hr.
        exact Hs.
      * exists r. split; [|exact Hs].
        rewrite append_cons, append_nil. rewrite append_nil in Hr.
        rewrite <- Hr. reflexivity.
    + exists r. split; [|exact Hs].
      rewrite append_cons, <- Hr. reflexivity.
Qed.

(** [strip] removes a run of white space at each end and nothing else. *)
Lemma strip_decompose s :
  exists l r, s = (l ++ strip s ++ r)%string
              /\ all_space l = true /\ all_space r = true.
Proof.
  destruct (lstrip_decompose s) as [l [Hl Hls]].
  destruct (rstrip_decompose (lstrip s)) as [r [Hr Hrs]].
  exists l, r. unfold strip. rewrite <- Hr. auto.
Qed.

(** What [lstrip] leaves does not start with white space; what [rstrip]
    leaves is empty or ends with a character that is not white space. *)
Lemma lstrip_head s c t : lstrip s = String c t -> isspace c = false.
Proof.
  induction s as [|c' s IH]; cbn [lstrip]; [discriminate|].
  destruct (isspace c') eqn:E; [exact IH|]. intros [= <- <-]. exact E.
Qed.

Lemma rstrip_all_space s : rstrip s = EmptyString <-> all_space s = true.
Proof.
  induction s as [|c s IH]; cbn [rstrip all_space]; [tauto|].
  destruct (rstrip s) as [|c' t].
  - destruct (isspace c); cbn [andb].
    + split; [intros _; apply IH; reflexivity | reflexivity].
    + split; discriminate.
  - split; [discriminate|]. intros H. apply andb_true_iff in H.
    destruct H as [_ H]. apply IH in H. discriminate.
Qed.

Lemma strip_head s c t : strip s = String c t -> isspace c = false.
Proof.
  unfold strip. intros H.
  destruct (lstrip s) as [|c' u] eqn:El; [discriminate H|].
  pose proof (lstrip_head _ _ _ El) as Hc'.
  cbn [rstrip] in H.
  destruct (rstrip u); [rewrite Hc' in H|];
    injection H as <- _; exact Hc'.
Qed.

(** The two one-sided strips commute. *)
Lemma strip_commute s : rstrip (lstrip s) = lstrip (rstrip s).
Proof.
  induction s as [|c s IH]; [reflexivity|]. cbn [lstrip rstrip].
  destruct (isspace c) eqn:E.
  - rewrite IH. destruct (rstrip s) as [|c' r]; [reflexivity|].
    cbn [lstrip]. rewrite E. reflexivity.
  - cbn [rstrip]. destruct (rstrip s) as [|c' r]; rewrite ?E; cbn [lstrip];
      rewrite E; reflexivity.
Qed.

Lemma all_space_occurs c s :
  isspace c = false -> all_space s = true -> occurs c s = false.
Proof.
  intros Hc. induction s as [|c' s IH]; cbn [all_space occurs]; [reflexivity|].
  intros H. apply andb_true_iff in H. destruct H as [H1 H2].
  rewrite (IH H2), orb_false_r.
  destruct (Ascii.eqb c' c) eqn:E; [|reflexivity].
  apply Ascii.eqb_eq in E. subst c'. congruence.
Qed.

Lemma split_no_occurrence sep s : occurs sep s = false -> split sep s = [s].
Proof.
  induction s as [|c s IH]; cbn [occurs split]; [reflexivity|].
  intros H. apply orb_false_iff in H. destruct H as [H1 H2].
  rewrite H1, (IH H2). reflexivity.
Qed.

(** White space at the end of the string only touches what [rstrip]
    removes from the last segment. *)
Lemma split_trailing_space sep a b :
  isspace sep = false -> all_space b = true ->
  map rstrip (split sep (a +:+ b)) = map rstrip (split sep a).
Proof.
  intros Hsep Hb. induction a as [|c a IH].
  - rewrite append_nil, (split_no_occurrence sep b)
      by (apply all_space_occurs; assumption).
    cbn [split map rstrip]. f_equal. apply rstrip_all_space. exact Hb.
  - rewrite append_cons. cbn [split].
    destruct (Ascii.eqb c sep); [cbn [map]; rewrite IH; reflexivity|].
    pose proof (split_not_nil sep (a +:+ b)) as H1.
    pose proof (split_not_nil sep a) as H2.
    destruct (split sep (a +:+ b)) as [|seg rest]; [contradiction|].
    destruct (split sep a) as [|seg' rest']; [contradiction|].
    cbn [map] in *. injection IH as Hseg Hrest.
    cbn [rstrip]. rewrite Hseg, Hrest. reflexivity.
Qed.

Lemma split_leading_space sep s :
  isspace sep = false ->
  map strip (split sep (lstrip s)) = map strip (split sep s).
Proof.
  intros Hsep. induction s as [|c s IH]; [reflexivity|]. cbn [lstrip].
  destruct (isspace c) eqn:E; [|reflexivity].
  rewrite IH. cbn [split].
  destruct (Ascii.eqb c sep) eqn:Ec.
  { apply Ascii.eqb_eq in Ec. subst c. congruence. }
  pose proof (split_not_nil sep s) as H.
  destruct (split sep s) as [|seg rest]; [contradiction|].
  cbn [map]. f_equal. unfold strip. cbn [lstrip]. rewrite E. reflexivity.
Qed.

(** Trimming the whole string first does not change the trimmed
    segments. *)
Lemma split_strip sep s :
  isspace sep = false ->
  map strip (split sep (strip s)) = map strip (split sep s).
Proof.
  intros Hsep. rewrite <- (split_leading_space sep s Hsep).
  unfold strip at 2. destruct (rstrip_decompose (lstrip s)) as [r [Hr Hs]].
  assert (H : map rstrip (split sep (lstrip s))
              = map rstrip (split sep (rstrip (lstrip s)))).
  { rewrite Hr at 1. apply split_trailing_space; assumption. }
  assert (Hstrip : forall l : list string,
             map strip l = map lstrip (map rstrip l)).
  { intros l. rewrite map_map. apply map_ext. intros x. apply strip_commute. }
  rewrite !Hstrip, H. reflexivity.
Qed.

Lemma truthy_true s : truthy s = true <-> s <> EmptyString.
Proof. destruct s; cbn; split; congruence. Qed.
End PyFacts.

Ltac run_dispatch :=
  cbv beta iota zeta delta
    [Py.bind Py.ret Py.raise Response.dispatch fst snd].

(** ** Querysets *)
Section OrmFacts.
Context {Row : Type}.
Implicit Types (q : Orm.Q Row) (r : Row) (qs : list Row).

Lemma sql_and_true (a b : option bool) :
  Orm.sql_and a b = Some true <-> a = Some true /\ b = Some true.
Proof. destruct a as [[]|], b as [[]|]; simpl; intuition congruence. Qed.

Lemma sql_and_false (a b : option bool) :
  Orm.sql_and a b = Some false <-> a = Some false \/ b = Some false.
Proof. destruct a as [[]|], b as [[]|]; simpl; intuition congruence. Qed.

Lemma sql_not_true (a : option bool) :
  Orm.sql_not a = Some true <-> a = Some false.
Proof. destruct a as [[]|]; simpl; intuition congruence. Qed.

Lemma sql_not_false (a : option bool) :
  Orm.sql_not a = Some false <-> a = Some true.
Proof. destruct a as [[]|]; simpl; intuition congruence. Qed.

(** The emitted WHERE clause is TRUE exactly on the rows that match the
    [Q] object; built under a negation it is FALSE exactly on the rows
    that do not. *)
Lemma build_sound q r :
  (Orm.eval (Orm.build false q) r = Some true <-> Orm.matches q r = true)
  /\ (Orm.eval (Orm.build true q) r = Some false <-> Orm.matches q r = false).
Proof.
  induction q as [l | q1 [IH1p IH1n] q2 [IH2p IH2n] | q' [IHp IHn]]; simpl.
  - destruct l as [A get test | A get test]; simpl.
    + split; split; congruence.
    + destruct (get r) as [a|]; simpl.
      * destruct (test a); simpl; split; split; congruence.
      * split; split; congruence.
  - rewrite sql_and_true, sql_and_false, IH1p, IH2p, IH1n, IH2n.
    rewrite andb_true_iff, andb_false_iff. tauto.
  - rewrite sql_not_true, sql_not_false, IHp, IHn.
    rewrite negb_true_iff, negb_false_iff. tauto.
Qed.

Lemma selected_matches q r :
  Orm.selected (Orm.build false q) r = Orm.matches q r.
Proof.
  unfold Orm.selected.
  destruct (build_sound q r) as [Hp _].
  destruct (Orm.matches q r).
  - rewrite (proj2 Hp eq_refl). reflexivity.
  - destruct (Orm.eval (Orm.build false q) r) as [[]|]; try reflexivity.
    discriminate (proj1 Hp eq_refl).
Qed.

Lemma filter_matches q qs :
  Orm.filter q qs = List.filter (Orm.matches q) qs.
Proof.
  unfold Orm.filter. apply List.filter_ext. intros r. apply selected_matches.
Qed.

Lemma exclude_matches q qs :
  Orm.exclude q qs = List.filter (fun r => negb (Orm.matches q r)) qs.
Proof. unfold Orm.exclude. rewrite filter_matches. reflexivity. Qed.

Lemma filter_filter_and (f g : Row -> bool) qs :
  List.filter f (List.filter g qs) = List.filter (fun r => g r && f r) qs.
Proof.
  induction qs as [|x qs IH]; simpl; [reflexivity|].
  destruct (g x); simpl; [destruct (f x)|]; rewrite IH; reflexivity.
Qed.

Lemma filter_negb_partition (f : Row -> bool) qs :
  Permutation (List.filter f qs ++ List.filter (fun r => negb (f r)) qs) qs.
Proof.
  induction qs as [|x qs IH]; simpl; [constructor|].
  destruct (f x); simpl.
  - constructor. exact IH.
  - symmetry. apply Permutation_cons_app. symmetry. exact IH.
Qed.
End OrmFacts.

(** ** Serializer plumbing *)
Section DrfFacts.
Import Py Spec.

Lemma collect_tame {S A} field (r : result (option A)) (set : A -> S -> S) st :
  tame r ->
  Drf.collect field r set st
  = inr (stored r set (fst st), (snd st ++ field_errors field r)%list).
Proof.
  destruct st as [s errs].
  destruct r as [[[m|d]| | | | | | | | ]|[v|]]; simpl; try contradiction;
    intros _; unfold ret; rewrite ?app_nil_r; reflexivity.
Qed.

Lemma finish_inr {S} (st : S * list (string * string)) (s : S) :
  Drf.finish st = inr s <-> snd st = [] /\ fst st = s.
Proof.
  unfold Drf.finish. destruct (snd st); simpl; unfold ret, raise.
  - split; [intros [= <-]; auto | intros [_ ->]; reflexivity].
  - split; [discriminate | intros [[=] _]].
Qed.

Lemma finish_inl {S} (st : S * list (string * string)) (e : Exc) :
  Drf.finish st = inl e
  <-> snd st <> [] /\ e = ValidationError (FieldErrors (snd st)).
Proof.
  unfold Drf.finish. destruct (snd st); simpl; unfold ret, raise.
  - split; [discriminate | intros [[] _]; reflexivity].
  - split; [intros [= <-]; split; [discriminate | reflexivity]
           | intros [_ ->]; reflexivity].
Qed.

Lemma char_field_tame n req partial data : tame (Drf.char_field n req partial data).
Proof.
  unfold Drf.char_field.
  destruct data as [s|]; [| destruct (req && negb partial)]; simpl; auto.
  destruct (negb (truthy (strip s))); simpl; auto.
  destruct (n <? String.length (strip s))%nat; simpl; auto.
Qed.

Lemma choice_field_tame choices data : tame (Drf.choice_field choices data).
Proof.
  unfold Drf.choice_field.
  destruct data as [s|]; simpl; auto. destruct (str_in s choices); simpl; auto.
Qed.

Lemma str_in_In x l : str_in x l = true <-> In x l.
Proof.
  unfold str_in. rewrite existsb_exists. split.
  - intros [y [Hy Heq]]. apply String.eqb_eq in Heq. subst. exact Hy.
  - intros H. exists x. split; [exact H | apply String.eqb_refl].
Qed.
End DrfFacts.

(** ** The task serializer *)
Section TaskSerializerFacts.
Import Py Spec TaskSerializer.

Lemma validate_due_date_tame today instance value :
  tame (validate_due_date today instance value).
Proof.
  unfold validate_due_date.
  destruct value as [d|], instance as [i|]; simpl; auto.
  destruct (d <? today); simpl; auto.
Qed.

Lemma validate_category_tame request value :
  tame (validate_category request value).
Proof.
  unfold validate_category.
  destruct value as [c|], request as [u|]; simpl; auto.
  destruct (negb (Category.user c =? u)%N); simpl; auto.
Qed.

Lemma bind_tame {A B} (m : result A) (k : A -> result B) :
  tame m -> (forall a, tame (k a)) -> tame (bind m k).
Proof.
  destruct m as [[[x|d]| | | | | | | | ]|a]; simpl; auto; contradiction.
Qed.

Lemma due_date_field_tame today instance data :
  tame (due_date_field today instance data).
Proof.
  unfold due_date_field. destruct data as [v|]; [|exact I].
  apply bind_tame; [apply validate_due_date_tame | intros; exact I].
Qed.

Lemma category_field_tame categories request data :
  tame (category_field categories request data).
Proof.
  unfold category_field. destruct data as [[key|]|]; [| |exact I].
  - destruct (Orm.get (CategorySerializer.pk key) categories); [exact I|].
    apply bind_tame; [apply validate_category_tame | intros; exact I].
  - apply bind_tame; [apply validate_category_tame | intros; exact I].
Qed.

(** Field validation, closed form: the stored values and the recorded
    errors of the six writable fields, in declaration order. *)
Lemma to_internal_value_unfold categories today request instance partial data :
  to_internal_value categories today request instance partial data
  = Drf.finish
      (collected_attrs categories today request instance partial data,
       collected_errors categories today request instance partial data).
Proof.
  unfold to_internal_value, collected_attrs, collected_errors.
  change (get_value "title" (Data.title data)) with (Data.title data).
  change (get_value "description" (Data.description data))
    with (Data.description data).
  change (get_value "status" (Data.status data)) with (Data.status data).
  change (get_value "priority" (Data.priority data)) with (Data.priority data).
  change (get_value "due_date" (Data.due_date data)) with (Data.due_date data).
  change (get_value "category" (Data.category data)) with (Data.category data).
  fold (r_title partial data) (r_description data) (r_status data)
       (r_priority data) (r_due_date today instance data)
       (r_category categories request data).
  rewrite collect_tame by apply char_field_tame. cbn [bind fst snd].
  rewrite collect_tame by (unfold r_description, description_field; exact I).
  cbn [bind fst snd].
  rewrite collect_tame by apply choice_field_tame. cbn [bind fst snd].
  rewrite collect_tame by apply choice_field_tame. cbn [bind fst snd].
  rewrite collect_tame by apply due_date_field_tame. cbn [bind fst snd].
  rewrite collect_tame by apply category_field_tame. cbn [bind fst snd].
  rewrite app_nil_l, <- !app_assoc. reflexivity.
Qed.
End TaskSerializerFacts.

(** ** Lookups by primary key and the scoped queryset *)
Section ViewFacts.
Import Py Spec.

Lemma get_inr {Row} (q : Orm.Q Row) (qs : list Row) (r : Row) :
  Orm.get q qs = inr r -> In r qs /\ Orm.matches q r = true.
Proof.
  unfold Orm.get. rewrite filter_matches.
  destruct (List.filter (Orm.matches q) qs) as [|x [|y l]] eqn:E;
    try discriminate.
  intros [= <-]. apply filter_In. rewrite E. left. reflexivity.
Qed.

Lemma get_DoesNotExist {Row} (q : Orm.Q Row) (qs : list Row) :
  (forall r, In r qs -> Orm.matches q r = false) ->
  Orm.get q qs = inl DoesNotExist.
Proof.
  intros H. unfold Orm.get. rewrite filter_matches.
  destruct (List.filter (Orm.matches q) qs) as [|x l] eqn:E; [reflexivity|].
  assert (Hx : In x (List.filter (Orm.matches q) qs)) by (rewrite E; left; auto).
  apply filter_In in Hx. destruct Hx as [Hin Hm].
  rewrite (H x Hin) in Hm. discriminate.
Qed.

Lemma filter_incl {Row} (q : Orm.Q Row) (qs : list Row) (r : Row) :
  In r (Orm.filter q qs) -> In r qs.
Proof. rewrite filter_matches, filter_In. tauto. Qed.

Lemma filter_csv_field_incl queryset name value out t :
  TaskFilter.filter_csv_field queryset name value = inr out ->
  In t out -> In t queryset.
Proof.
  unfold TaskFilter.filter_csv_field, TaskFilter.filter__in.
  destruct (TaskFilter.csv_values value); [intros [= <-]; auto|].
  destruct (TaskFilter.char_column name); [|discriminate].
  intros [= <-]. apply filter_incl.
Qed.

Lemma filter_overdue_incl today queryset name value out t :
  TaskFilter.filter_overdue today queryset name value = inr out ->
  In t out -> In t queryset.
Proof.
  unfold TaskFilter.filter_overdue, Orm.exclude.
  destruct value; intros [= <-]; apply filter_incl.
Qed.

Lemma lookup_filter_incl {A} (lookup : A -> Orm.Q Task.t) value queryset t :
  In t (TaskFilter.lookup_filter lookup value queryset) -> In t queryset.
Proof.
  unfold TaskFilter.lookup_filter. destruct value; [apply filter_incl | auto].
Qed.

Lemma bind_inr {A B} (m : result A) (k : A -> result B) (b : B) :
  bind m k = inr b -> exists a, m = inr a /\ k a = inr b.
Proof. destruct m as [e|a]; [discriminate | intros H; exists a; auto]. Qed.

Lemma char_filter_incl name raw queryset out t :
  TaskFilter.char_filter TaskFilter.filter_csv_field name raw queryset = inr out ->
  In t out -> In t queryset.
Proof.
  unfold TaskFilter.char_filter. destruct raw as [s|]; [|intros [= <-]; auto].
  destruct (truthy (strip s)); [|intros [= <-]; auto].
  apply filter_csv_field_incl.
Qed.

Lemma boolean_filter_incl today name value queryset out t :
  TaskFilter.boolean_filter (TaskFilter.filter_overdue today) name value queryset
  = inr out ->
  In t out -> In t queryset.
Proof.
  unfold TaskFilter.boolean_filter. destruct value; [|intros [= <-]; auto].
  apply filter_overdue_incl.
Qed.

Lemma qs_incl today params queryset out t :
  TaskFilter.qs today params queryset = inr out -> In t out -> In t queryset.
Proof.
  unfold TaskFilter.qs. intros H Hin.
  apply bind_inr in H. destruct H as [q1 [H1 H]].
  apply bind_inr in H. destruct H as [q2 [H2 H]].
  apply bind_inr in H. destruct H as [q3 [H3 H]].
  injection H as <-.
  apply lookup_filter_incl, lookup_filter_incl in Hin.
  apply (boolean_filter_incl _ _ _ _ _ _ H3) in Hin.
  apply lookup_filter_incl in Hin.
  apply (char_filter_incl _ _ _ _ _ H2) in Hin.
  apply (char_filter_incl _ _ _ _ _ H1) in Hin. exact Hin.
Qed.

(** What [get_object] returns is a stored row with the requested key,
    owned by the requesting user. *)
Lemma task_get_object_inr db today request key obj :
  TaskViewSet.get_object db today request key = inr obj ->
  In obj (Database.tasks db) /\ Task.id obj = key
  /\ Task.user obj = Request.user request.
Proof.
  unfold TaskViewSet.get_object, TaskViewSet.filter_queryset. intros H.
  apply bind_inr in H. destruct H as [queryset [Hq H]].
  apply bind_inr in H. destruct H as [o [Hget H]].
  destruct (IsOwner.has_object_permission _ _); [|discriminate].
  injection H as ->.
  assert (Hget' : Orm.get (TaskFilter.pk key) queryset = inr obj).
  { destruct (Orm.get (TaskFilter.pk key) queryset) as [[]|]; 
      try discriminate; exact Hget. }
  apply get_inr in Hget'. destruct Hget' as [Hin Hm].
  apply (qs_incl _ _ _ _ _ Hq) in Hin.
  unfold TaskViewSet.get_queryset in Hin.
  rewrite filter_matches, filter_In in Hin. destruct Hin as [Hin Hu].
  simpl in Hm, Hu. apply N.eqb_eq in Hm, Hu. auto.
Qed.

Lemma find_replace (key : N) (obj : Task.t) (l : list Task.t) :
  Task.id obj = key ->
  (exists t, In t l /\ Task.id t = key) ->
  List.find (fun t => N.eqb (Task.id t) key)
    (map (fun t => if N.eqb (Task.id t) (Task.id obj) then obj else t) l)
  = Some obj.
Proof.
  intros Hid [t [Hin Ht]]. rewrite Hid.
  induction l as [|x l IH]; [destruct Hin|]. simpl.
  destruct (N.eqb (Task.id x) key) eqn:E.
  - rewrite Hid, N.eqb_refl. reflexivity.
  - rewrite E. apply IH. destruct Hin as [->|Hin]; [|exact Hin].
    apply N.eqb_neq in E. contradiction.
Qed.
End ViewFacts.

(** ** Status transitions on update *)
Section TransitionFacts.
Import Py Spec TaskSerializer.

Ltac split_fields :=
  unfold collected_attrs, stored;
  repeat match goal with
         | |- context [match ?r with inl _ => _ | inr _ => _ end] =>
             destruct r as [?|[?|]]
         end;
  reflexivity.

Lemma collected_status categories today request instance partial data :
  Attrs.status (collected_attrs categories today request instance partial data)
  = match r_status data with inr v => v | inl _ => None end.
Proof. split_fields. Qed.

Lemma collected_due_date categories today request instance partial data :
  Attrs.due_date (collected_attrs categories today request instance partial data)
  = match r_due_date today instance data with inr v => v | inl _ => None end.
Proof. split_fields. Qed.

Lemma r_status_member data (r : Task.Status.t) :
  Data.status data = Some (Task.Status.value r) ->
  r_status data = inr (Some (Task.Status.value r)).
Proof. unfold r_status. intros ->. destruct r; reflexivity. Qed.

(** The object-level check agrees with the transition table, and its
    message names the current state, the request and the allowed set. *)
Lemma validate_transition (c r : Task.Status.t) instance attrs :
  Task.status instance = Task.Status.value c ->
  Attrs.status attrs = Some (Task.Status.value r) ->
  validate (Some instance) attrs
  = if transition_allowed c r then inr attrs
    else inl (ValidationError
                (FieldErrors [("status", transition_message c r)])).
Proof.
  intros Hc Hr. unfold validate. rewrite Hc, Hr.
  destruct c, r; vm_compute; reflexivity.
Qed.
End TransitionFacts.

Section TransitionExamples.
Import Py Spec TaskSerializer.

(** The asymmetry of the table on three pairs: done to in_progress and
    todo to done are refused, done to todo is accepted. *)
Example transition_asymmetry :
  transition_allowed Task.Status.DONE Task.Status.IN_PROGRESS = false
  /\ transition_allowed Task.Status.TODO Task.Status.DONE = false
  /\ transition_allowed Task.Status.DONE Task.Status.TODO = true
  /\ validate (Some Fixtures.t_done)
       (Attrs.set_status "in_progress" Attrs.empty)
     = inl (ValidationError (FieldErrors
              [("status",
                "Invalid transition from 'done' to 'in_progress'. Allowed: done, todo.")]))
  /\ validate (Some Fixtures.t_todo) (Attrs.set_status "done" Attrs.empty)
     = inl (ValidationError (FieldErrors
              [("status",
                "Invalid transition from 'todo' to 'done'. Allowed: in_progress, todo.")]))
  /\ validate (Some Fixtures.t_done) (Attrs.set_status "todo" Attrs.empty)
     = inr (Attrs.set_status "todo" Attrs.empty).
Proof. repeat split; vm_compute; reflexivity. Qed.

(** A stored status outside the three values has no entry in the table:
    building the message fails with [KeyError], which no handler turns
    into a validation answer. *)
Example validate_unknown_current :
  validate (Some (Task.mk 1%N "T" "" "archived" "medium" None None 7%N))
           (Attrs.set_status "todo" Attrs.empty)
  = inl (KeyError "archived").
Proof. vm_compute. reflexivity. Qed.
End TransitionExamples.

Section TransitionTheorem.
Import Py Spec TaskSerializer.

(** C1.  A PATCH that carries a status, on a task the requester can
    reach, is decided by the transition table
    todo -> {todo, in_progress}, in_progress -> {in_progress, done, todo},
    done -> {done, todo}.  For a pair in the table, whenever the fields
    of the request pass field validation, the answer is 200 with the
    updated task and the stored row now has the requested status.  For a
    pair outside the table the answer is 400 with a non-empty dictionary
    of field-tagged errors and the database is unchanged; when the
    fields pass field validation the dictionary is exactly the entry
    under [status] that names both states and the allowed targets. *)
Theorem task_status_transition
    (db : Database.t) (today : date) (request : Request.t) (key : uuid)
    (instance : Task.t) (data : Data.t) (c r : Task.Status.t) :
  TaskViewSet.get_object db today request key = inr instance ->
  Task.status instance = Task.Status.value c ->
  Data.status data = Some (Task.Status.value r) ->
  let out := Response.dispatch db
               (TaskViewSet.partial_update db today request key data) in
  let fields_pass :=
    exists attrs,
      to_internal_value (Database.categories db) today
        (Some (Request.user request)) (Some instance) true data = inr attrs in
  if transition_allowed c r then
    fields_pass ->
    exists obj,
      fst out = Response.mk Response.HTTP_200_OK
                  (Response.TaskObject (TaskViewSet.render db today obj))
      /\ Task.status obj = Task.Status.value r
      /\ stored_task (snd out) key = Some obj
      /\ stored_status (snd out) key = Some (Task.Status.value r)
  else
    exists errors,
      fst out = Response.mk Response.HTTP_400_BAD_REQUEST
                  (Response.Errors errors)
      /\ errors <> []
      /\ snd out = db
      /\ (fields_pass -> errors = [("status", transition_message c r)]).
Proof.
  intros Hget Hc Hr out fields_pass. subst out fields_pass.
  destruct (task_get_object_inr _ _ _ _ _ Hget) as [Hin [Hid Hu]].
  unfold TaskViewSet.partial_update. rewrite Hget. cbn [bind].
  unfold run_validation. rewrite to_internal_value_unfold.
  set (attrs := collected_attrs _ _ _ _ _ _).
  assert (Hs : Attrs.status attrs = Some (Task.Status.value r)).
  { subst attrs. rewrite collected_status, (r_status_member _ _ Hr).
    reflexivity. }
  clearbody attrs.
  destruct (collected_errors _ _ _ _ _ _) as [|e errs] eqn:He.
  - change (Drf.finish (attrs, [])) with (@inr Exc _ attrs). cbn [bind].
    rewrite (validate_transition c r instance attrs Hc Hs).
    destruct (transition_allowed c r); run_handler.
    + intros _. exists (update instance attrs).
      assert (Hobj : Task.status (update instance attrs) = Task.Status.value r).
      { unfold update. cbn [Task.status]. rewrite Hs. reflexivity. }
      assert (Hst : stored_task
                      (Database.mk (Database.categories db)
                         (map (fun t => if N.eqb (Task.id t)
                                             (Task.id (update instance attrs))
                                        then update instance attrs else t)
                              (Database.tasks db))) key
                    = Some (update instance attrs)).
      { unfold stored_task. cbn [Database.tasks].
        apply find_replace; [exact Hid | exists instance; auto]. }
      split; [reflexivity|]. split; [exact Hobj|]. split; [exact Hst|].
      unfold stored_status. rewrite Hst. cbn [option_map]. rewrite Hobj.
      reflexivity.
    + exists [("status", transition_message c r)].
      split; [reflexivity|]. split; [discriminate|]. split; reflexivity.
  - change (Drf.finish (attrs, e :: errs))
      with (@inl Exc Attrs.t (ValidationError (FieldErrors (e :: errs)))).
    run_handler.
    destruct (transition_allowed c r).
    + intros [a Ha]. discriminate.
    + exists (e :: errs).
      split; [reflexivity|]. split; [discriminate|]. split; [reflexivity|].
      intros [a Ha]. discriminate.
Qed.
End TransitionTheorem.

Section TransitionWitness.
Import Py Spec Fixtures.

(** Alice moves her todo task to in_progress and the row is updated; she
    asks to move her done task to in_progress and is refused with the
    message of the transition table. *)
Lemma task_status_transition_witness :
  stored_status
    (snd (Response.dispatch db
            (TaskViewSet.partial_update db today as_alice 1%N
               (patch_status "in_progress")))) 1%N
  = Some "in_progress"
  /\ Response.dispatch db
       (TaskViewSet.partial_update db today as_alice 3%N
          (patch_status "in_progress"))
     = (Response.mk 400
          (Response.Errors
             [("status",
               "Invalid transition from 'done' to 'in_progress'. Allowed: done, todo.")]),
        db).
Proof.
  split.
  - destruct (task_status_transition db today as_alice 1%N t_todo
                (patch_status "in_progress")
                Task.Status.TODO Task.Status.IN_PROGRESS
                eq_refl eq_refl eq_refl (ex_intro _ _ eq_refl))
      as [obj [_ [_ [_ H]]]].
    exact H.
  - destruct (task_status_transition db today as_alice 3%N t_done
                (patch_status "in_progress")
                Task.Status.DONE Task.Status.IN_PROGRESS
                eq_refl eq_refl eq_refl)
      as [errors [H1 [_ [H3 H4]]]].
    rewrite (H4 (ex_intro _ _ eq_refl)) in H1.
    rewrite (surjective_pairing (Response.dispatch _ _)), H1, H3.
    reflexivity.
Defined.
End TransitionWitness.

(** ** Creation *)
Section CreationFacts.
Import Py Spec TaskSerializer.

Lemma choice_field_inr choices data v :
  Drf.choice_field choices data = inr v ->
  v = data /\ forall s, data = Some s -> In s choices.
Proof.
  unfold Drf.choice_field. destruct data as [s|].
  - destruct (str_in s choices) eqn:E; [|discriminate].
    intros [= <-]. split; [reflexivity|]. intros s' [= <-].
    apply str_in_In. exact E.
  - intros [= <-]. split; [reflexivity | discriminate].
Qed.

Lemma find_app_new (new_id : N) (obj : Task.t) (l : list Task.t) :
  Task.id obj = new_id ->
  existsb (fun t => N.eqb (Task.id t) new_id) l = false ->
  List.find (fun t => N.eqb (Task.id t) new_id) (l ++ [obj]) = Some obj.
Proof.
  intros Hid. induction l as [|x l IH]; simpl.
  - intros _. rewrite Hid, N.eqb_refl. reflexivity.
  - destruct (N.eqb (Task.id x) new_id); [discriminate | exact IH].
Qed.

(** On creation the object-level check returns its argument: there is no
    instance, the transition table is not read. *)
Lemma validate_on_create attrs : validate None attrs = inr attrs.
Proof. reflexivity. Qed.

(** C2, as the specification states it, is refuted: a creation body with
    status done is accepted and the stored row has status done. *)
Lemma task_create_status_counterexample :
  let out := Response.dispatch Fixtures.db
               (TaskViewSet.create Fixtures.db Fixtures.today 9%N
                  Fixtures.as_alice Fixtures.new_done_task) in
  Response.status_code (fst out) = Response.HTTP_201_CREATED
  /\ stored_status (snd out) 9%N = Some "done"
  /\ stored_status (snd out) 9%N <> Some "todo".
Proof. vm_compute. repeat split; discriminate. Qed.

(** C2, amended.  On creation the transition table is not consulted:
    object-level validation returns the validated fields unchanged, so
    validation is field validation alone.  A creation that is accepted
    answers 201 and stores the status the client supplied, which is then
    one of the three status values, or todo when the body has no
    status. *)
Theorem task_create_status
    (db : Database.t) (today : date) (new_id : uuid) (request : Request.t)
    (data : Data.t) (out : Response.t * Database.t) :
  TaskViewSet.create db today new_id request data = inr out ->
  (forall attrs, validate None attrs = inr attrs)
  /\ run_validation (Database.categories db) today
       (Some (Request.user request)) None false data
     = to_internal_value (Database.categories db) today
         (Some (Request.user request)) None false data
  /\ Response.status_code (fst out) = Response.HTTP_201_CREATED
  /\ stored_status (snd out) new_id
     = Some (default (Task.Status.value Task.Status.TODO) (Data.status data))
  /\ (forall s, Data.status data = Some s -> In s Task.Status.values).
Proof.
  intros H.
  assert (Hrun : run_validation (Database.categories db) today
                   (Some (Request.user request)) None false data
                 = to_internal_value (Database.categories db) today
                     (Some (Request.user request)) None false data).
  { unfold run_validation.
    destruct (to_internal_value _ _ _ _ _ _) as [e|a]; reflexivity. }
  split; [exact validate_on_create|]. split; [exact Hrun|].
  unfold TaskViewSet.create in H. rewrite Hrun in H.
  apply bind_inr in H. destruct H as [attrs [Hattrs H]].
  destruct (existsb _ _) eqn:Hfresh; [discriminate|].
  injection H as <-. cbn [fst snd Response.status_code].
  split; [reflexivity|].
  rewrite to_internal_value_unfold in Hattrs.
  apply finish_inr in Hattrs. cbn [fst snd] in Hattrs.
  destruct Hattrs as [Herr <-].
  assert (Hst : exists v, r_status data = inr v).
  { unfold collected_errors in Herr.
    apply app_eq_nil in Herr. destruct Herr as [_ Herr].
    apply app_eq_nil in Herr. destruct Herr as [_ Herr].
    apply app_eq_nil in Herr. destruct Herr as [Herr _].
    pose proof (choice_field_tame Task.Status.values (Data.status data)) as Ht.
    unfold r_status, choice_field in *.
    destruct (Drf.choice_field _ _) as [[[m|d]| | | | | | | | ]|v];
      try contradiction; try discriminate.
    exists v. reflexivity. }
  destruct Hst as [v Hv].
  destruct (choice_field_inr _ _ _ Hv) as [-> Hmem].
  split; [|exact Hmem].
  unfold stored_status, stored_task. cbn [Database.tasks].
  rewrite find_app_new; [|reflexivity|exact Hfresh].
  cbn [option_map]. unfold TaskViewSet.perform_create, create.
  cbn [Task.status]. rewrite collected_status, Hv. reflexivity.
Qed.

(** A creation body without a status is stored as todo; one with status
    done is stored as done. *)
Lemma task_create_status_witness :
  stored_status
    (snd (Response.dispatch Fixtures.db
            (TaskViewSet.create Fixtures.db Fixtures.today 9%N
               Fixtures.as_alice
               (Data.mk (Some "T") None None None None None)))) 9%N
  = Some "todo".
Proof.
  exact (proj1 (proj2 (proj2 (proj2
           (task_create_status Fixtures.db Fixtures.today 9%N
              Fixtures.as_alice
              (Data.mk (Some "T") None None None None None) _ eq_refl))))).
Defined.
End CreationFacts.

(** ** Due dates *)
Section DueDateFacts.
Import Py Spec TaskSerializer.

Lemma due_date_field_update today instance v :
  due_date_field today (Some instance) v = inr v.
Proof. destruct v as [[d|]|]; reflexivity. Qed.

(** The object-level check reads the instance and the status key only. *)
Lemma validate_status_only instance a a' b :
  validate instance a = inr a' ->
  Attrs.status b = Attrs.status a ->
  validate instance b = inr b.
Proof.
  unfold validate. intros H Hs. rewrite Hs.
  destruct instance as [inst|]; [|reflexivity].
  destruct (Attrs.status a) as [requested|]; [|reflexivity].
  destruct (negb (bool_decide _)); [|reflexivity].
  destruct (getitem VALID_TRANSITIONS (Task.status inst)); discriminate.
Qed.

Lemma collected_errors_due_date categories today request instance partial data v :
  collected_errors categories today request (Some instance) partial
    (with_due_date v data)
  = collected_errors categories today request (Some instance) partial
      (with_due_date None data).
Proof.
  unfold collected_errors, r_title, r_description, r_status, r_priority,
    r_due_date, r_category, with_due_date.
  cbn [Data.title Data.description Data.status Data.priority Data.due_date
       Data.category].
  rewrite !due_date_field_update. reflexivity.
Qed.

Lemma collected_status_due_date categories today request instance partial data v :
  Attrs.status (collected_attrs categories today request instance partial
                  (with_due_date v data))
  = Attrs.status (collected_attrs categories today request instance partial
                    (with_due_date None data)).
Proof. rewrite !collected_status. reflexivity. Qed.

(** C7.  Due-date validation raises exactly when there is no instance (a
    creation) and the supplied date is strictly before today, always with
    the same message, and otherwise returns the value unchanged.  A
    creation request with a past due date is answered 400 with that
    message under [due_date] and writes nothing.  On update the field
    accepts every value, and a PATCH that is accepted without a due-date
    key is accepted with any due-date key, answers 200 and stores that
    due date (or leaves the stored one when the key is absent). *)
Theorem task_due_date_validation (today : date) :
  (forall instance value,
      (exists e, validate_due_date today instance value = inl e)
      <-> (instance = None /\ exists d, value = Some d /\ d < today))
  /\ (forall instance value e,
         validate_due_date today instance value = inl e ->
         e = ValidationError (Message "Due date cannot be in the past."))
  /\ (forall instance value v,
         validate_due_date today instance value = inr v -> v = value)
  /\ (forall db new_id request data d,
         Data.due_date data = Some (Some d) -> d < today ->
         exists errors,
           Response.dispatch db (TaskViewSet.create db today new_id request data)
           = (Response.mk Response.HTTP_400_BAD_REQUEST (Response.Errors errors),
              db)
           /\ In ("due_date", "Due date cannot be in the past.") errors)
  /\ (forall instance v, due_date_field today (Some instance) v = inr v)
  /\ (forall db request key instance data v out,
         TaskViewSet.get_object db today request key = inr instance ->
         TaskViewSet.partial_update db today request key
           (with_due_date None data) = inr out ->
         exists obj,
           Response.dispatch db
             (TaskViewSet.partial_update db today request key
                (with_due_date v data))
           = (Response.mk Response.HTTP_200_OK
                (Response.TaskObject (TaskViewSet.render db today obj)),
              Database.mk (Database.categories db)
                (map (fun t => if N.eqb (Task.id t) (Task.id obj) then obj else t)
                     (Database.tasks db)))
           /\ stored_task
                (snd (Response.dispatch db
                        (TaskViewSet.partial_update db today request key
                           (with_due_date v data)))) key = Some obj
           /\ Task.due_date obj = default (Task.due_date instance) v).
Proof.
  split; [|split; [|split; [|split; [|split]]]].
  - intros instance value. unfold validate_due_date. split.
    + intros [e H]. destruct value as [d|]; [|discriminate].
      destruct instance as [i|]; [discriminate|].
      destruct (d <? today) eqn:E; [|discriminate].
      split; [reflexivity|]. exists d. split; [reflexivity|].
      apply Z.ltb_lt. exact E.
    + intros [-> [d [-> Hlt]]]. apply Z.ltb_lt in Hlt. rewrite Hlt.
      eexists. reflexivity.
  - intros instance value e. unfold validate_due_date.
    destruct value as [d|], instance as [i|]; try discriminate.
    destruct (d <? today); [|discriminate]. intros [= <-]. reflexivity.
  - intros instance value v. unfold validate_due_date.
    destruct value as [d|], instance as [i|]; try (intros [= <-]; reflexivity).
    destruct (d <? today); [discriminate|]. intros [= <-]. reflexivity.
  - intros db new_id request data d Hd Hlt.
    unfold TaskViewSet.create, run_validation.
    rewrite to_internal_value_unfold.
    assert (Hin : In ("due_date", "Due date cannot be in the past.")
                    (collected_errors (Database.categories db) today
                       (Some (Request.user request)) None false data)).
    { unfold collected_errors. rewrite !in_app_iff.
      do 4 right. left.
      unfold r_due_date, due_date_field. rewrite Hd.
      unfold validate_due_date. apply Z.ltb_lt in Hlt. rewrite Hlt.
      left. reflexivity. }
    destruct (collected_errors _ _ _ _ _ _) as [|e errs]; [destruct Hin|].
    exists (e :: errs). split; [reflexivity | exact Hin].
  - intros instance v. apply due_date_field_update.
  - intros db request key instance data v out Hget H.
    destruct (task_get_object_inr _ _ _ _ _ Hget) as [Hin [Hid Hu]].
    unfold TaskViewSet.partial_update in *. rewrite Hget in *.
    cbn [bind] in *.
    apply bind_inr in H. destruct H as [attrs0 [Hrun _]].
    unfold run_validation in *. rewrite to_internal_value_unfold in *.
    rewrite collected_errors_due_date.
    set (a0 := collected_attrs _ _ _ _ _ (with_due_date None data)) in *.
    set (a := collected_attrs _ _ _ _ _ (with_due_date v data)).
    assert (Hs : Attrs.status a = Attrs.status a0)
      by apply collected_status_due_date.
    assert (Hdue : Attrs.due_date a = v).
    { subst a. rewrite collected_due_date.
      unfold r_due_date, with_due_date. cbn [Data.due_date].
      rewrite due_date_field_update. reflexivity. }
    clearbody a a0.
    destruct (collected_errors _ _ _ _ _ _) as [|e errs]; [|discriminate].
    change (Drf.finish (a0, [])) with (@inr Exc _ a0) in Hrun.
    change (Drf.finish (a, [])) with (@inr Exc _ a).
    cbn [bind] in *.
    destruct (validate (Some instance) a0) as [e|a0'] eqn:Hv; [discriminate|].
    rewrite (validate_status_only _ _ _ a Hv Hs). run_handler.
    exists (update instance a). split; [reflexivity|]. split.
    + unfold stored_task. cbn [Database.tasks].
      apply find_replace; [exact Hid | exists instance; auto].
    + unfold update. cbn [Task.due_date]. rewrite Hdue. reflexivity.
Qed.

(** Alice renames her overdue task, and moves its due date further into
    the past: both edits are accepted. *)
Lemma task_due_date_validation_witness :
  Response.status_code
    (fst (Response.dispatch Fixtures.db
            (TaskViewSet.partial_update Fixtures.db Fixtures.today
               Fixtures.as_alice 1%N
               (with_due_date (Some (Some 700000)) (Spec.patch_title "Edited")))))
  = 200%nat.
Proof.
  destruct (proj2 (proj2 (proj2 (proj2 (proj2
              (task_due_date_validation Fixtures.today)))))
              Fixtures.db Fixtures.as_alice 1%N Fixtures.t_todo
              (Spec.patch_title "Edited") (Some (Some 700000)) _
              eq_refl eq_refl) as [obj [H _]].
  rewrite H. reflexivity.
Defined.
End DueDateFacts.

(** ** The derived attribute [is_overdue] *)
Section OverdueFacts.
Import Py Spec TaskSerializer.

Lemma is_overdue_iff today t :
  Task.is_overdue today t = true <-> overdue_spec today t.
Proof.
  unfold Task.is_overdue, overdue_spec. split.
  - destruct (Task.due_date t) as [d|]; [|discriminate].
    destruct (String.eqb (Task.status t) (Task.Status.value Task.Status.DONE))
      eqn:E; cbn [negb]; [discriminate|].
    intros H. exists d. split; [reflexivity|]. split.
    + apply Z.ltb_lt. exact H.
    + apply String.eqb_neq. exact E.
  - intros [d [-> [Hlt Hne]]]. apply String.eqb_neq in Hne.
    change (Task.Status.value Task.Status.DONE) with "done". rewrite Hne.
    apply Z.ltb_lt. exact Hlt.
Qed.

Lemma is_overdue_done today t :
  Task.status t = "done" -> Task.is_overdue today t = false.
Proof.
  unfold Task.is_overdue. intros ->. destruct (Task.due_date t); reflexivity.
Qed.

Lemma validate_inr instance a a' : validate instance a = inr a' -> a' = a.
Proof.
  unfold validate.
  destruct instance as [inst|]; [|intros [= <-]; reflexivity].
  destruct (Attrs.status a) as [requested|]; [|intros [= <-]; reflexivity].
  destruct (negb (bool_decide _)); [|intros [= <-]; reflexivity].
  destruct (getitem VALID_TRANSITIONS (Task.status inst)); discriminate.
Qed.

Lemma run_validation_inr categories today request instance partial data attrs :
  run_validation categories today request instance partial data = inr attrs ->
  attrs = collected_attrs categories today request instance partial data
  /\ collected_errors categories today request instance partial data = [].
Proof.
  unfold run_validation. rewrite to_internal_value_unfold. intros H.
  apply bind_inr in H. destruct H as [a [Hfin H]].
  apply finish_inr in Hfin. cbn [fst snd] in Hfin. destruct Hfin as [He <-].
  split; [|exact He].
  destruct (validate instance _) as [e|a'] eqn:Hv; [discriminate|].
  injection H as <-. apply (validate_inr _ _ _ Hv).
Qed.

(** C4.  For every task and every current date, [is_overdue] holds exactly
    when a due date is set, it is strictly before the current date, and
    the status is not done.  A PATCH that sets the status to done and has
    no due-date key, once accepted, stores a row with status done and the
    due date it had, which is not overdue on any date, and the response
    shows [is_overdue] false.  Such a PATCH with no other key is accepted
    for every task that is in progress or done. *)
Theorem task_is_overdue (today : date) :
  (forall t, Task.is_overdue today t = true <-> overdue_spec today t)
  /\ (forall db now request key instance data out,
         TaskViewSet.get_object db now request key = inr instance ->
         Data.status data = Some "done" ->
         Data.due_date data = None ->
         TaskViewSet.partial_update db now request key data = inr out ->
         exists obj,
           stored_task (snd out) key = Some obj
           /\ Task.status obj = "done"
           /\ Task.due_date obj = Task.due_date instance
           /\ Task.is_overdue today obj = false
           /\ fst out = Response.mk Response.HTTP_200_OK
                          (Response.TaskObject
                             (TaskSerializer.mkRepresentation obj
                                (category_name (TaskViewSet.render db now obj))
                                false)))
  /\ (forall db now request key instance,
         TaskViewSet.get_object db now request key = inr instance ->
         Task.status instance = "in_progress" \/ Task.status instance = "done" ->
         exists out,
           TaskViewSet.partial_update db now request key
             (Spec.patch_status "done") = inr out).
Proof.
  split; [intros t; apply is_overdue_iff|]. split.
  - intros db now request key instance data out Hget Hs Hd H.
    destruct (task_get_object_inr _ _ _ _ _ Hget) as [Hin [Hid Hu]].
    unfold TaskViewSet.partial_update in H. rewrite Hget in H. cbn [bind] in H.
    apply bind_inr in H. destruct H as [attrs [Hrun H]].
    apply run_validation_inr in Hrun. destruct Hrun as [Hattrs Herr].
    assert (Hst : Attrs.status attrs = Some "done").
    { rewrite Hattrs, collected_status.
      rewrite (r_status_member data Task.Status.DONE Hs). reflexivity. }
    assert (Hdue : Attrs.due_date attrs = None).
    { rewrite Hattrs, collected_due_date. unfold r_due_date. rewrite Hd.
      reflexivity. }
    clear Hattrs. injection H as <-. cbn [fst snd].
    assert (Hobj : Task.status (update instance attrs) = "done").
    { unfold update. cbn [Task.status]. rewrite Hst. reflexivity. }
    exists (update instance attrs). split.
    { apply (find_replace key (update instance attrs) (Database.tasks db));
        [exact Hid | exists instance; auto]. }
    split; [exact Hobj|]. split.
    { unfold update. cbn [Task.due_date]. rewrite Hdue. reflexivity. }
    split; [apply is_overdue_done; exact Hobj|].
    unfold TaskViewSet.render, to_representation.
    rewrite (is_overdue_done now _ Hobj). reflexivity.
  - intros db now request key instance Hget Hs.
    unfold TaskViewSet.partial_update. rewrite Hget. cbn [bind].
    unfold run_validation. rewrite to_internal_value_unfold.
    set (attrs := collected_attrs _ _ _ _ _ _).
    assert (Hst : Attrs.status attrs
                  = Some (Task.Status.value Task.Status.DONE)) by reflexivity.
    clearbody attrs.
    change (collected_errors (Database.categories db) now
              (Some (Request.user request)) (Some instance) true
              (Spec.patch_status "done")) with (@nil (string * string)).
    change (Drf.finish (attrs, [])) with (@inr Exc _ attrs). cbn [bind].
    destruct Hs as [Hs|Hs].
    + rewrite (validate_transition Task.Status.IN_PROGRESS Task.Status.DONE
                 instance attrs Hs Hst).
      eexists. reflexivity.
    + rewrite (validate_transition Task.Status.DONE Task.Status.DONE
                 instance attrs Hs Hst).
      eexists. reflexivity.
Qed.

(** Alice's task in progress is overdue today; she marks it done, and the
    stored row keeps its due date and is no longer overdue. *)
Lemma task_is_overdue_witness :
  Task.is_overdue Fixtures.today Fixtures.t_doing = true
  /\ exists out obj,
       TaskViewSet.partial_update Fixtures.db Fixtures.today Fixtures.as_alice
         2%N (Spec.patch_status "done") = inr out
       /\ stored_task (snd out) 2%N = Some obj
       /\ Task.due_date obj = Some 738999
       /\ Task.is_overdue Fixtures.today obj = false.
Proof.
  split; [reflexivity|].
  destruct (task_is_overdue Fixtures.today) as [_ [Hupd Hok]].
  destruct (Hok Fixtures.db Fixtures.today Fixtures.as_alice 2%N
              Fixtures.t_doing eq_refl (or_introl eq_refl)) as [out Hout].
  destruct (Hupd Fixtures.db Fixtures.today Fixtures.as_alice 2%N
              Fixtures.t_doing (Spec.patch_status "done") out
              eq_refl eq_refl eq_refl Hout) as [obj [H1 [_ [H3 [H4 _]]]]].
  exists out, obj. repeat split; assumption.
Defined.
End OverdueFacts.

(** ** The overdue filter *)
Section OverdueFilterFacts.
Import Py Spec.

Lemma overdue_q_matches today t :
  Orm.matches
    (Orm.QAnd (TaskFilter.due_date__lt today)
              (Orm.QNot (TaskFilter.status (Task.Status.value Task.Status.DONE))))
    t
  = Task.is_overdue today t.
Proof.
  unfold Task.is_overdue, TaskFilter.due_date__lt, TaskFilter.status.
  cbn [Orm.matches Orm.compare Task.Status.value].
  rewrite (String.eqb_sym "done" (Task.status t)).
  destruct (Task.due_date t) as [d|]; cbn [option_map]; [|reflexivity].
  destruct (String.eqb (Task.status t) "done"); cbn [negb].
  - apply andb_false_r.
  - apply andb_true_r.
Qed.

Lemma filter_overdue_true today queryset name :
  TaskFilter.filter_overdue today queryset name true
  = inr (List.filter (Task.is_overdue today) queryset).
Proof.
  unfold TaskFilter.filter_overdue. rewrite filter_matches. unfold ret.
  f_equal. apply List.filter_ext. intros t. apply overdue_q_matches.
Qed.

Lemma filter_overdue_false today queryset name :
  TaskFilter.filter_overdue today queryset name false
  = inr (List.filter (fun t => negb (Task.is_overdue today t)) queryset).
Proof.
  unfold TaskFilter.filter_overdue. rewrite exclude_matches. unfold ret.
  f_equal. apply List.filter_ext. intros t. rewrite overdue_q_matches.
  reflexivity.
Qed.

(** C5.  On the task set of any owner, the list filter [overdue=true]
    returns exactly the tasks with a due date strictly before today and a
    status other than done, [overdue=false] returns exactly the owner's
    tasks for which that conjunction fails, among them every task without
    a due date, and the two results are a partition of the owner's task
    set. *)
Theorem overdue_filter_partition
    (db : Database.t) (today : date) (owner : uuid) (page : nat) :
  let request b := Request.mk owner (overdue_params b) page in
  let owned := TaskViewSet.get_queryset db (request true) in
  exists yes no,
    TaskViewSet.filter_queryset today (request true)
      (TaskViewSet.get_queryset db (request true)) = inr yes
    /\ TaskViewSet.filter_queryset today (request false)
         (TaskViewSet.get_queryset db (request false)) = inr no
    /\ (forall t, In t yes <-> In t owned /\ overdue_spec today t)
    /\ (forall t, In t no <-> In t owned /\ ~ overdue_spec today t)
    /\ (forall t, In t owned -> Task.due_date t = None -> In t no)
    /\ (forall t, In t yes -> In t no -> False)
    /\ Permutation (yes ++ no) owned.
Proof.
  intros request owned.
  exists (List.filter (Task.is_overdue today) owned),
         (List.filter (fun t => negb (Task.is_overdue today t)) owned).
  split; [apply (filter_overdue_true today owned "overdue")|].
  split; [apply (filter_overdue_false today owned "overdue")|].
  split; [|split; [|split; [|split]]].
  - intros t. rewrite filter_In, is_overdue_iff. reflexivity.
  - intros t. rewrite filter_In, negb_true_iff, <- not_true_iff_false,
      is_overdue_iff. reflexivity.
  - intros t Hin Hd. apply filter_In. split; [exact Hin|].
    unfold Task.is_overdue. rewrite Hd. reflexivity.
  - intros t H1 H2. apply filter_In in H1, H2.
    destruct H1 as [_ H1], H2 as [_ H2]. rewrite H1 in H2. discriminate.
  - apply filter_negb_partition.
Qed.
End OverdueFilterFacts.

(** ** Statistics *)
Section StatsFacts.
Import Py Spec.

(** The grouped count of a value is the number of rows that carry it. *)
Lemma group_count_lookup (col : Task.t -> string) (qs : list Task.t) (k : string) :
  default 0%nat (TaskViewSet.group_count col qs !! k)
  = count_where (fun t => String.eqb (col t) k) qs.
Proof.
  unfold count_where.
  induction qs as [|t qs IH]; cbn [TaskViewSet.group_count fold_right List.filter].
  - rewrite lookup_empty. reflexivity.
  - fold (TaskViewSet.group_count col qs).
    destruct (String.eqb (col t) k) eqn:E.
    + apply String.eqb_eq in E. subst k.
      rewrite lookup_insert_eq. cbn [default length]. rewrite IH. reflexivity.
    + apply String.eqb_neq in E.
      rewrite lookup_insert_ne by exact E. exact IH.
Qed.

(** A value that does not occur has no key in the grouped counts. *)
Lemma group_count_absent (col : Task.t -> string) (qs : list Task.t) (k : string) :
  TaskViewSet.group_count col qs !! k = None
  <-> count_where (fun t => String.eqb (col t) k) qs = 0%nat.
Proof.
  unfold count_where.
  induction qs as [|t qs IH]; cbn [TaskViewSet.group_count fold_right List.filter].
  - rewrite lookup_empty. tauto.
  - fold (TaskViewSet.group_count col qs).
    destruct (String.eqb (col t) k) eqn:E.
    + apply String.eqb_eq in E. subst k. rewrite lookup_insert_eq.
      cbn [length]. split; discriminate.
    + apply String.eqb_neq in E. rewrite lookup_insert_ne by exact E. exact IH.
Qed.

Lemma by_status_lookup (counts : gmap string nat) (st : Task.Status.t) :
  TaskViewSet.zero_filled Task.Status.values counts !! Task.Status.value st
  = Some (default 0%nat (counts !! Task.Status.value st)).
Proof.
  unfold TaskViewSet.zero_filled.
  cbn [Task.Status.values Task.Status.members map list_to_map foldr
       Task.Status.value fst snd uncurry].
  destruct st; cbn [Task.Status.value];
    repeat (rewrite lookup_insert_ne by discriminate);
    apply lookup_insert_eq.
Qed.

Lemma by_priority_lookup (counts : gmap string nat) (p : Task.Priority.t) :
  TaskViewSet.zero_filled Task.Priority.values counts !! Task.Priority.value p
  = Some (default 0%nat (counts !! Task.Priority.value p)).
Proof.
  unfold TaskViewSet.zero_filled.
  cbn [Task.Priority.values Task.Priority.members map list_to_map foldr
       Task.Priority.value fst snd uncurry].
  destruct p; cbn [Task.Priority.value];
    repeat (rewrite lookup_insert_ne by discriminate);
    apply lookup_insert_eq.
Qed.

Lemma zero_filled_dom (values : list string) (counts : gmap string nat) :
  dom (TaskViewSet.zero_filled values counts) = list_to_set values.
Proof.
  unfold TaskViewSet.zero_filled.
  induction values as [|v values IH]; cbn [map list_to_map foldr list_to_set].
  - apply dom_empty_L.
  - cbn [uncurry fst snd]. rewrite dom_insert_L. f_equal. exact IH.
Qed.

Lemma stats_overdue_count today (qs : list Task.t) :
  Orm.count (Orm.exclude (TaskFilter.status (Task.Status.value Task.Status.DONE))
                         (Orm.filter (TaskFilter.due_date__lt today) qs))
  = count_where (Task.is_overdue today) qs.
Proof.
  unfold Orm.count, count_where.
  rewrite exclude_matches, filter_matches, filter_filter_and. f_equal.
  apply List.filter_ext. intros t. rewrite <- overdue_q_matches. reflexivity.
Qed.
End StatsFacts.

Section StatsTheorem.
Import Py Spec.

(** C8.  The stats operation answers 200 and leaves the database alone.
    On the owner's task set: [total] is its size; [by_status] has exactly
    the three status keys and [by_priority] exactly the four priority
    keys, each mapped to the number of the owner's tasks with that value,
    which is 0 for a value that does not occur; [overdue] is the number of
    tasks the overdue filter returns for [overdue=true], i.e. of tasks
    with a due date before today and a status other than done.  On an
    empty task set every number is 0. *)
Theorem task_stats (db : Database.t) (today : date) (request : Request.t) :
  let owned := TaskViewSet.get_queryset db request in
  exists s,
    Response.dispatch db (TaskViewSet.stats db today request)
    = (Response.mk Response.HTTP_200_OK (Response.StatsObject s), db)
    /\ Response.total s = length owned
    /\ dom (Response.by_status s)
       = ({[ "todo"; "in_progress"; "done" ]} : gset string)
    /\ dom (Response.by_priority s)
       = ({[ "low"; "medium"; "high"; "urgent" ]} : gset string)
    /\ (forall st,
           Response.by_status s !! Task.Status.value st
           = Some (count_where
                     (fun t => String.eqb (Task.status t) (Task.Status.value st))
                     owned))
    /\ (forall p,
           Response.by_priority s !! Task.Priority.value p
           = Some (count_where
                     (fun t => String.eqb (Task.priority t)
                                          (Task.Priority.value p))
                     owned))
    /\ Response.overdue s = count_where (Task.is_overdue today) owned
    /\ (forall yes,
           TaskFilter.filter_overdue today owned "overdue" true = inr yes ->
           Response.overdue s = length yes)
    /\ (forall t, In t owned -> overdue_spec today t ->
                  (0 < Response.overdue s)%nat)
    /\ (owned = [] ->
        Response.total s = 0%nat /\ Response.overdue s = 0%nat
        /\ (forall st, Response.by_status s !! Task.Status.value st = Some 0%nat)
        /\ (forall p, Response.by_priority s !! Task.Priority.value p
                      = Some 0%nat)).
Proof.
  intros owned. eexists. split; [reflexivity|].
  cbn [Response.total Response.by_status Response.by_priority Response.overdue].
  fold owned.
  assert (Hst : forall st,
             TaskViewSet.zero_filled Task.Status.values
               (TaskViewSet.group_count Task.status owned)
             !! Task.Status.value st
             = Some (count_where
                       (fun t => String.eqb (Task.status t)
                                            (Task.Status.value st)) owned)).
  { intros st. rewrite by_status_lookup, group_count_lookup. reflexivity. }
  assert (Hpr : forall p,
             TaskViewSet.zero_filled Task.Priority.values
               (TaskViewSet.group_count Task.priority owned)
             !! Task.Priority.value p
             = Some (count_where
                       (fun t => String.eqb (Task.priority t)
                                            (Task.Priority.value p)) owned)).
  { intros p. rewrite by_priority_lookup, group_count_lookup. reflexivity. }
  split; [reflexivity|].
  split; [rewrite zero_filled_dom; cbn; set_solver|].
  split; [rewrite zero_filled_dom; cbn; set_solver|].
  split; [exact Hst|]. split; [exact Hpr|].
  split; [apply stats_overdue_count|].
  split.
  { intros yes. rewrite filter_overdue_true. intros [= <-].
    apply stats_overdue_count. }
  split.
  { intros t Hin Hov. rewrite stats_overdue_count. unfold count_where.
    assert (Hf : In t (List.filter (Task.is_overdue today) owned)).
    { apply filter_In. split; [exact Hin | apply is_overdue_iff; exact Hov]. }
    destruct (List.filter (Task.is_overdue today) owned); [destruct Hf|].
    cbn [length]. lia. }
  intros Hempty.
  split; [rewrite Hempty; reflexivity|].
  split; [rewrite stats_overdue_count, Hempty; reflexivity|].
  split.
  - intros st. rewrite Hst, Hempty. reflexivity.
  - intros p. rewrite Hpr, Hempty. reflexivity.
Qed.
End StatsTheorem.

(** ** Comma-separated filters *)
Section CsvFacts.
Import Py Spec.

Lemma csv_values_filter_map value :
  TaskFilter.csv_values value
  = List.filter truthy (map strip (split "," value)).
Proof.
  unfold TaskFilter.csv_values.
  induction (split "," value) as [|seg l IH]; cbn [flat_map map List.filter];
    [reflexivity|].
  rewrite IH. destruct (truthy (strip seg)); reflexivity.
Qed.

Lemma csv_values_In value v :
  In v (TaskFilter.csv_values value)
  <-> v <> EmptyString /\ exists seg, In seg (split "," value) /\ v = strip seg.
Proof.
  rewrite csv_values_filter_map, filter_In, in_map_iff, truthy_true.
  split.
  - intros [[seg [<- Hin]] Hne]. split; [exact Hne|]. exists seg. auto.
  - intros [Hne [seg [Hin ->]]]. split; [|exact Hne]. exists seg. auto.
Qed.

Lemma csv_values_nil value :
  TaskFilter.csv_values value = []
  <-> forall seg, In seg (split "," value) -> strip seg = EmptyString.
Proof.
  split.
  - intros H seg Hin.
    destruct (strip seg) as [|c t] eqn:E; [reflexivity|].
    assert (Hv : In (String c t) (TaskFilter.csv_values value)).
    { apply csv_values_In. split; [discriminate|]. exists seg. auto. }
    rewrite H in Hv. destruct Hv.
  - intros H. destruct (TaskFilter.csv_values value) as [|v l] eqn:E;
      [reflexivity|].
    assert (Hv : In v (TaskFilter.csv_values value)) by (rewrite E; left; auto).
    apply csv_values_In in Hv. destruct Hv as [Hne [seg [Hin ->]]].
    rewrite (H seg Hin) in Hne. contradiction.
Qed.

Lemma filter_csv_field_eq (p : csv_param) queryset value :
  TaskFilter.filter_csv_field queryset (param_name p) value
  = inr (match TaskFilter.csv_values value with
         | [] => queryset
         | _ :: _ =>
             List.filter
               (fun t => str_in (param_column p t) (TaskFilter.csv_values value))
               queryset
         end).
Proof.
  unfold TaskFilter.filter_csv_field.
  destruct (TaskFilter.csv_values value) as [|v l]; [reflexivity|].
  unfold TaskFilter.filter__in.
  destruct p; cbn [param_name param_column];
    change (TaskFilter.char_column "status") with (Some Task.status);
    change (TaskFilter.char_column "priority") with (Some Task.priority);
    cbv beta iota; rewrite filter_matches; reflexivity.
Qed.

Lemma csv_values_strip raw :
  TaskFilter.csv_values (strip raw) = TaskFilter.csv_values raw.
Proof.
  rewrite !csv_values_filter_map, split_strip; reflexivity.
Qed.

(** The filter form hands the method the trimmed parameter; an empty one
    leaves the queryset alone, as the method itself would. *)
Lemma char_filter_eq (p : csv_param) raw queryset :
  TaskFilter.char_filter TaskFilter.filter_csv_field (param_name p) (Some raw)
    queryset
  = TaskFilter.filter_csv_field queryset (param_name p) (strip raw).
Proof.
  unfold TaskFilter.char_filter.
  destruct (strip raw) as [|c t] eqn:E; [|reflexivity].
  cbn [truthy]. rewrite filter_csv_field_eq. reflexivity.
Qed.
End CsvFacts.

Section CsvTheorem.
Import Py Spec.

Lemma qs_csv_param today (p : csv_param) raw queryset :
  TaskFilter.qs today (param_query p raw) queryset
  = TaskFilter.filter_csv_field queryset (param_name p) raw.
Proof.
  rewrite filter_csv_field_eq, <- csv_values_strip.
  unfold TaskFilter.qs.
  destruct p;
    cbn [param_query TaskFilter.Params.status TaskFilter.Params.priority
         TaskFilter.Params.category TaskFilter.Params.overdue
         TaskFilter.Params.due_date_min TaskFilter.Params.due_date_max].
  - change (TaskFilter.char_filter TaskFilter.filter_csv_field "status"
              (Some raw) queryset)
      with (TaskFilter.char_filter TaskFilter.filter_csv_field
              (param_name status_param) (Some raw) queryset).
    rewrite char_filter_eq, filter_csv_field_eq. reflexivity.
  - change (TaskFilter.char_filter TaskFilter.filter_csv_field "status" None
              queryset) with (@inr Exc _ queryset).
    cbn [bind].
    change (TaskFilter.char_filter TaskFilter.filter_csv_field "priority"
              (Some raw) queryset)
      with (TaskFilter.char_filter TaskFilter.filter_csv_field
              (param_name priority_param) (Some raw) queryset).
    rewrite char_filter_eq, filter_csv_field_eq. reflexivity.
Qed.

(** C10.  For the [status] and the [priority] parameter of the task list:
    the value is cut at its commas (joining the pieces with commas gives
    the value back and no piece contains a comma), every piece is
    trimmed, and the empty results are dropped; the values that remain are
    the non-empty trimmed pieces, in order.  When some value remains, the
    filter keeps exactly the owner's tasks whose field is one of them.
    When every piece is empty once trimmed, the filter returns the
    owner's task set as it is. *)
Theorem csv_filter
    (p : csv_param) (db : Database.t) (today : date) (owner : uuid)
    (page : nat) (raw : string) :
  let request := Request.mk owner (param_query p raw) page in
  let owned := TaskViewSet.get_queryset db request in
  let values := TaskFilter.csv_values raw in
  join "," (split "," raw) = raw
  /\ (forall seg, In seg (split "," raw) -> occurs "," seg = false)
  /\ values = List.filter truthy (map strip (split "," raw))
  /\ (forall v, In v values
                <-> v <> EmptyString
                    /\ exists seg, In seg (split "," raw) /\ v = strip seg)
  /\ exists out,
       TaskViewSet.filter_queryset today request owned = inr out
       /\ TaskFilter.filter_csv_field owned (param_name p) raw = inr out
       /\ (values <> [] ->
           out = List.filter (fun t => str_in (param_column p t) values) owned
           /\ forall t, In t out <-> In t owned /\ In (param_column p t) values)
       /\ ((forall seg, In seg (split "," raw) -> strip seg = EmptyString) ->
           out = owned).
Proof.
  intros request owned values.
  split; [apply split_join|].
  split; [apply split_no_sep|].
  split; [apply csv_values_filter_map|].
  split; [apply csv_values_In|].
  unfold TaskViewSet.filter_queryset. cbn [Request.query_params request].
  rewrite qs_csv_param, filter_csv_field_eq. fold values.
  eexists. split; [reflexivity|]. split; [reflexivity|]. split.
  - intros Hne. destruct values as [|v l] eqn:E; [contradiction|].
    split; [reflexivity|]. intros t. rewrite filter_In, str_in_In. reflexivity.
  - intros H. apply csv_values_nil in H. fold values in H. rewrite H.
    reflexivity.
Qed.

(** Alice lists her tasks with [status= todo, ,in_progress ,,] and gets her
    todo and in-progress tasks; with [status=,,] and with a [priority] of
    blanks only she gets all four. *)
Lemma csv_filter_witness :
  TaskViewSet.filter_queryset Fixtures.today
    (Request.mk Fixtures.alice (param_query status_param " todo, ,in_progress ,,") 1)
    (TaskViewSet.get_queryset Fixtures.db Fixtures.as_alice)
  = inr [Fixtures.t_todo; Fixtures.t_doing; Fixtures.t_undated]
  /\ TaskViewSet.filter_queryset Fixtures.today
       (Request.mk Fixtures.alice (param_query status_param ",,") 1)
       (TaskViewSet.get_queryset Fixtures.db Fixtures.as_alice)
     = inr [Fixtures.t_todo; Fixtures.t_doing; Fixtures.t_done;
            Fixtures.t_undated]
  /\ TaskViewSet.filter_queryset Fixtures.today
       (Request.mk Fixtures.alice (param_query priority_param "   ") 1)
       (TaskViewSet.get_queryset Fixtures.db Fixtures.as_alice)
     = inr [Fixtures.t_todo; Fixtures.t_doing; Fixtures.t_done;
            Fixtures.t_undated].
Proof.
  split; [|split].
  - destruct (csv_filter status_param Fixtures.db Fixtures.today Fixtures.alice
                1 " todo, ,in_progress ,,")
      as [_ [_ [_ [_ [out [H1 [_ [H3 _]]]]]]]].
    destruct (H3 ltac:(discriminate)) as [-> _]. exact H1.
  - destruct (csv_filter status_param Fixtures.db Fixtures.today Fixtures.alice
                1 ",,")
      as [_ [_ [_ [_ [out [H1 [_ [_ H4]]]]]]]].
    rewrite H4 in H1; [exact H1|].
    intros seg Hin. cbn in Hin.
    destruct Hin as [<-|[<-|[<-|[]]]]; reflexivity.
  - destruct (csv_filter priority_param Fixtures.db Fixtures.today
                Fixtures.alice 1 "   ")
      as [_ [_ [_ [_ [out [H1 [_ [_ H4]]]]]]]].
    rewrite H4 in H1; [exact H1|].
    intros seg Hin. cbn in Hin.
    destruct Hin as [<-|[]]; reflexivity.
Defined.
End CsvTheorem.

(** ** Ownership scoping *)
Section ScopeFacts.
Import Py Spec.

Lemma char_filter_total (p : csv_param) raw queryset :
  exists out,
    TaskFilter.char_filter TaskFilter.filter_csv_field (param_name p) raw queryset
    = inr out.
Proof.
  destruct raw as [s|]; [|eexists; reflexivity].
  rewrite char_filter_eq, filter_csv_field_eq. eexists. reflexivity.
Qed.

(** The declared filters never raise. *)
Lemma qs_total today params queryset :
  exists out, TaskFilter.qs today params queryset = inr out.
Proof.
  unfold TaskFilter.qs.
  destruct (char_filter_total status_param (TaskFilter.Params.status params)
              queryset) as [q1 H1].
  cbn [param_name] in H1. rewrite H1. cbn [bind].
  destruct (char_filter_total priority_param (TaskFilter.Params.priority params)
              q1) as [q2 H2].
  cbn [param_name] in H2. rewrite H2. cbn [bind].
  unfold TaskFilter.boolean_filter.
  destruct (TaskFilter.Params.overdue params) as [[|]|];
    rewrite ?filter_overdue_true, ?filter_overdue_false;
    eexists; reflexivity.
Qed.

Lemma firstn_In {A} (n : nat) (l : list A) (x : A) :
  In x (firstn n l) -> In x l.
Proof.
  revert l. induction n as [|n IH]; intros [|y l]; cbn [firstn]; auto.
  - intros [].
  - intros [->|H]; [left; reflexivity | right; apply IH; exact H].
Qed.

Lemma skipn_In {A} (n : nat) (l : list A) (x : A) :
  In x (skipn n l) -> In x l.
Proof.
  revert l. induction n as [|n IH]; intros [|y l]; cbn [skipn]; auto.
  intros H. right. apply IH. exact H.
Qed.

Lemma paginate_incl {A} page (queryset out : list A) (x : A) :
  Pagination.paginate_queryset page queryset = inr out ->
  In x out -> In x queryset.
Proof.
  unfold Pagination.paginate_queryset.
  destruct (_ || _)%bool; [discriminate|]. intros [= <-] Hin.
  eapply skipn_In, firstn_In. exact Hin.
Qed.
End ScopeFacts.

Section ScopeLemmas.
Import Py Spec.

(** A primary key names one row. *)
Lemma unique_key {A K} (f : A -> K) (l : list A) (x y : A) :
  List.NoDup (map f l) -> In x l -> In y l -> f x = f y -> x = y.
Proof.
  induction l as [|z l IH]; cbn [map]; [intros _ []|].
  intros Hnd Hx Hy Hf. apply List.NoDup_cons_iff in Hnd. destruct Hnd as [Hz Hnd].
  destruct Hx as [->|Hx], Hy as [->|Hy]; auto.
  - exfalso. apply Hz. rewrite Hf. apply in_map. exact Hy.
  - exfalso. apply Hz. rewrite <- Hf. apply in_map. exact Hx.
Qed.

Lemma exception_lists_nothing e :
  listed_tasks (Response.exception_handler e) = []
  /\ listed_categories (Response.exception_handler e) = [].
Proof. destruct e as [[m|d]| | | | | | | | ]; split; reflexivity. Qed.

(** *** Tasks *)

Lemma task_scoped db request t :
  In t (TaskViewSet.get_queryset db request)
  <-> In t (Database.tasks db) /\ Task.user t = Request.user request.
Proof.
  unfold TaskViewSet.get_queryset. rewrite filter_matches, filter_In.
  cbn [Orm.matches Orm.compare TaskFilter.user]. rewrite N.eqb_eq.
  split; intros [H1 H2]; auto.
Qed.

Lemma task_get_object_404 db today request key :
  (forall t, In t (Database.tasks db) -> Task.id t = key ->
             Task.user t <> Request.user request) ->
  TaskViewSet.get_object db today request key = inl Http404.
Proof.
  intros H. unfold TaskViewSet.get_object, TaskViewSet.filter_queryset.
  destruct (qs_total today (Request.query_params request)
              (TaskViewSet.get_queryset db request)) as [out Hout].
  rewrite Hout. cbn [bind].
  rewrite (get_DoesNotExist (TaskFilter.pk key) out); [reflexivity|].
  intros r Hr. apply (qs_incl _ _ _ _ _ Hout) in Hr.
  apply task_scoped in Hr. destruct Hr as [Hin Hu].
  cbn [Orm.matches Orm.compare TaskFilter.pk]. apply N.eqb_neq.
  intros Heq. apply (H r Hin); auto.
Qed.

Lemma task_detail_404 db today request key :
  TaskViewSet.get_object db today request key = inl Http404 ->
  Response.dispatch db (TaskViewSet.retrieve db today request key)
  = (not_found, db)
  /\ (forall data,
         Response.dispatch db
           (TaskViewSet.partial_update db today request key data)
         = (not_found, db))
  /\ Response.dispatch db (TaskViewSet.destroy db today request key)
     = (not_found, db).
Proof.
  intros H.
  unfold TaskViewSet.retrieve, TaskViewSet.partial_update, TaskViewSet.destroy.
  rewrite H. split; [reflexivity|]. split; [intros data|]; reflexivity.
Qed.

Lemma task_list_scoped db today request t :
  In t (listed_tasks
          (fst (Response.dispatch db (TaskViewSet.list db today request)))) ->
  In t (Database.tasks db) /\ Task.user t = Request.user request.
Proof.
  unfold TaskViewSet.list, TaskViewSet.filter_queryset.
  destruct (qs_total today (Request.query_params request)
              (TaskViewSet.get_queryset db request)) as [out Hout].
  rewrite Hout. cbn [bind].
  destruct (Pagination.paginate_queryset (Request.page request) out)
    as [e|page] eqn:Hp; run_dispatch.
  - rewrite (proj1 (exception_lists_nothing e)). intros [].
  - cbn [listed_tasks Response.data]. rewrite map_map.
    cbn [TaskViewSet.render TaskSerializer.to_representation TaskSerializer.task].
    rewrite map_id. intros Hin.
    apply (paginate_incl _ _ _ _ Hp) in Hin.
    apply (qs_incl _ _ _ _ _ Hout) in Hin. apply task_scoped. exact Hin.
Qed.

(** *** Categories *)

Lemma category_scoped db request r :
  In r (CategoryViewSet.get_queryset db request) ->
  In (CategoryViewSet.category r) (Database.categories db)
  /\ Category.user (CategoryViewSet.category r) = Request.user request.
Proof.
  unfold CategoryViewSet.get_queryset. rewrite in_map_iff.
  intros [c [<- Hc]]. rewrite filter_matches, filter_In in Hc.
  cbn [Orm.matches Orm.compare CategorySerializer.user] in Hc.
  rewrite N.eqb_eq in Hc. cbn [CategoryViewSet.annotate CategoryViewSet.category].
  destruct Hc; auto.
Qed.

Lemma category_get_object_404 db request key :
  (forall c, In c (Database.categories db) -> Category.id c = key ->
             Category.user c <> Request.user request) ->
  CategoryViewSet.get_object db request key = inl Http404.
Proof.
  intros H. unfold CategoryViewSet.get_object.
  rewrite (get_DoesNotExist (CategoryViewSet.pk key)); [reflexivity|].
  intros r Hr. apply category_scoped in Hr. destruct Hr as [Hin Hu].
  cbn [Orm.matches Orm.compare CategoryViewSet.pk]. apply N.eqb_neq.
  intros Heq. apply (H _ Hin); auto.
Qed.

Lemma category_detail_404 db request key :
  CategoryViewSet.get_object db request key = inl Http404 ->
  Response.dispatch db (CategoryViewSet.retrieve db request key)
  = (not_found, db)
  /\ (forall data,
         Response.dispatch db (CategoryViewSet.partial_update db request key data)
         = (not_found, db))
  /\ Response.dispatch db (CategoryViewSet.destroy db request key)
     = (not_found, db).
Proof.
  intros H.
  unfold CategoryViewSet.retrieve, CategoryViewSet.partial_update,
    CategoryViewSet.destroy.
  rewrite H. split; [reflexivity|]. split; [intros data|]; reflexivity.
Qed.

Lemma category_list_scoped db request c :
  In c (listed_categories
          (fst (Response.dispatch db (CategoryViewSet.list db request)))) ->
  In c (Database.categories db) /\ Category.user c = Request.user request.
Proof.
  unfold CategoryViewSet.list.
  destruct (Pagination.paginate_queryset (Request.page request)
              (CategoryViewSet.get_queryset db request))
    as [e|page] eqn:Hp; run_dispatch.
  - rewrite (proj2 (exception_lists_nothing e)). intros [].
  - cbn [listed_categories Response.data]. rewrite map_map. cbn [fst].
    rewrite in_map_iff. intros [r [<- Hin]].
    apply (paginate_incl _ _ _ _ Hp) in Hin.
    apply category_scoped. exact Hin.
Qed.
End ScopeLemmas.

Section ScopeTheorem.
Import Py Spec.

(** C3.  Let the primary keys of both tables be unique.  For a requester
    and any task or category that another user owns: the requester's list
    never shows the row; retrieve, partial update (with any body) and
    delete on the row's key answer 404 not-found, never 403, and write
    nothing; and the answer is the one the same request gets on any
    database that has no row with that key. *)
Theorem cross_owner_not_found
    (db : Database.t) (today : date) (request : Request.t) :
  List.NoDup (map Task.id (Database.tasks db)) ->
  List.NoDup (map Category.id (Database.categories db)) ->
  (forall t,
      In t (Database.tasks db) -> Task.user t <> Request.user request ->
      ~ In t (listed_tasks
                (fst (Response.dispatch db (TaskViewSet.list db today request))))
      /\ (Response.dispatch db (TaskViewSet.retrieve db today request (Task.id t))
          = (not_found, db)
          /\ (forall data,
                 Response.dispatch db
                   (TaskViewSet.partial_update db today request (Task.id t) data)
                 = (not_found, db))
          /\ Response.dispatch db
               (TaskViewSet.destroy db today request (Task.id t))
             = (not_found, db))
      /\ forall db0,
           (forall t0, In t0 (Database.tasks db0) -> Task.id t0 <> Task.id t) ->
           Response.dispatch db0
             (TaskViewSet.retrieve db0 today request (Task.id t))
           = (not_found, db0)
           /\ (forall data,
                  Response.dispatch db0
                    (TaskViewSet.partial_update db0 today request (Task.id t) data)
                  = (not_found, db0))
           /\ Response.dispatch db0
                (TaskViewSet.destroy db0 today request (Task.id t))
              = (not_found, db0))
  /\ (forall c,
         In c (Database.categories db) ->
         Category.user c <> Request.user request ->
         ~ In c (listed_categories
                   (fst (Response.dispatch db (CategoryViewSet.list db request))))
         /\ (Response.dispatch db
               (CategoryViewSet.retrieve db request (Category.id c))
             = (not_found, db)
             /\ (forall data,
                    Response.dispatch db
                      (CategoryViewSet.partial_update db request
                         (Category.id c) data)
                    = (not_found, db))
             /\ Response.dispatch db
                  (CategoryViewSet.destroy db request (Category.id c))
                = (not_found, db))
         /\ forall db0,
              (forall c0, In c0 (Database.categories db0) ->
                          Category.id c0 <> Category.id c) ->
              Response.dispatch db0
                (CategoryViewSet.retrieve db0 request (Category.id c))
              = (not_found, db0)
              /\ (forall data,
                     Response.dispatch db0
                       (CategoryViewSet.partial_update db0 request
                          (Category.id c) data)
                     = (not_found, db0))
              /\ Response.dispatch db0
                   (CategoryViewSet.destroy db0 request (Category.id c))
                 = (not_found, db0)).
Proof.
  intros Htasks Hcats. split.
  - intros t Hin Hother. split; [|split].
    + intros Hl. apply task_list_scoped in Hl. destruct Hl as [_ Hu].
      contradiction.
    + apply task_detail_404, task_get_object_404.
      intros t' Hin' Hid.
      rewrite (unique_key Task.id _ t' t Htasks Hin' Hin Hid). exact Hother.
    + intros db0 Habsent. apply task_detail_404, task_get_object_404.
      intros t0 Hin0 Hid. exfalso. exact (Habsent t0 Hin0 Hid).
  - intros c Hin Hother. split; [|split].
    + intros Hl. apply category_list_scoped in Hl. destruct Hl as [_ Hu].
      contradiction.
    + apply category_detail_404, category_get_object_404.
      intros c' Hin' Hid.
      rewrite (unique_key Category.id _ c' c Hcats Hin' Hin Hid). exact Hother.
    + intros db0 Habsent. apply category_detail_404, category_get_object_404.
      intros c0 Hin0 Hid. exfalso. exact (Habsent c0 Hin0 Hid).
Qed.

Lemma fixture_task_keys : List.NoDup (map Task.id (Database.tasks Fixtures.db)).
Proof.
  cbn. repeat (apply List.NoDup_cons; [cbn; intuition discriminate|]).
  apply List.NoDup_nil.
Defined.

Lemma fixture_category_keys :
  List.NoDup (map Category.id (Database.categories Fixtures.db)).
Proof.
  cbn. repeat (apply List.NoDup_cons; [cbn; intuition discriminate|]).
  apply List.NoDup_nil.
Defined.

(** Alice asks for Bob's task and for Bob's category by their keys, tries
    to patch the task and to delete the category: not found, every time. *)
Lemma cross_owner_not_found_witness :
  Response.dispatch Fixtures.db
    (TaskViewSet.retrieve Fixtures.db Fixtures.today Fixtures.as_alice 5%N)
  = (not_found, Fixtures.db)
  /\ Response.dispatch Fixtures.db
       (TaskViewSet.partial_update Fixtures.db Fixtures.today Fixtures.as_alice
          5%N (Spec.patch_status "in_progress"))
     = (not_found, Fixtures.db)
  /\ Response.dispatch Fixtures.db
       (CategoryViewSet.retrieve Fixtures.db Fixtures.as_alice 21%N)
     = (not_found, Fixtures.db)
  /\ Response.dispatch Fixtures.db
       (CategoryViewSet.destroy Fixtures.db Fixtures.as_alice 21%N)
     = (not_found, Fixtures.db).
Proof.
  destruct (cross_owner_not_found Fixtures.db Fixtures.today Fixtures.as_alice
              fixture_task_keys fixture_category_keys) as [Ht Hc].
  destruct (Ht Fixtures.t_bob ltac:(cbn; tauto) ltac:(discriminate))
    as [_ [[H1 [H2 _]] _]].
  destruct (Hc Fixtures.bobs_work ltac:(cbn; tauto) ltac:(discriminate))
    as [_ [[H3 [_ H4]] _]].
  split; [exact H1|]. split; [apply H2|]. split; [exact H3 | exact H4].
Defined.
End ScopeTheorem.

(** ** Category names *)
Section CategoryNameFacts.
Import Py Spec.

Lemma exists_filter {A} (f : A -> bool) (l : list A) :
  Orm.exists_ (List.filter f l) = existsb f l.
Proof.
  induction l as [|x l IH]; cbn [List.filter existsb]; [reflexivity|].
  destruct (f x); [reflexivity | exact IH].
Qed.

Lemma existsb_pointwise {A} (f g : A -> bool) (l : list A) :
  (forall x, f x = g x) -> existsb f l = existsb g l.
Proof.
  intros H. induction l as [|x l IH]; cbn [existsb]; [reflexivity|].
  rewrite H, IH. reflexivity.
Qed.

(** The name check looks for a row of the requesting user with the same
    name up to case, other than the instance being updated. *)
Lemma validate_name_eq objects owner instance value :
  CategorySerializer.validate_name objects (Some owner) instance value
  = if existsb
         (fun c =>
            Orm.iexact value (Category.name c) && N.eqb owner (Category.user c)
            && match instance with
               | Some inst => negb (N.eqb (Category.id inst) (Category.id c))
               | None => true
               end)
         objects
    then inl (ValidationError (Message duplicate_name_message))
    else inr value.
Proof.
  unfold CategorySerializer.validate_name.
  destruct instance as [inst|].
  - rewrite exclude_matches, filter_matches, filter_filter_and, exists_filter.
    reflexivity.
  - rewrite filter_matches, exists_filter.
    rewrite (existsb_pointwise
               (fun c => Orm.iexact value (Category.name c)
                         && N.eqb owner (Category.user c) && true)
               (Orm.matches (Orm.QAnd (CategorySerializer.name__iexact value)
                                      (CategorySerializer.user owner))));
      [reflexivity|].
    intros c. apply andb_true_r.
Qed.


Lemma iexact_same_name value name :
  Orm.iexact value name = true <-> same_name name value.
Proof. unfold Orm.iexact, same_name. apply String.eqb_eq. Qed.


End CategoryNameFacts.

Section CategoryNameWitness.
Import Py Spec.

Lemma fixture_names_unique : names_unique (Database.categories Fixtures.db).
Proof.
  intros c1 c2 H1 H2 Hu Hn. cbn in H1, H2.
  destruct H1 as [<-|[<-|[]]], H2 as [<-|[<-|[]]];
    try reflexivity; discriminate Hu.
Defined.

End CategoryNameWitness.

(** ** The password-reset request *)
Section PasswordResetFacts.
Import Py Spec.

Lemma filter_unique {A K} (key : A -> K) (g : A -> bool) (l : list A) (x : A) :
  List.NoDup (map key l) -> In x l -> g x = true ->
  (forall y, In y l -> g y = true -> key y = key x) ->
  List.filter g l = [x].
Proof.
  induction l as [|z l IH]; cbn [map List.filter]; [intros _ []|].
  intros Hnd Hin Hg Hkey. apply List.NoDup_cons_iff in Hnd.
  destruct Hnd as [Hz Hnd].
  destruct Hin as [->|Hin].
  - rewrite Hg. f_equal.
    destruct (List.filter g l) as [|y l'] eqn:E; [reflexivity|].
    assert (Hy : In y (List.filter g l)) by (rewrite E; left; reflexivity).
    apply filter_In in Hy. destruct Hy as [Hy Hgy].
    exfalso. apply Hz. rewrite <- (Hkey y (or_intror Hy) Hgy).
    apply in_map. exact Hy.
  - destruct (g z) eqn:Hgz.
    + exfalso. apply Hz. rewrite (Hkey z (or_introl eq_refl) Hgz).
      apply in_map. exact Hin.
    + apply IH; auto. intros y Hy. apply Hkey. right. exact Hy.
Qed.

Variable email_validator : string -> bool.
Variable client_send : string -> Emails.Mail -> option nat.
Variable urlsafe_base64_encode : uuid -> string.
Variable make_token : User.t -> string.

Lemma reset_validation raw :
  well_formed email_validator raw ->
  PasswordResetRequestSerializer.run_validation email_validator (Some raw)
  = inr (looked_up raw).
Proof.
  intros [Hne Hv].
  unfold PasswordResetRequestSerializer.run_validation,
    PasswordResetRequestSerializer.email_field.
  apply truthy_true in Hne. rewrite Hne, Hv. reflexivity.
Qed.

(** C9.  Let addresses be unique in the user table.  Of two reset requests
    with well-formed addresses, one whose address is that of an active
    account and one whose address is that of no active account, both are
    answered 200 with the same fixed message: the two responses are
    equal. *)
Theorem password_reset_indistinguishable
    (settings : Settings.t) (users : list User.t) (raw1 raw2 : string) :
  List.NoDup (map User.email users) ->
  well_formed email_validator raw1 ->
  well_formed email_validator raw2 ->
  (exists u, In u users /\ User.email u = looked_up raw1
             /\ User.is_active u = true) ->
  (forall u, In u users -> User.email u = looked_up raw2 ->
             User.is_active u = false) ->
  PasswordResetRequestView.response email_validator client_send
    urlsafe_base64_encode make_token settings users (Some raw1)
  = PasswordResetRequestView.response email_validator client_send
      urlsafe_base64_encode make_token settings users (Some raw2)
  /\ PasswordResetRequestView.response email_validator client_send
       urlsafe_base64_encode make_token settings users (Some raw1)
     = Response.mk Response.HTTP_200_OK
         (Response.Detail
            "If an account with that email exists, a reset link has been sent.").
Proof.
  intros Hnd Hw1 Hw2 [u [Hin [Hemail Hactive]]] Hnone.
  assert (H1 : PasswordResetRequestView.response email_validator client_send
                 urlsafe_base64_encode make_token settings users (Some raw1)
               = Response.mk Response.HTTP_200_OK
                   PasswordResetRequestView.success_msg).
  { unfold PasswordResetRequestView.response, PasswordResetRequestView.post.
    rewrite (reset_validation raw1 Hw1). cbn [bind].
    unfold Orm.get. rewrite filter_matches.
    rewrite (filter_unique User.email _ users u Hnd Hin).
    - reflexivity.
    - cbn [Orm.matches Orm.compare User.email_is User.is_active_is].
      rewrite Hemail, String.eqb_refl, Hactive. reflexivity.
    - intros y Hy Hm.
      cbn [Orm.matches Orm.compare User.email_is User.is_active_is] in Hm.
      apply andb_true_iff in Hm. destruct Hm as [Hm _].
      apply String.eqb_eq in Hm. congruence. }
  assert (H2 : PasswordResetRequestView.response email_validator client_send
                 urlsafe_base64_encode make_token settings users (Some raw2)
               = Response.mk Response.HTTP_200_OK
                   PasswordResetRequestView.success_msg).
  { unfold PasswordResetRequestView.response, PasswordResetRequestView.post.
    rewrite (reset_validation raw2 Hw2). cbn [bind].
    rewrite get_DoesNotExist; [reflexivity|].
    intros r Hr.
    cbn [Orm.matches Orm.compare User.email_is User.is_active_is].
    destruct (String.eqb (looked_up raw2) (User.email r)) eqn:E;
      [|reflexivity].
    apply String.eqb_eq in E. rewrite (Hnone r Hr (eq_sym E)). reflexivity. }
  split; [rewrite H1, H2; reflexivity | exact H1].
Qed.
End PasswordResetFacts.

Section PasswordResetWitness.
Import Py Spec.

Lemma fixture_emails : List.NoDup (map User.email Fixtures.users).
Proof.
  cbn. repeat (apply List.NoDup_cons; [cbn; intuition discriminate|]).
  apply List.NoDup_nil.
Defined.

(** Alice's account is active, Bob's is not, and nobody has registered
    the third address: the three requests get the same response, while
    only the first hands a message to the mail client. *)
Lemma password_reset_indistinguishable_witness :
  PasswordResetRequestView.response Fixtures.has_at_sign
    Fixtures.accepting_client Fixtures.encode_key Fixtures.token_of
    Fixtures.settings Fixtures.users (Some " Alice@Example.com ")
  = PasswordResetRequestView.response Fixtures.has_at_sign
      Fixtures.accepting_client Fixtures.encode_key Fixtures.token_of
      Fixtures.settings Fixtures.users (Some "nobody@example.com")
  /\ option_map (fun out => length (snd out))
       (match PasswordResetRequestView.post Fixtures.has_at_sign
                Fixtures.accepting_client Fixtures.encode_key Fixtures.token_of
                Fixtures.settings Fixtures.users (Some " Alice@Example.com ")
        with inr out => Some out | inl _ => None end)
     = Some 1%nat.
Proof.
  split; [|reflexivity].
  apply (password_reset_indistinguishable Fixtures.has_at_sign
           Fixtures.accepting_client Fixtures.encode_key Fixtures.token_of
           Fixtures.settings Fixtures.users
           " Alice@Example.com " "nobody@example.com" fixture_emails).
  - split; [discriminate | reflexivity].
  - split; [discriminate | reflexivity].
  - eexists. split; [left; reflexivity|]. split; reflexivity.
  - intros u Hin He. cbn in Hin.
    destruct Hin as [<-|[<-|[]]]; [discriminate He | reflexivity].
Defined.
End PasswordResetWitness.

Section FilterAndStatsWitnesses.
Import Py Spec.

(** Of Alice's four tasks two are overdue; the one that is done and the one
    without a due date come back for [overdue=false]. *)
Lemma overdue_filter_partition_witness :
  TaskViewSet.filter_queryset Fixtures.today
    (Request.mk Fixtures.alice (overdue_params true) 1)
    (TaskViewSet.get_queryset Fixtures.db Fixtures.as_alice)
  = inr [Fixtures.t_todo; Fixtures.t_doing]
  /\ TaskViewSet.filter_queryset Fixtures.today
       (Request.mk Fixtures.alice (overdue_params false) 1)
       (TaskViewSet.get_queryset Fixtures.db Fixtures.as_alice)
     = inr [Fixtures.t_done; Fixtures.t_undated]
  /\ exists no,
       TaskViewSet.filter_queryset Fixtures.today
         (Request.mk Fixtures.alice (overdue_params false) 1)
         (TaskViewSet.get_queryset Fixtures.db Fixtures.as_alice) = inr no
       /\ In Fixtures.t_undated no.
Proof.
  split; [reflexivity|]. split; [reflexivity|].
  destruct (overdue_filter_partition Fixtures.db Fixtures.today Fixtures.alice 1)
    as [yes [no [_ [Hno [_ [_ [Hundated _]]]]]]].
  exists no. split; [exact Hno|].
  apply Hundated; [cbn; tauto | reflexivity].
Defined.

(** Alice's statistics, and those of Carol, who has no task. *)
Lemma task_stats_witness :
  (exists s,
      Response.dispatch Fixtures.db
        (TaskViewSet.stats Fixtures.db Fixtures.today Fixtures.as_alice)
      = (Response.mk 200 (Response.StatsObject s), Fixtures.db)
      /\ Response.total s = 4%nat
      /\ Response.by_status s !! "todo" = Some 2%nat
      /\ Response.by_status s !! "done" = Some 1%nat
      /\ Response.by_priority s !! "urgent" = Some 1%nat
      /\ Response.overdue s = 2%nat)
  /\ (exists s,
         Response.dispatch Fixtures.db
           (TaskViewSet.stats Fixtures.db Fixtures.today Fixtures.as_carol)
         = (Response.mk 200 (Response.StatsObject s), Fixtures.db)
         /\ Response.total s = 0%nat
         /\ Response.overdue s = 0%nat
         /\ Response.by_status s !! "in_progress" = Some 0%nat
         /\ Response.by_priority s !! "low" = Some 0%nat).
Proof.
  split.
  - destruct (task_stats Fixtures.db Fixtures.today Fixtures.as_alice)
      as [s [H [Ht [_ [_ [Hs [Hp [Ho _]]]]]]]].
    exists s. split; [exact H|]. split; [exact Ht|].
    split; [exact (Hs Task.Status.TODO)|].
    split; [exact (Hs Task.Status.DONE)|].
    split; [exact (Hp Task.Priority.URGENT) | exact Ho].
  - destruct (task_stats Fixtures.db Fixtures.today Fixtures.as_carol)
      as [s [H [_ [_ [_ [_ [_ [_ [_ [_ He]]]]]]]]]].
    destruct (He eq_refl) as [Ht [Ho [Hs Hp]]].
    exists s. split; [exact H|]. split; [exact Ht|]. split; [exact Ho|].
    split; [exact (Hs Task.Status.IN_PROGRESS) | exact (Hp Task.Priority.LOW)].
Defined.
End FilterAndStatsWitnesses.

(* ===================================================================== *)
(** * Further properties of the task application                          *)
(* ===================================================================== *)

(** ** The filter set as a whole *)
Section FilterSetFacts.
Import Py Spec Cover.

Lemma filter_all {A} (l : list A) : List.filter (fun _ => true) l = l.
Proof. induction l as [|x l IH]; cbn [List.filter]; [|rewrite IH]; reflexivity. Qed.

Lemma char_filter_closed (p : csv_param) raw queryset :
  TaskFilter.char_filter TaskFilter.filter_csv_field (param_name p) raw queryset
  = inr (List.filter (csv_ok (param_column p) raw) queryset).
Proof.
  destruct raw as [s|].
  - rewrite char_filter_eq, filter_csv_field_eq, csv_values_strip.
    unfold csv_ok. destruct (TaskFilter.csv_values s) as [|v l].
    + rewrite filter_all. reflexivity.
    + reflexivity.
  - cbn [TaskFilter.char_filter csv_ok]. rewrite filter_all. reflexivity.
Qed.

Lemma lookup_filter_closed {A} (lookup : A -> Orm.Q Task.t) value queryset :
  TaskFilter.lookup_filter lookup value queryset
  = List.filter (fun t => when value (fun v => Orm.matches (lookup v) t))
                queryset.
Proof.
  destruct value as [v|]; cbn [TaskFilter.lookup_filter when].
  - apply filter_matches.
  - rewrite filter_all. reflexivity.
Qed.

Lemma boolean_filter_closed today name value queryset :
  TaskFilter.boolean_filter (TaskFilter.filter_overdue today) name value queryset
  = inr (List.filter
           (fun t => when value (fun b => Bool.eqb (Task.is_overdue today t) b))
           queryset).
Proof.
  destruct value as [[|]|]; cbn [TaskFilter.boolean_filter when].
  - rewrite filter_overdue_true. apply (f_equal (@inr Exc _)).
    apply List.filter_ext.
    intros t. destruct (Task.is_overdue today t); reflexivity.
  - rewrite filter_overdue_false. apply (f_equal (@inr Exc _)).
    apply List.filter_ext.
    intros t. destruct (Task.is_overdue today t); reflexivity.
  - rewrite filter_all. reflexivity.
Qed.

(** The filter set returns the rows that pass all six tests, in the order
    they had. *)
Lemma qs_closed today params queryset :
  TaskFilter.qs today params queryset
  = inr (List.filter (passes today params) queryset).
Proof.
  unfold TaskFilter.qs.
  change "status" with (param_name status_param).
  change "priority" with (param_name priority_param).
  rewrite char_filter_closed. cbn [bind].
  rewrite char_filter_closed. cbn [bind].
  rewrite boolean_filter_closed. cbn [bind ret].
  rewrite !lookup_filter_closed, !filter_filter_and.
  apply (f_equal (@inr Exc _)).
  apply List.filter_ext. intros t. unfold passes.
  cbn [param_column].
  assert (Hc : when (TaskFilter.Params.category params)
                    (fun v => Orm.matches (TaskFilter.category__id v) t)
               = when (TaskFilter.Params.category params)
                      (fun c => bool_decide (Task.category t = Some c))).
  { destruct (TaskFilter.Params.category params) as [c|]; cbn [when];
      [|reflexivity].
    cbn [Orm.matches Orm.compare TaskFilter.category__id].
    destruct (Task.category t) as [k|]; cbn [option_map].
    - destruct (N.eqb c k) eqn:E.
      + apply N.eqb_eq in E. subst. symmetry. apply bool_decide_eq_true.
        reflexivity.
      + apply N.eqb_neq in E. symmetry. apply bool_decide_eq_false.
        intros [= ->]. contradiction.
    - symmetry. apply bool_decide_eq_false. discriminate. }
  assert (Hmin : when (TaskFilter.Params.due_date_min params)
                      (fun v => Orm.matches (TaskFilter.due_date__gte v) t)
                 = when (TaskFilter.Params.due_date_min params)
                        (fun d => match Task.due_date t with
                                  | Some v => d <=? v
                                  | None => false
                                  end)).
  { destruct (TaskFilter.Params.due_date_min params) as [d|]; cbn [when];
      [|reflexivity].
    cbn [Orm.matches Orm.compare TaskFilter.due_date__gte].
    destruct (Task.due_date t); reflexivity. }
  assert (Hmax : when (TaskFilter.Params.due_date_max params)
                      (fun v => Orm.matches (TaskFilter.due_date__lte v) t)
                 = when (TaskFilter.Params.due_date_max params)
                        (fun d => match Task.due_date t with
                                  | Some v => v <=? d
                                  | None => false
                                  end)).
  { destruct (TaskFilter.Params.due_date_max params) as [d|]; cbn [when];
      [|reflexivity].
    cbn [Orm.matches Orm.compare TaskFilter.due_date__lte].
    destruct (Task.due_date t); reflexivity. }
  rewrite Hc, Hmin, Hmax, !andb_assoc. reflexivity.
Qed.
End FilterSetFacts.

Section FilterSetTheorem.
Import Py Spec Cover.

Lemma csv_ok_spec col raw t :
  csv_ok col raw t = true
  <-> forall s, raw = Some s -> TaskFilter.csv_values s <> [] ->
                In (col t) (TaskFilter.csv_values s).
Proof.
  unfold csv_ok. destruct raw as [s|].
  - destruct (TaskFilter.csv_values s) as [|v l] eqn:E.
    + split; [|reflexivity]. intros _ s' [= <-] H. rewrite E in H.
      contradiction.
    + rewrite str_in_In. split.
      * intros H s' [= <-] _. rewrite E. exact H.
      * intros H. rewrite <- E. apply (H s eq_refl). rewrite E. discriminate.
  - split; [intros _ s [=] | reflexivity].
Qed.

Lemma when_spec {A} (v : option A) (test : A -> bool) :
  when v test = true <-> forall x, v = Some x -> test x = true.
Proof.
  destruct v as [x|]; cbn [when].
  - split; [intros H y [= <-]; exact H | intros H; apply H; reflexivity].
  - split; [intros _ x [=] | reflexivity].
Qed.

(** X1.  For query parameters that the filter form lets through (a
    request whose category or date bound does not parse, or whose status
    or priority contains a NUL character, is answered 400 by the form
    before any filtering and is not covered), the declared filters of
    the task list combine by conjunction and raise nothing: the result
    is the sub-list of the rows that satisfy every parameter that is
    present.  A status or priority parameter with some value left asks
    for membership; [category] asks for that category, so a task without
    category never matches; [overdue] asks for the given truth value of
    [is_overdue]; [due_date_min] and [due_date_max] are inclusive bounds
    that a task without due date never meets.  Filtering the result
    again with the same parameters changes nothing, and without
    parameters nothing is removed. *)
Theorem task_filter_conjunction
    (today : date) (request : Request.t) (queryset : list Task.t) :
  let params := Request.query_params request in
  form_accepts params ->
  exists out,
    TaskViewSet.filter_queryset today request queryset = inr out
    /\ out = List.filter (passes today params) queryset
    /\ (forall t,
           In t out
           <-> In t queryset
               /\ (forall s, TaskFilter.Params.status params = Some s ->
                             TaskFilter.csv_values s <> [] ->
                             In (Task.status t) (TaskFilter.csv_values s))
               /\ (forall s, TaskFilter.Params.priority params = Some s ->
                             TaskFilter.csv_values s <> [] ->
                             In (Task.priority t) (TaskFilter.csv_values s))
               /\ (forall c, TaskFilter.Params.category params = Some c ->
                             Task.category t = Some c)
               /\ (forall b, TaskFilter.Params.overdue params = Some b ->
                             Task.is_overdue today t = b)
               /\ (forall d, TaskFilter.Params.due_date_min params = Some d ->
                             exists v, Task.due_date t = Some v /\ d <= v)
               /\ (forall d, TaskFilter.Params.due_date_max params = Some d ->
                             exists v, Task.due_date t = Some v /\ v <= d))
    /\ TaskViewSet.filter_queryset today request out = inr out
    /\ (params = TaskFilter.Params.empty -> out = queryset).
Proof.
  intros params _. unfold TaskViewSet.filter_queryset. fold params.
  rewrite qs_closed. eexists. split; [reflexivity|]. split; [reflexivity|].
  split; [|split].
  - intros t. rewrite filter_In. unfold passes.
    rewrite !andb_true_iff, !csv_ok_spec, !when_spec.
    split.
    + intros [Hin [[[[[H1 H2] H3] H4] H5] H6]].
      split; [exact Hin|]. split; [exact H1|]. split; [exact H2|].
      split; [intros c Hc; apply (bool_decide_eq_true_1 _ (H3 c Hc))|].
      split; [intros b Hb; apply Bool.eqb_prop; exact (H4 b Hb)|].
      split.
      * intros d Hd. specialize (H5 d Hd).
        destruct (Task.due_date t) as [v|]; [|discriminate].
        exists v. split; [reflexivity | apply Z.leb_le; exact H5].
      * intros d Hd. specialize (H6 d Hd).
        destruct (Task.due_date t) as [v|]; [|discriminate].
        exists v. split; [reflexivity | apply Z.leb_le; exact H6].
    + intros [Hin [H1 [H2 [H3 [H4 [H5 H6]]]]]].
      split; [exact Hin|]. repeat split; auto.
      * intros c Hc. apply bool_decide_eq_true_2. exact (H3 c Hc).
      * intros b Hb. rewrite (H4 b Hb). apply Bool.eqb_reflx.
      * intros d Hd. destruct (H5 d Hd) as [v [-> Hv]].
        apply Z.leb_le. exact Hv.
      * intros d Hd. destruct (H6 d Hd) as [v [-> Hv]].
        apply Z.leb_le. exact Hv.
  - rewrite qs_closed, filter_filter_and. apply (f_equal (@inr Exc _)).
    apply List.filter_ext. intros t. apply andb_diag.
  - intros ->. apply filter_all.
Qed.

(** Alice asks for her todo or in-progress tasks due from 738995 on. *)
Lemma task_filter_conjunction_witness :
  TaskViewSet.filter_queryset Fixtures.today
    (Request.mk Fixtures.alice
       (TaskFilter.Params.mk (Some "todo,in_progress") None None None
          (Some 738995) None) 1)
    (TaskViewSet.get_queryset Fixtures.db Fixtures.as_alice)
  = inr [Fixtures.t_doing].
Proof.
  destruct (task_filter_conjunction Fixtures.today
              (Request.mk Fixtures.alice
                 (TaskFilter.Params.mk (Some "todo,in_progress") None None None
                    (Some 738995) None) 1)
              (TaskViewSet.get_queryset Fixtures.db Fixtures.as_alice))
    as [out [H [-> _]]].
  - split; [intros s [= <-]; reflexivity | intros s [=]].
  - exact H.
Defined.
End FilterSetTheorem.

(** ** The statistics add up *)
Section StatsTotals.
Import Py Spec Cover.

Lemma count_where_cons f t l :
  count_where f (t :: l)
  = ((if f t then 1 else 0) + count_where f l)%nat.
Proof. unfold count_where. cbn [List.filter]. destruct (f t); reflexivity. Qed.

Lemma status_counts_le (l : list Task.t) :
  (count_where (fun t => String.eqb (Task.status t) "todo") l
   + count_where (fun t => String.eqb (Task.status t) "in_progress") l
   + count_where (fun t => String.eqb (Task.status t) "done") l
   <= length l)%nat.
Proof.
  induction l as [|t l IH]; [reflexivity|].
  rewrite !count_where_cons. cbn [length].
  destruct (String.eqb (Task.status t) "todo") eqn:E1.
  - apply String.eqb_eq in E1. rewrite E1. cbn. lia.
  - destruct (String.eqb (Task.status t) "in_progress") eqn:E2.
    + apply String.eqb_eq in E2. rewrite E2. cbn. lia.
    + destruct (String.eqb (Task.status t) "done"); lia.
Qed.

Lemma status_counts_eq (l : list Task.t) :
  (forall t, In t l -> In (Task.status t) Task.Status.values) ->
  (count_where (fun t => String.eqb (Task.status t) "todo") l
   + count_where (fun t => String.eqb (Task.status t) "in_progress") l
   + count_where (fun t => String.eqb (Task.status t) "done") l
   = length l)%nat.
Proof.
  induction l as [|t l IH]; [reflexivity|]. intros H.
  rewrite !count_where_cons. cbn [length].
  specialize (IH (fun x Hx => H x (or_intror Hx))).
  destruct (H t (or_introl eq_refl)) as [E|[E|[E|[]]]];
    cbn [Task.Status.value] in E; rewrite <- E; cbn; lia.
Qed.

Lemma priority_counts_le (l : list Task.t) :
  (count_where (fun t => String.eqb (Task.priority t) "low") l
   + count_where (fun t => String.eqb (Task.priority t) "medium") l
   + count_where (fun t => String.eqb (Task.priority t) "high") l
   + count_where (fun t => String.eqb (Task.priority t) "urgent") l
   <= length l)%nat.
Proof.
  induction l as [|t l IH]; [reflexivity|].
  rewrite !count_where_cons. cbn [length].
  destruct (String.eqb (Task.priority t) "low") eqn:E1.
  - apply String.eqb_eq in E1. rewrite E1. cbn. lia.
  - destruct (String.eqb (Task.priority t) "medium") eqn:E2.
    + apply String.eqb_eq in E2. rewrite E2. cbn. lia.
    + destruct (String.eqb (Task.priority t) "high") eqn:E3.
      * apply String.eqb_eq in E3. rewrite E3. cbn. lia.
      * destruct (String.eqb (Task.priority t) "urgent"); lia.
Qed.

Lemma priority_counts_eq (l : list Task.t) :
  (forall t, In t l -> In (Task.priority t) Task.Priority.values) ->
  (count_where (fun t => String.eqb (Task.priority t) "low") l
   + count_where (fun t => String.eqb (Task.priority t) "medium") l
   + count_where (fun t => String.eqb (Task.priority t) "high") l
   + count_where (fun t => String.eqb (Task.priority t) "urgent") l
   = length l)%nat.
Proof.
  induction l as [|t l IH]; [reflexivity|]. intros H.
  rewrite !count_where_cons. cbn [length].
  specialize (IH (fun x Hx => H x (or_intror Hx))).
  destruct (H t (or_introl eq_refl)) as [E|[E|[E|[E|[]]]]];
    cbn [Task.Priority.value] in E; rewrite <- E; cbn; lia.
Qed.

Lemma overdue_done_le today (l : list Task.t) :
  (count_where (Task.is_overdue today) l
   + count_where (fun t => String.eqb (Task.status t) "done") l
   <= length l)%nat.
Proof.
  induction l as [|t l IH]; [reflexivity|].
  rewrite !count_where_cons. cbn [length].
  destruct (String.eqb (Task.status t) "done") eqn:E.
  - apply String.eqb_eq in E. rewrite (is_overdue_done today t E). lia.
  - destruct (Task.is_overdue today t); lia.
Qed.

Lemma entry_by_status counts (st : Task.Status.t) :
  entry (TaskViewSet.zero_filled Task.Status.values counts)
        (Task.Status.value st)
  = default 0%nat (counts !! Task.Status.value st).
Proof. unfold entry. rewrite by_status_lookup. reflexivity. Qed.

Lemma entry_by_priority counts (p : Task.Priority.t) :
  entry (TaskViewSet.zero_filled Task.Priority.values counts)
        (Task.Priority.value p)
  = default 0%nat (counts !! Task.Priority.value p).
Proof. unfold entry. rewrite by_priority_lookup. reflexivity. Qed.

(** X2.  In a stats response the three status counts never add up to more
    than [total], and they add up to exactly [total] when every task of
    the owner carries one of the three status values; the same holds for
    the four priority counts; and [overdue] plus the count of done tasks
    never exceeds [total], since a done task is never overdue. *)
Theorem task_stats_add_up
    (db : Database.t) (today : date) (request : Request.t) :
  let owned := TaskViewSet.get_queryset db request in
  exists s,
    TaskViewSet.stats db today request
    = inr (Response.mk Response.HTTP_200_OK (Response.StatsObject s), db)
    /\ (entry (Response.by_status s) "todo"
        + entry (Response.by_status s) "in_progress"
        + entry (Response.by_status s) "done" <= Response.total s)%nat
    /\ ((forall t, In t owned -> In (Task.status t) Task.Status.values) ->
        (entry (Response.by_status s) "todo"
         + entry (Response.by_status s) "in_progress"
         + entry (Response.by_status s) "done" = Response.total s)%nat)
    /\ (entry (Response.by_priority s) "low"
        + entry (Response.by_priority s) "medium"
        + entry (Response.by_priority s) "high"
        + entry (Response.by_priority s) "urgent" <= Response.total s)%nat
    /\ ((forall t, In t owned -> In (Task.priority t) Task.Priority.values) ->
        (entry (Response.by_priority s) "low"
         + entry (Response.by_priority s) "medium"
         + entry (Response.by_priority s) "high"
         + entry (Response.by_priority s) "urgent" = Response.total s)%nat)
    /\ (Response.overdue s + entry (Response.by_status s) "done"
        <= Response.total s)%nat.
Proof.
  intros owned. eexists. split; [reflexivity|].
  cbn [Response.total Response.by_status Response.by_priority Response.overdue].
  fold owned.
  pose proof (entry_by_status (TaskViewSet.group_count Task.status owned)
                Task.Status.TODO) as Ht.
  pose proof (entry_by_status (TaskViewSet.group_count Task.status owned)
                Task.Status.IN_PROGRESS) as Hi.
  pose proof (entry_by_status (TaskViewSet.group_count Task.status owned)
                Task.Status.DONE) as Hd.
  pose proof (entry_by_priority (TaskViewSet.group_count Task.priority owned)
                Task.Priority.LOW) as Hl.
  pose proof (entry_by_priority (TaskViewSet.group_count Task.priority owned)
                Task.Priority.MEDIUM) as Hm.
  pose proof (entry_by_priority (TaskViewSet.group_count Task.priority owned)
                Task.Priority.HIGH) as Hh.
  pose proof (entry_by_priority (TaskViewSet.group_count Task.priority owned)
                Task.Priority.URGENT) as Hu.
  cbn [Task.Status.value Task.Priority.value] in *.
  rewrite group_count_lookup in Ht, Hi, Hd, Hl, Hm, Hh, Hu.
  rewrite Ht, Hi, Hd, Hl, Hm, Hh, Hu, stats_overdue_count.
  unfold Orm.count.
  split; [apply status_counts_le|].
  split; [apply status_counts_eq|].
  split; [apply priority_counts_le|].
  split; [apply priority_counts_eq|].
  apply overdue_done_le.
Qed.

(** Alice's four tasks: two todo, one in progress, one done; two overdue. *)
Lemma task_stats_add_up_witness :
  exists s,
    TaskViewSet.stats Fixtures.db Fixtures.today Fixtures.as_alice
    = inr (Response.mk 200 (Response.StatsObject s), Fixtures.db)
    /\ (entry (Response.by_status s) "todo"
        + entry (Response.by_status s) "in_progress"
        + entry (Response.by_status s) "done" = 4)%nat.
Proof.
  destruct (task_stats_add_up Fixtures.db Fixtures.today Fixtures.as_alice)
    as [s [H [_ [Heq _]]]].
  exists s. split; [exact H|].
  rewrite Heq; [vm_compute in H; injection H as <-; reflexivity|].
  intros t Hin. vm_compute in Hin.
  destruct Hin as [<-|[<-|[<-|[<-|[]]]]]; cbn; tauto.
Defined.
End StatsTotals.

(** ** What a write does to the tables *)
Section WriteShapes.
Import Py Spec Cover.

Lemma collected_category categories today request instance partial data :
  TaskSerializer.Attrs.category
    (collected_attrs categories today request instance partial data)
  = match r_category categories request data with
    | inr v => v
    | inl _ => None
    end.
Proof.
  unfold collected_attrs, stored.
  repeat match goal with
         | |- context [match ?r with inl _ => _ | inr _ => _ end] =>
             destruct r as [?|[?|]]
         end;
  reflexivity.
Qed.

(** A category that passes the field is stored, is the one the key names
    and belongs to the requester. *)
Lemma category_field_inr categories u data c :
  TaskSerializer.category_field categories (Some u) data = inr (Some (Some c)) ->
  In c categories /\ Category.user c = u
  /\ data = Some (Some (Category.id c)).
Proof.
  unfold TaskSerializer.category_field.
  destruct data as [[key|]|]; [| intros [=] | intros [=]].
  destruct (Orm.get (CategorySerializer.pk key) categories) as [e|c'] eqn:Hg;
    [discriminate|].
  apply get_inr in Hg. destruct Hg as [Hin Hm].
  cbn [Orm.matches Orm.compare CategorySerializer.pk] in Hm.
  apply N.eqb_eq in Hm.
  unfold TaskSerializer.validate_category.
  destruct (negb (N.eqb (Category.user c') u)) eqn:E; [discriminate|].
  intros [= <-]. apply negb_false_iff, N.eqb_eq in E.
  rewrite Hm. auto.
Qed.

(** The category of a row built from validated data. *)
Lemma validated_category categories today u instance partial data attrs k :
  TaskSerializer.run_validation categories today (Some u) instance partial data
  = inr attrs ->
  option_map (option_map Category.id) (TaskSerializer.Attrs.category attrs)
  = Some (Some k) ->
  exists c, In c categories /\ Category.id c = k /\ Category.user c = u.
Proof.
  intros Hrun Hk. apply run_validation_inr in Hrun. destruct Hrun as [-> _].
  rewrite collected_category in Hk. unfold r_category in Hk.
  destruct (TaskSerializer.category_field categories (Some u)
              (TaskSerializer.Data.category data)) as [e|[[c|]|]] eqn:Hc;
    try discriminate.
  injection Hk as <-.
  apply category_field_inr in Hc. destruct Hc as [Hin [Hu _]].
  exists c. auto.
Qed.

Lemma task_create_inr db today new_id request data out :
  TaskViewSet.create db today new_id request data = inr out ->
  exists attrs,
    TaskSerializer.run_validation (Database.categories db) today
      (Some (Request.user request)) None false data = inr attrs
    /\ existsb (fun t => N.eqb (Task.id t) new_id) (Database.tasks db) = false
    /\ snd out
       = Database.mk (Database.categories db)
           (Database.tasks db
            ++ [TaskSerializer.create new_id (Request.user request) attrs]).
Proof.
  unfold TaskViewSet.create. intros H.
  apply bind_inr in H. destruct H as [attrs [Hrun H]].
  destruct (existsb _ _) eqn:E; [discriminate|].
  injection H as <-. exists attrs. auto.
Qed.

Lemma task_update_inr db today request key data out :
  TaskViewSet.partial_update db today request key data = inr out ->
  exists instance attrs,
    TaskViewSet.get_object db today request key = inr instance
    /\ TaskSerializer.run_validation (Database.categories db) today
         (Some (Request.user request)) (Some instance) true data = inr attrs
    /\ snd out
       = Database.mk (Database.categories db)
           (map (fun t => if N.eqb (Task.id t) (Task.id instance)
                          then TaskSerializer.update instance attrs else t)
                (Database.tasks db)).
Proof.
  unfold TaskViewSet.partial_update. intros H.
  apply bind_inr in H. destruct H as [instance [Hget H]].
  apply bind_inr in H. destruct H as [attrs [Hrun H]].
  injection H as <-. exists instance, attrs. auto.
Qed.

Lemma task_destroy_inr db today request key out :
  TaskViewSet.destroy db today request key = inr out ->
  exists instance,
    TaskViewSet.get_object db today request key = inr instance
    /\ snd out
       = Database.mk (Database.categories db)
           (List.filter (fun t => negb (N.eqb (Task.id t) (Task.id instance)))
                        (Database.tasks db)).
Proof.
  unfold TaskViewSet.destroy. intros H.
  apply bind_inr in H. destruct H as [instance [Hget H]].
  injection H as <-. exists instance. auto.
Qed.

Lemma category_get_object_inr db request key obj :
  CategoryViewSet.get_object db request key = inr obj ->
  In (CategoryViewSet.category obj) (Database.categories db)
  /\ Category.id (CategoryViewSet.category obj) = key
  /\ Category.user (CategoryViewSet.category obj) = Request.user request.
Proof.
  unfold CategoryViewSet.get_object. intros H.
  apply bind_inr in H. destruct H as [o [Hget H]].
  destruct (IsOwner.has_object_permission _ _); [|discriminate].
  injection H as ->.
  assert (Hget' : Orm.get (CategoryViewSet.pk key)
                    (CategoryViewSet.get_queryset db request) = inr obj).
  { destruct (Orm.get _ _) as [[]|]; try discriminate; exact Hget. }
  apply get_inr in Hget'. destruct Hget' as [Hin Hm].
  apply category_scoped in Hin. destruct Hin as [Hin Hu].
  cbn [Orm.matches Orm.compare CategoryViewSet.pk] in Hm.
  apply N.eqb_eq in Hm. auto.
Qed.

Lemma category_create_inr db new_id request data out :
  CategoryViewSet.create db new_id request data = inr out ->
  exists attrs,
    snd out
    = Database.mk
        (Database.categories db
         ++ [CategorySerializer.create new_id (Request.user request) attrs])
        (Database.tasks db).
Proof.
  unfold CategoryViewSet.create. intros H.
  apply bind_inr in H. destruct H as [attrs [Hrun H]].
  destruct (existsb _ _) eqn:E; [discriminate|].
  injection H as <-. exists attrs. reflexivity.
Qed.

Lemma category_update_inr db request key data out :
  CategoryViewSet.partial_update db request key data = inr out ->
  exists instance attrs,
    CategoryViewSet.get_object db request key = inr instance
    /\ snd out
       = Database.mk
           (map (fun c => if N.eqb (Category.id c)
                               (Category.id (CategoryViewSet.category instance))
                          then CategorySerializer.update
                                 (CategoryViewSet.category instance) attrs
                          else c)
                (Database.categories db))
           (Database.tasks db).
Proof.
  unfold CategoryViewSet.partial_update. intros H.
  apply bind_inr in H. destruct H as [instance [Hget H]].
  apply bind_inr in H. destruct H as [attrs [Hrun H]].
  injection H as <-. exists instance, attrs. auto.
Qed.

Lemma category_destroy_inr db request key out :
  CategoryViewSet.destroy db request key = inr out ->
  exists instance,
    CategoryViewSet.get_object db request key = inr instance
    /\ snd out
       = Database.mk
           (List.filter
              (fun c => negb (N.eqb (Category.id c)
                                (Category.id (CategoryViewSet.category instance))))
              (Database.categories db))
           (map (fun t =>
                   if bool_decide
                        (Task.category t
                         = Some (Category.id (CategoryViewSet.category instance)))
                   then Task.mk (Task.id t) (Task.title t) (Task.description t)
                          (Task.status t) (Task.priority t) (Task.due_date t)
                          None (Task.user t)
                   else t)
                (Database.tasks db)).
Proof.
  unfold CategoryViewSet.destroy. intros H.
  apply bind_inr in H. destruct H as [instance [Hget H]].
  injection H as <-. exists instance. auto.
Qed.
End WriteShapes.

(** ** Category references stay inside the owner's categories *)
Section ReferenceInvariant.
Import Py Spec Cover.

Lemma write_keeps_refs
    (db : Database.t) (today : date) (request : Request.t) (w : Write) :
  keys_unique db -> refs_owned db ->
  refs_owned (snd (perform db today request w)).
Proof.
  intros [Htk Hck] Hrefs. unfold perform.
  destruct w as [new_id data|key data|key|new_id data|key data|key].
  - destruct (TaskViewSet.create db today new_id request data) as [e|out] eqn:H;
      [exact Hrefs|].
    apply task_create_inr in H. destruct H as [attrs [Hrun [_ Hdb]]].
    cbn [Response.dispatch]. rewrite Hdb. intros t k Hin Hcat.
    cbn [Database.tasks Database.categories] in *.
    apply in_app_or in Hin. destruct Hin as [Hin|[<-|[]]].
    + apply (Hrefs t k Hin Hcat).
    + cbn [TaskSerializer.create Task.category Task.user] in *.
      destruct (option_map (option_map Category.id)
                  (TaskSerializer.Attrs.category attrs)) as [v|] eqn:E;
        cbn [from_option id] in Hcat; [|discriminate]. subst v.
      apply (validated_category _ _ _ _ _ _ _ _ Hrun E).
  - destruct (TaskViewSet.partial_update db today request key data)
      as [e|out] eqn:H; [exact Hrefs|].
    apply task_update_inr in H.
    destruct H as [instance [attrs [Hget [Hrun Hdb]]]].
    destruct (task_get_object_inr _ _ _ _ _ Hget) as [Hinst [_ Hu]].
    cbn [Response.dispatch]. rewrite Hdb. intros t k Hin Hcat.
    cbn [Database.tasks Database.categories] in *.
    apply in_map_iff in Hin. destruct Hin as [t0 [Ht0 Hin0]].
    destruct (N.eqb (Task.id t0) (Task.id instance)); subst t;
      [|apply (Hrefs t0 k Hin0 Hcat)].
    cbn [TaskSerializer.update Task.category Task.user] in *.
    destruct (option_map (option_map Category.id)
                (TaskSerializer.Attrs.category attrs)) as [v|] eqn:E;
      cbn [from_option id] in Hcat.
    + subst v. rewrite Hu.
      apply (validated_category _ _ _ _ _ _ _ _ Hrun E).
    + apply (Hrefs instance k Hinst Hcat).
  - destruct (TaskViewSet.destroy db today request key) as [e|out] eqn:H;
      [exact Hrefs|].
    apply task_destroy_inr in H. destruct H as [instance [_ Hdb]].
    cbn [Response.dispatch]. rewrite Hdb. intros t k Hin Hcat.
    cbn [Database.tasks Database.categories] in *.
    apply filter_In in Hin. destruct Hin as [Hin _].
    apply (Hrefs t k Hin Hcat).
  - destruct (CategoryViewSet.create db new_id request data) as [e|out] eqn:H;
      [exact Hrefs|].
    apply category_create_inr in H. destruct H as [attrs Hdb].
    cbn [Response.dispatch]. rewrite Hdb. intros t k Hin Hcat.
    cbn [Database.tasks Database.categories] in *.
    destruct (Hrefs t k Hin Hcat) as [c [Hc Hck']].
    exists c. split; [apply in_or_app; left; exact Hc | exact Hck'].
  - destruct (CategoryViewSet.partial_update db request key data)
      as [e|out] eqn:H; [exact Hrefs|].
    apply category_update_inr in H. destruct H as [instance [attrs [Hget Hdb]]].
    destruct (category_get_object_inr _ _ _ _ Hget) as [Hinst [_ Hu]].
    cbn [Response.dispatch]. rewrite Hdb. intros t k Hin Hcat.
    cbn [Database.tasks Database.categories] in *.
    destruct (Hrefs t k Hin Hcat) as [c [Hc [Hid Hcu]]].
    destruct (N.eqb (Category.id c)
                (Category.id (CategoryViewSet.category instance))) eqn:E.
    + apply N.eqb_eq in E.
      pose proof (unique_key Category.id _ c _ Hck Hc Hinst E) as Heq.
      exists (CategorySerializer.update (CategoryViewSet.category instance) attrs).
      split; [|split].
      * apply in_map_iff. exists c. rewrite (proj2 (N.eqb_eq _ _) E). auto.
      * cbn [CategorySerializer.update Category.id]. congruence.
      * cbn [CategorySerializer.update Category.user]. congruence.
    + exists c. split; [|auto].
      apply in_map_iff. exists c. rewrite E. auto.
  - destruct (CategoryViewSet.destroy db request key) as [e|out] eqn:H;
      [exact Hrefs|].
    apply category_destroy_inr in H. destruct H as [instance [_ Hdb]].
    cbn [Response.dispatch]. rewrite Hdb. intros t k Hin Hcat.
    cbn [Database.tasks Database.categories] in *.
    apply in_map_iff in Hin. destruct Hin as [t0 [Ht0 Hin0]].
    destruct (bool_decide
                (Task.category t0
                 = Some (Category.id (CategoryViewSet.category instance))))
      eqn:E; subst t; [discriminate Hcat|].
    apply bool_decide_eq_false in E.
    destruct (Hrefs t0 k Hin0 Hcat) as [c [Hc [Hid Hcu]]].
    exists c. split; [|auto].
    apply filter_In. split; [exact Hc|].
    apply negb_true_iff, N.eqb_neq. intros Heq. apply E. congruence.
Qed.

Lemma NoDup_map_filter {A K} (f : A -> K) (p : A -> bool) (l : list A) :
  List.NoDup (map f l) -> List.NoDup (map f (List.filter p l)).
Proof.
  induction l as [|x l IH]; cbn [map List.filter]; [auto|].
  intros H. apply List.NoDup_cons_iff in H. destruct H as [Hx H].
  destruct (p x); [|apply IH; exact H].
  cbn [map]. apply List.NoDup_cons; [|apply IH; exact H].
  intros Hin. apply Hx. apply in_map_iff in Hin.
  destruct Hin as [y [Hy Hin]]. apply filter_In in Hin.
  apply in_map_iff. exists y. tauto.
Qed.

Lemma NoDup_map_snoc {A} (f : A -> N) (l : list A) (x : A) :
  List.NoDup (map f l) ->
  existsb (fun y => N.eqb (f y) (f x)) l = false ->
  List.NoDup (map f (l ++ [x])).
Proof.
  intros Hnd Hfresh. rewrite map_app. cbn [map].
  induction l as [|y l IH]; cbn [map app] in *.
  - apply List.NoDup_cons; [intros [] | apply List.NoDup_nil].
  - apply orb_false_iff in Hfresh. destruct Hfresh as [Hy Hfresh].
    apply List.NoDup_cons_iff in Hnd. destruct Hnd as [Hny Hnd].
    apply List.NoDup_cons; [|apply IH; assumption].
    intros Hin. apply in_app_or in Hin. destruct Hin as [Hin|[Hin|[]]].
    + contradiction.
    + apply N.eqb_neq in Hy. congruence.
Qed.

Lemma map_key_replace {A} (f : A -> N) (key : N) (obj : A) (l : list A) :
  f obj = key ->
  map f (map (fun x => if N.eqb (f x) key then obj else x) l) = map f l.
Proof.
  intros Hobj. rewrite map_map. apply map_ext. intros x.
  destruct (N.eqb (f x) key) eqn:E; [|reflexivity].
  apply N.eqb_eq in E. congruence.
Qed.

Lemma write_keeps_keys
    (db : Database.t) (today : date) (request : Request.t) (w : Write) :
  keys_unique db -> keys_unique (snd (perform db today request w)).
Proof.
  intros [Htk Hck]. unfold perform.
  destruct w as [new_id data|key data|key|new_id data|key data|key].
  - destruct (TaskViewSet.create db today new_id request data) as [e|out] eqn:H;
      [split; assumption|].
    apply task_create_inr in H. destruct H as [attrs [_ [Hfresh Hdb]]].
    cbn [Response.dispatch]. rewrite Hdb. split; [|exact Hck].
    cbn [Database.tasks]. apply NoDup_map_snoc; [exact Htk|exact Hfresh].
  - destruct (TaskViewSet.partial_update db today request key data)
      as [e|out] eqn:H; [split; assumption|].
    apply task_update_inr in H. destruct H as [instance [attrs [_ [_ Hdb]]]].
    cbn [Response.dispatch]. rewrite Hdb. split; [|exact Hck].
    cbn [Database.tasks]. rewrite map_key_replace; [exact Htk | reflexivity].
  - destruct (TaskViewSet.destroy db today request key) as [e|out] eqn:H;
      [split; assumption|].
    apply task_destroy_inr in H. destruct H as [instance [_ Hdb]].
    cbn [Response.dispatch]. rewrite Hdb. split; [|exact Hck].
    cbn [Database.tasks]. apply NoDup_map_filter. exact Htk.
  - unfold CategoryViewSet.create.
    destruct (CategorySerializer.run_validation _ _ _ _ _) as [e|attrs];
      [split; assumption|].
    cbn [bind].
    destruct (existsb _ _) eqn:Hfresh; [split; assumption|].
    cbn [Response.dispatch ret snd]. split; [exact Htk|].
    cbn [Database.categories]. apply NoDup_map_snoc; [exact Hck|exact Hfresh].
  - destruct (CategoryViewSet.partial_update db request key data)
      as [e|out] eqn:H; [split; assumption|].
    apply category_update_inr in H. destruct H as [instance [attrs [_ Hdb]]].
    cbn [Response.dispatch]. rewrite Hdb. split; [exact Htk|].
    cbn [Database.categories]. rewrite map_key_replace; [exact Hck | reflexivity].
  - destruct (CategoryViewSet.destroy db request key) as [e|out] eqn:H;
      [split; assumption|].
    apply category_destroy_inr in H. destruct H as [instance [_ Hdb]].
    cbn [Response.dispatch]. rewrite Hdb. split.
    + cbn [Database.tasks]. rewrite map_map.
      rewrite (map_ext _ Task.id); [exact Htk|].
      intros t. destruct (bool_decide _); reflexivity.
    + cbn [Database.categories]. apply NoDup_map_filter. exact Hck.
Qed.
End ReferenceInvariant.

(** ** Invariants of the two tables, and what a write leaves alone *)
Section TableInvariants.
Import Py Spec Cover.

(** X3.  Unique primary keys, together with the rule that every category
    reference of a task points to a stored category of the task's own
    owner, are kept by every write request (create, partial update or
    delete of a task or of a category, accepted or refused, by any user):
    a task can only be given a category of the requester, an update that
    omits the category keeps a valid one, and deleting a category clears
    every reference to it.  Hence both hold in every database reached
    from the empty one by write requests. *)
Theorem write_invariants :
  (forall db today request w,
      keys_unique db -> refs_owned db ->
      keys_unique (snd (perform db today request w))
      /\ refs_owned (snd (perform db today request w)))
  /\ (forall steps,
         keys_unique (run empty_database steps)
         /\ refs_owned (run empty_database steps)).
Proof.
  assert (Hstep : forall db today request w,
             keys_unique db /\ refs_owned db ->
             keys_unique (snd (perform db today request w))
             /\ refs_owned (snd (perform db today request w))).
  { intros db today request w [Hk Hr].
    split; [apply write_keeps_keys | apply write_keeps_refs]; assumption. }
  split; [intros db today request w Hk Hr; apply Hstep; auto|].
  intros steps. unfold run.
  assert (H0 : keys_unique empty_database /\ refs_owned empty_database).
  { split; [split; apply List.NoDup_nil | intros t k []]. }
  revert H0. generalize empty_database.
  induction steps as [|[[today request] w] steps IH]; intros db H0;
    cbn [fold_left fst snd]; [exact H0|].
  apply IH. apply Hstep. exact H0.
Qed.

Lemma fixture_refs : refs_owned Fixtures.db.
Proof.
  intros t k Hin Hcat. cbn in Hin.
  destruct Hin as [<-|[<-|[<-|[<-|[<-|[]]]]]]; try discriminate Hcat.
  injection Hcat as <-. exists Fixtures.work. cbn. tauto.
Defined.

(** Alice deletes her category Work: her task that pointed to it has no
    category afterwards, and the invariants hold. *)
Lemma write_invariants_witness :
  refs_owned (snd (perform Fixtures.db Fixtures.today Fixtures.as_alice
                     (CategoryDestroy 20%N)))
  /\ map Task.category
       (Database.tasks
          (snd (perform Fixtures.db Fixtures.today Fixtures.as_alice
                  (CategoryDestroy 20%N))))
     = [None; None; None; None; None].
Proof.
  split; [|reflexivity].
  apply (proj1 write_invariants Fixtures.db Fixtures.today Fixtures.as_alice
           (CategoryDestroy 20%N)
           (conj fixture_task_keys fixture_category_keys) fixture_refs).
Defined.
End TableInvariants.

Section WriteFrame.
Import Py Spec Cover.

Lemma filter_map_frame {A} (p : A -> bool) (f : A -> A) (l : list A) :
  (forall x, In x l -> p (f x) = p x /\ (p x = true -> f x = x)) ->
  List.filter p (map f l) = List.filter p l.
Proof.
  induction l as [|x l IH]; [reflexivity|]. intros H.
  cbn [map List.filter].
  destruct (H x (or_introl eq_refl)) as [H1 H2]. rewrite H1.
  rewrite IH by (intros y Hy; apply H; right; exact Hy).
  destruct (p x); [rewrite H2 by reflexivity|]; reflexivity.
Qed.

Lemma filter_filter_frame {A} (p q : A -> bool) (l : list A) :
  (forall x, In x l -> p x = true -> q x = true) ->
  List.filter p (List.filter q l) = List.filter p l.
Proof.
  induction l as [|x l IH]; [reflexivity|]. intros H.
  cbn [List.filter].
  rewrite <- IH by (intros y Hy; apply H; right; exact Hy).
  destruct (q x) eqn:Eq; cbn [List.filter]; [reflexivity|].
  destruct (p x) eqn:Ep; [|reflexivity].
  rewrite (H x (or_introl eq_refl) Ep) in Eq. discriminate.
Qed.

Lemma filter_snoc_out {A} (p : A -> bool) (l : list A) (x : A) :
  p x = false -> List.filter p (l ++ [x]) = List.filter p l.
Proof.
  intros H. rewrite List.filter_app. cbn [List.filter]. rewrite H.
  apply app_nil_r.
Qed.

Lemma write_frames
    (db : Database.t) (today : date) (request : Request.t) (w : Write)
    (other : uuid) :
  keys_unique db -> refs_owned db -> other <> Request.user request ->
  tasks_of other (snd (perform db today request w)) = tasks_of other db
  /\ categories_of other (snd (perform db today request w))
     = categories_of other db.
Proof.
  intros [Htk Hck] Hrefs Hother. unfold perform, tasks_of, categories_of.
  assert (Hne : N.eqb (Request.user request) other = false)
    by (apply N.eqb_neq; congruence).
  destruct w as [new_id data|key data|key|new_id data|key data|key].
  - destruct (TaskViewSet.create db today new_id request data) as [e|out] eqn:H;
      [split; reflexivity|].
    apply task_create_inr in H. destruct H as [attrs [_ [_ Hdb]]].
    cbn [Response.dispatch]. rewrite Hdb. split; [|reflexivity].
    cbn [Database.tasks]. apply filter_snoc_out. exact Hne.
  - destruct (TaskViewSet.partial_update db today request key data)
      as [e|out] eqn:H; [split; reflexivity|].
    apply task_update_inr in H. destruct H as [instance [attrs [Hget [_ Hdb]]]].
    destruct (task_get_object_inr _ _ _ _ _ Hget) as [Hinst [_ Hu]].
    cbn [Response.dispatch]. rewrite Hdb. split; [|reflexivity].
    cbn [Database.tasks]. apply filter_map_frame. intros x Hx.
    destruct (N.eqb (Task.id x) (Task.id instance)) eqn:E; [|auto].
    apply N.eqb_eq in E.
    pose proof (unique_key Task.id _ x instance Htk Hx Hinst E) as ->.
    cbn [TaskSerializer.update Task.user]. split; [reflexivity|].
    rewrite Hu, Hne. discriminate.
  - destruct (TaskViewSet.destroy db today request key) as [e|out] eqn:H;
      [split; reflexivity|].
    apply task_destroy_inr in H. destruct H as [instance [Hget Hdb]].
    destruct (task_get_object_inr _ _ _ _ _ Hget) as [Hinst [_ Hu]].
    cbn [Response.dispatch]. rewrite Hdb. split; [|reflexivity].
    cbn [Database.tasks]. apply filter_filter_frame. intros x Hx Hp.
    apply negb_true_iff, N.eqb_neq. intros E.
    pose proof (unique_key Task.id _ x instance Htk Hx Hinst E) as ->.
    rewrite Hu, Hne in Hp. discriminate.
  - destruct (CategoryViewSet.create db new_id request data) as [e|out] eqn:H;
      [split; reflexivity|].
    apply category_create_inr in H. destruct H as [attrs Hdb].
    cbn [Response.dispatch]. rewrite Hdb. split; [reflexivity|].
    cbn [Database.categories]. apply filter_snoc_out. exact Hne.
  - destruct (CategoryViewSet.partial_update db request key data)
      as [e|out] eqn:H; [split; reflexivity|].
    apply category_update_inr in H. destruct H as [instance [attrs [Hget Hdb]]].
    destruct (category_get_object_inr _ _ _ _ Hget) as [Hinst [_ Hu]].
    cbn [Response.dispatch]. rewrite Hdb. split; [reflexivity|].
    cbn [Database.categories]. apply filter_map_frame. intros x Hx.
    destruct (N.eqb (Category.id x)
                (Category.id (CategoryViewSet.category instance))) eqn:E;
      [|auto].
    apply N.eqb_eq in E.
    pose proof (unique_key Category.id _ x _ Hck Hx Hinst E) as ->.
    cbn [CategorySerializer.update Category.user]. split; [reflexivity|].
    rewrite Hu, Hne. discriminate.
  - destruct (CategoryViewSet.destroy db request key) as [e|out] eqn:H;
      [split; reflexivity|].
    apply category_destroy_inr in H. destruct H as [instance [Hget Hdb]].
    destruct (category_get_object_inr _ _ _ _ Hget) as [Hinst [_ Hu]].
    cbn [Response.dispatch]. rewrite Hdb. split.
    + cbn [Database.tasks]. apply filter_map_frame. intros x Hx.
      destruct (bool_decide _) eqn:E; [|auto].
      cbn [Task.user]. split; [reflexivity|]. intros Hp.
      apply bool_decide_eq_true in E.
      destruct (Hrefs x _ Hx E) as [c [Hc [Hid Hcu]]].
      pose proof (unique_key Category.id _ c _ Hck Hc Hinst Hid) as ->.
      apply N.eqb_eq in Hp. congruence.
    + cbn [Database.categories]. apply filter_filter_frame. intros x Hx Hp.
      apply negb_true_iff, N.eqb_neq. intros E.
      pose proof (unique_key Category.id _ x _ Hck Hx Hinst E) as ->.
      rewrite Hu, Hne in Hp. discriminate.
Qed.

Lemma get_queryset_tasks_of db request :
  TaskViewSet.get_queryset db request = tasks_of (Request.user request) db.
Proof.
  unfold TaskViewSet.get_queryset, tasks_of. rewrite filter_matches.
  apply List.filter_ext. intros t.
  cbn [Orm.matches Orm.compare TaskFilter.user]. apply N.eqb_sym.
Qed.

(** X4.  In a database with unique primary keys and category references
    inside the owner's categories, a write request of one user (create,
    partial update or delete of a task or category, whatever its key and
    body) leaves the tasks and the categories of every other user exactly
    as they were; so the other user's task list before pagination and
    filtering, and the other user's statistics, are the same before and
    after. *)
Theorem other_users_untouched
    (db : Database.t) (today : date) (request : Request.t) (w : Write)
    (observer : Request.t) (now : date) :
  keys_unique db -> refs_owned db ->
  Request.user observer <> Request.user request ->
  let db' := snd (perform db today request w) in
  tasks_of (Request.user observer) db' = tasks_of (Request.user observer) db
  /\ categories_of (Request.user observer) db'
     = categories_of (Request.user observer) db
  /\ TaskViewSet.get_queryset db' observer = TaskViewSet.get_queryset db observer
  /\ fst (Response.dispatch db' (TaskViewSet.stats db' now observer))
     = fst (Response.dispatch db (TaskViewSet.stats db now observer)).
Proof.
  intros Hk Hr Hne db'.
  destruct (write_frames db today request w (Request.user observer) Hk Hr Hne)
    as [Ht Hc].
  fold db' in Ht, Hc.
  assert (Hq : TaskViewSet.get_queryset db' observer
               = TaskViewSet.get_queryset db observer)
    by (rewrite !get_queryset_tasks_of; exact Ht).
  split; [exact Ht|]. split; [exact Hc|]. split; [exact Hq|].
  unfold TaskViewSet.stats. rewrite Hq. reflexivity.
Qed.

(** Bob deletes, patches and creates; Alice's four tasks stay as they are. *)
Lemma other_users_untouched_witness :
  tasks_of Fixtures.alice
    (run Fixtures.db
       [(Fixtures.today, Fixtures.as_bob, TaskDestroy 5%N);
        (Fixtures.today, Fixtures.as_bob, TaskUpdate 1%N (patch_status "done"));
        (Fixtures.today, Fixtures.as_bob, CategoryDestroy 20%N)])
  = [Fixtures.t_todo; Fixtures.t_doing; Fixtures.t_done; Fixtures.t_undated]
  /\ tasks_of Fixtures.alice
       (snd (perform Fixtures.db Fixtures.today Fixtures.as_bob
               (TaskDestroy 5%N)))
     = tasks_of Fixtures.alice Fixtures.db.
Proof.
  split; [reflexivity|].
  apply (other_users_untouched Fixtures.db Fixtures.today Fixtures.as_bob
           (TaskDestroy 5%N) Fixtures.as_alice Fixtures.today
           (conj fixture_task_keys fixture_category_keys) fixture_refs).
  discriminate.
Defined.
End WriteFrame.

(** ** Reading back what was written *)
Section RoundTrips.
Import Py Spec Cover.

Lemma passes_empty today t : passes today TaskFilter.Params.empty t = true.
Proof. reflexivity. Qed.

Lemma filter_queryset_empty today request queryset :
  Request.query_params request = TaskFilter.Params.empty ->
  TaskViewSet.filter_queryset today request queryset = inr queryset.
Proof.
  intros H. unfold TaskViewSet.filter_queryset. rewrite H, qs_closed.
  rewrite (List.filter_ext _ (fun _ => true)) by (intros t; apply passes_empty).
  rewrite filter_all. reflexivity.
Qed.

(** Without query parameters, a stored row of the requester is found under
    its key. *)
Lemma task_get_object_found db today request t :
  List.NoDup (map Task.id (Database.tasks db)) ->
  In t (Database.tasks db) ->
  Task.user t = Request.user request ->
  Request.query_params request = TaskFilter.Params.empty ->
  TaskViewSet.get_object db today request (Task.id t) = inr t.
Proof.
  intros Hnd Hin Hu Hp. unfold TaskViewSet.get_object.
  rewrite (filter_queryset_empty _ _ _ Hp). cbn [bind].
  unfold Orm.get. rewrite filter_matches, get_queryset_tasks_of.
  rewrite (filter_unique Task.id _ _ t).
  - cbn [bind ret]. unfold IsOwner.has_object_permission.
    rewrite Hu, N.eqb_refl. reflexivity.
  - apply NoDup_map_filter. exact Hnd.
  - apply filter_In. split; [exact Hin|]. apply N.eqb_eq. exact Hu.
  - cbn [Orm.matches Orm.compare TaskFilter.pk]. apply N.eqb_refl.
  - intros y _ Hy. cbn [Orm.matches Orm.compare TaskFilter.pk] in Hy.
    apply N.eqb_eq in Hy. congruence.
Qed.

Lemma length_filter_key {A} (f : A -> N) (l : list A) (x : A) :
  List.NoDup (map f l) -> In x l ->
  S (length (List.filter (fun y => negb (N.eqb (f y) (f x))) l)) = length l.
Proof.
  induction l as [|y l IH]; [intros _ []|].
  cbn [map]. intros Hnd Hin. apply List.NoDup_cons_iff in Hnd.
  destruct Hnd as [Hy Hnd]. cbn [List.filter length].
  destruct (N.eqb (f y) (f x)) eqn:E; cbn [negb length].
  - f_equal. apply N.eqb_eq in E.
    assert (Hall : forall z, In z l -> negb (N.eqb (f z) (f x)) = true).
    { intros z Hz. apply negb_true_iff, N.eqb_neq. intros Ez.
      apply Hy. rewrite E, <- Ez. apply in_map. exact Hz. }
    clear - Hall. induction l as [|z l IHl]; [reflexivity|].
    cbn [List.filter]. rewrite (Hall z (or_introl eq_refl)). cbn [length].
    f_equal. apply IHl. intros w Hw. apply Hall. right. exact Hw.
  - f_equal. apply IH; [exact Hnd|].
    destruct Hin as [->|Hin]; [|exact Hin].
    rewrite N.eqb_refl in E. discriminate.
Qed.

Lemma retrieve_found db today request key obj :
  TaskViewSet.get_object db today request key = inr obj ->
  TaskViewSet.retrieve db today request key
  = inr (Response.mk Response.HTTP_200_OK
           (Response.TaskObject (TaskViewSet.render db today obj)), db).
Proof. intros H. unfold TaskViewSet.retrieve. rewrite H. reflexivity. Qed.

Lemma in_replace (key : N) (obj : Task.t) (l : list Task.t) :
  (exists t, In t l /\ Task.id t = key) ->
  In obj (map (fun t => if N.eqb (Task.id t) key then obj else t) l).
Proof.
  intros [t [Hin Hid]]. apply in_map_iff. exists t.
  rewrite Hid, N.eqb_refl. auto.
Qed.

(** X5.  With unique primary keys and a requester who sends no query
    parameters: a task that was created is returned by retrieve under its
    new key, as created and owned by the requester; a task that was
    patched is returned by retrieve as patched; and after a delete,
    retrieve, patch and a second delete of the same key answer 404 for
    every user, while the table has lost exactly one row. *)
Theorem task_round_trips
    (db : Database.t) (today now : date) (request : Request.t) :
  keys_unique db ->
  Request.query_params request = TaskFilter.Params.empty ->
  (forall new_id data out,
      TaskViewSet.create db today new_id request data = inr out ->
      exists obj,
        fst out = Response.mk Response.HTTP_201_CREATED
                    (Response.TaskObject (TaskViewSet.render db today obj))
        /\ Task.id obj = new_id /\ Task.user obj = Request.user request
        /\ TaskViewSet.retrieve (snd out) now request new_id
           = inr (Response.mk Response.HTTP_200_OK
                    (Response.TaskObject (TaskViewSet.render (snd out) now obj)),
                  snd out))
  /\ (forall key data out,
         TaskViewSet.partial_update db today request key data = inr out ->
         exists obj,
           fst out = Response.mk Response.HTTP_200_OK
                       (Response.TaskObject (TaskViewSet.render db today obj))
           /\ TaskViewSet.retrieve (snd out) now request key
              = inr (Response.mk Response.HTTP_200_OK
                       (Response.TaskObject
                          (TaskViewSet.render (snd out) now obj)),
                     snd out))
  /\ (forall key out,
         TaskViewSet.destroy db today request key = inr out ->
         fst out = Response.mk Response.HTTP_204_NO_CONTENT Response.NoContent
         /\ S (length (Database.tasks (snd out))) = length (Database.tasks db)
         /\ forall anyone data,
              Response.dispatch (snd out)
                (TaskViewSet.retrieve (snd out) now anyone key)
              = (not_found, snd out)
              /\ Response.dispatch (snd out)
                   (TaskViewSet.partial_update (snd out) now anyone key data)
                 = (not_found, snd out)
              /\ Response.dispatch (snd out)
                   (TaskViewSet.destroy (snd out) now anyone key)
                 = (not_found, snd out)).
Proof.
  intros Hk Hp. split; [|split].
  - intros new_id data out H.
    pose proof (write_keeps_keys db today request (TaskCreate new_id data) Hk)
      as [Hk' _].
    unfold perform in Hk'. rewrite H in Hk'. cbn [Response.dispatch] in Hk'.
    pose proof H as H'. apply task_create_inr in H'.
    destruct H' as [attrs [Hrun [Hfresh Hdb]]].
    unfold TaskViewSet.create in H. rewrite Hrun, Hfresh in H. cbn [bind] in H.
    injection H as <-. cbn [fst snd] in *.
    exists (TaskViewSet.perform_create new_id request attrs).
    split; [reflexivity|]. split; [reflexivity|]. split; [reflexivity|].
    apply retrieve_found.
    apply (task_get_object_found _ now request
             (TaskViewSet.perform_create new_id request attrs) Hk');
      [|reflexivity|exact Hp].
    cbn [Database.tasks]. apply in_or_app. right. left. reflexivity.
  - intros key data out H.
    pose proof (write_keeps_keys db today request (TaskUpdate key data) Hk)
      as [Hk' _].
    unfold perform in Hk'. rewrite H in Hk'. cbn [Response.dispatch] in Hk'.
    pose proof H as H'. apply task_update_inr in H'.
    destruct H' as [instance [attrs [Hget [Hrun Hdb]]]].
    destruct (task_get_object_inr _ _ _ _ _ Hget) as [Hin [Hid Hu]].
    unfold TaskViewSet.partial_update in H. rewrite Hget in H. cbn [bind] in H.
    rewrite Hrun in H. cbn [bind] in H. injection H as <-. cbn [fst snd] in *.
    exists (TaskSerializer.update instance attrs).
    split; [reflexivity|].
    apply retrieve_found. rewrite <- Hid.
    apply (task_get_object_found _ now request
             (TaskSerializer.update instance attrs) Hk');
      [|exact Hu|exact Hp].
    cbn [Database.tasks].
    apply (in_replace (Task.id instance) (TaskSerializer.update instance attrs)).
    exists instance. auto.
  - intros key out H.
    pose proof H as H'. apply task_destroy_inr in H'.
    destruct H' as [instance [Hget Hdb]].
    destruct (task_get_object_inr _ _ _ _ _ Hget) as [Hin [Hid Hu]].
    unfold TaskViewSet.destroy in H. rewrite Hget in H. cbn [bind] in H.
    injection H as <-. cbn [fst snd] in *.
    split; [reflexivity|]. split.
    + cbn [Database.tasks]. apply length_filter_key; [apply Hk | exact Hin].
    + intros anyone data.
      match goal with
      | |- Response.dispatch ?d _ = _ /\ _ =>
          destruct (task_detail_404 d now anyone key) as [H1 [H2 H3]]
      end.
      { apply task_get_object_404.
        intros t Ht Hidt. cbn [Database.tasks] in Ht.
        apply filter_In in Ht. destruct Ht as [_ Ht].
        apply negb_true_iff, N.eqb_neq in Ht. congruence. }
      split; [exact H1|]. split; [apply H2 | exact H3].
Qed.

(** Alice creates a task and reads it back; she deletes her first task and
    it is gone. *)
Lemma task_round_trips_witness :
  (exists out obj,
      TaskViewSet.create Fixtures.db Fixtures.today 9%N Fixtures.as_alice
        (patch_title " Plan ") = inr out
      /\ TaskViewSet.retrieve (snd out) Fixtures.today Fixtures.as_alice 9%N
         = inr (Response.mk 200
                  (Response.TaskObject
                     (TaskViewSet.render (snd out) Fixtures.today obj)),
                snd out)
      /\ Task.title obj = "Plan")
  /\ (exists out,
        TaskViewSet.destroy Fixtures.db Fixtures.today Fixtures.as_alice 1%N
        = inr out
        /\ Response.dispatch (snd out)
             (TaskViewSet.retrieve (snd out) Fixtures.today Fixtures.as_alice 1%N)
           = (not_found, snd out)).
Proof.
  destruct (task_round_trips Fixtures.db Fixtures.today Fixtures.today
              Fixtures.as_alice
              (conj fixture_task_keys fixture_category_keys) eq_refl)
    as [Hc [_ Hd]].
  split.
  - destruct (Hc 9%N (patch_title " Plan ") _ eq_refl)
      as [obj [H1 [_ [_ H4]]]].
    eexists. exists obj. split; [reflexivity|]. split; [exact H4|].
    cbn in H1. injection H1 as H1. rewrite <- H1. reflexivity.
  - destruct (Hd 1%N _ eq_refl) as [_ [_ H]].
    eexists. split; [reflexivity|].
    apply (H Fixtures.as_alice TaskSerializer.Data.empty).
Defined.
End RoundTrips.

(** ** What a PATCH changes *)
Section PatchFacts.
Import Py Spec Cover.

Ltac split_all_fields :=
  unfold collected_attrs, stored;
  repeat match goal with
         | |- context [match ?r with inl _ => _ | inr _ => _ end] =>
             destruct r as [?|[?|]]
         end;
  reflexivity.

Lemma collected_title categories today request instance partial data :
  TaskSerializer.Attrs.title
    (collected_attrs categories today request instance partial data)
  = match r_title partial data with inr v => v | inl _ => None end.
Proof. split_all_fields. Qed.

Lemma collected_description categories today request instance partial data :
  TaskSerializer.Attrs.description
    (collected_attrs categories today request instance partial data)
  = match r_description data with inr v => v | inl _ => None end.
Proof. split_all_fields. Qed.

Lemma collected_priority categories today request instance partial data :
  TaskSerializer.Attrs.priority
    (collected_attrs categories today request instance partial data)
  = match r_priority data with inr v => v | inl _ => None end.
Proof. split_all_fields. Qed.

Lemma tame_no_error {A} field (r : result A) :
  tame r -> field_errors field r = [] -> exists v, r = inr v.
Proof.
  destruct r as [[[m|d]| | | | | | | | ]|v]; cbn; try contradiction;
    try discriminate.
  intros _ _. exists v. reflexivity.
Qed.

Lemma char_field_inr n req partial data v :
  Drf.char_field n req partial data = inr v -> v = option_map strip data.
Proof.
  unfold Drf.char_field. destruct data as [s|].
  - destruct (negb (truthy (strip s))); [discriminate|].
    destruct (n <? String.length (strip s))%nat; [discriminate|].
    intros [= <-]. reflexivity.
  - destruct (req && negb partial); [discriminate|]. intros [= <-].
    reflexivity.
Qed.

Lemma category_field_keys categories u data v :
  TaskSerializer.category_field categories (Some u) data = inr v ->
  option_map (option_map Category.id) v = data.
Proof.
  destruct v as [[c|]|].
  - intros H. apply category_field_inr in H. destruct H as [_ [_ ->]].
    reflexivity.
  - unfold TaskSerializer.category_field. destruct data as [[key|]|].
    + destruct (Orm.get _ _) as [e|c]; [discriminate|].
      unfold TaskSerializer.validate_category.
      destruct (negb _); discriminate.
    + reflexivity.
    + discriminate.
  - unfold TaskSerializer.category_field. destruct data as [[key|]|].
    + destruct (Orm.get _ _) as [e|c]; [discriminate|].
      unfold TaskSerializer.validate_category.
      destruct (negb _); discriminate.
    + discriminate.
    + reflexivity.
Qed.

(** The validated data of an accepted update, key by key. *)
Lemma validated_update categories today u instance data attrs :
  TaskSerializer.run_validation categories today (Some u) (Some instance) true
    data = inr attrs ->
  TaskSerializer.Attrs.title attrs
  = option_map strip (TaskSerializer.Data.title data)
  /\ TaskSerializer.Attrs.description attrs
     = option_map strip (TaskSerializer.Data.description data)
  /\ TaskSerializer.Attrs.status attrs = TaskSerializer.Data.status data
  /\ TaskSerializer.Attrs.priority attrs = TaskSerializer.Data.priority data
  /\ TaskSerializer.Attrs.due_date attrs = TaskSerializer.Data.due_date data
  /\ option_map (option_map Category.id) (TaskSerializer.Attrs.category attrs)
     = TaskSerializer.Data.category data.
Proof.
  intros H. apply run_validation_inr in H. destruct H as [-> Herr].
  unfold collected_errors in Herr.
  repeat (apply app_eq_nil in Herr;
          let H := fresh "He" in destruct Herr as [H Herr]).
  apply tame_no_error in He; [|apply char_field_tame].
  apply tame_no_error in He1; [|apply choice_field_tame].
  apply tame_no_error in He2; [|apply choice_field_tame].
  apply tame_no_error in Herr; [|apply category_field_tame].
  destruct He as [v1 H1], He1 as [v3 H3], He2 as [v4 H4], Herr as [v6 H6].
  rewrite collected_title, collected_description, collected_status,
    collected_priority, collected_due_date, collected_category.
  rewrite H1, H3, H4, H6.
  unfold r_title, TaskSerializer.title_field in H1.
  apply char_field_inr in H1.
  apply choice_field_inr in H3, H4. destruct H3 as [H3 _], H4 as [H4 _].
  apply category_field_keys in H6.
  unfold r_description, TaskSerializer.description_field, r_due_date.
  rewrite due_date_field_update. cbn [ret]. auto 10.
Qed.
End PatchFacts.

Section PatchTheorem.
Import Py Spec Cover.

Lemma map_replace_same (key : N) (obj : Task.t) (l : list Task.t) :
  List.NoDup (map Task.id l) -> In obj l -> Task.id obj = key ->
  map (fun t => if N.eqb (Task.id t) key then obj else t) l = l.
Proof.
  intros Hnd Hin Hid. rewrite <- (map_id l) at 2. apply map_ext_in.
  intros t Ht. destruct (N.eqb (Task.id t) key) eqn:E; [|reflexivity].
  apply N.eqb_eq in E. symmetry.
  apply (unique_key Task.id l t obj Hnd Ht Hin). congruence.
Qed.

(** X6.  An accepted PATCH of a task answers 200 with the row it stores
    under the same key.  That row has the key and the owner of the old
    one; of the columns title, description, status, priority, due date
    and category, each one whose key the body carries holds the supplied
    value (title and description trimmed) and each other one holds the
    old value; the category table and the rows with another key are left
    alone.  The save sets [updated_at] of the row to the instant of the
    request, whatever the body carries, and leaves [created_at] and the
    [updated_at] of every other row as they were.  So, with unique
    primary keys, a PATCH with an empty body changes [updated_at] of the
    row and nothing else. *)
Theorem patch_changes_supplied
    (db : Database.t) (stamps : TaskTimestamps.t) (today : date) (now : Z)
    (request : Request.t) (key : uuid) (data : TaskSerializer.Data.t)
    (out : Response.t * Database.t * TaskTimestamps.t) :
  TaskTimestamps.partial_update db stamps today now request key data
  = inr out ->
  exists instance obj,
    TaskViewSet.get_object db today request key = inr instance
    /\ fst (fst out)
       = Response.mk Response.HTTP_200_OK
           (Response.TaskObject (TaskViewSet.render db today obj))
    /\ stored_task (snd (fst out)) key = Some obj
    /\ Task.id obj = Task.id instance /\ Task.user obj = Task.user instance
    /\ Task.title obj
       = default (Task.title instance)
                 (option_map strip (TaskSerializer.Data.title data))
    /\ Task.description obj
       = default (Task.description instance)
                 (option_map strip (TaskSerializer.Data.description data))
    /\ Task.status obj
       = default (Task.status instance) (TaskSerializer.Data.status data)
    /\ Task.priority obj
       = default (Task.priority instance) (TaskSerializer.Data.priority data)
    /\ Task.due_date obj
       = default (Task.due_date instance) (TaskSerializer.Data.due_date data)
    /\ Task.category obj
       = default (Task.category instance) (TaskSerializer.Data.category data)
    /\ Database.categories (snd (fst out)) = Database.categories db
    /\ (forall t, In t (Database.tasks db) -> Task.id t <> key ->
                  In t (Database.tasks (snd (fst out))))
    /\ TaskTimestamps.updated_at (snd out) !! key = Some now
    /\ (forall other, other <> key ->
          TaskTimestamps.updated_at (snd out) !! other
          = TaskTimestamps.updated_at stamps !! other)
    /\ TaskTimestamps.created_at (snd out) = TaskTimestamps.created_at stamps
    /\ (keys_unique db -> data = TaskSerializer.Data.empty ->
        snd (fst out) = db).
Proof.
  intros H0. unfold TaskTimestamps.partial_update in H0.
  apply bind_inr in H0. destruct H0 as [o [H Ho]].
  injection Ho as <-. cbn [fst snd].
  pose proof H as H'. apply task_update_inr in H'.
  destruct H' as [instance [attrs [Hget [Hrun Hdb]]]].
  destruct (task_get_object_inr _ _ _ _ _ Hget) as [Hin [Hid Hu]].
  unfold TaskViewSet.partial_update in H. rewrite Hget in H. cbn [bind] in H.
  rewrite Hrun in H. cbn [bind] in H. injection H as <-. cbn [fst snd] in *.
  destruct (validated_update _ _ _ _ _ _ Hrun)
    as [Ht [Hd [Hs [Hp [Hdue Hcat]]]]].
  exists instance, (TaskSerializer.update instance attrs).
  split; [exact Hget|]. split; [reflexivity|]. split.
  { apply (find_replace key (TaskSerializer.update instance attrs)
             (Database.tasks db)); [exact Hid | exists instance; auto]. }
  unfold TaskSerializer.update at 2 3 4 5 6 7 8 9.
  cbn [Task.id Task.user Task.title Task.description Task.status Task.priority
       Task.due_date Task.category].
  rewrite Ht, Hd, Hs, Hp, Hdue, Hcat.
  repeat (split; [reflexivity|]).
  split.
  { intros t Htin Hne. apply in_map_iff. exists t. split; [|exact Htin].
    destruct (N.eqb (Task.id t) (Task.id instance)) eqn:E; [|reflexivity].
    apply N.eqb_eq in E. congruence. }
  cbn [TaskTimestamps.updated_at TaskTimestamps.created_at].
  split; [first [apply lookup_insert_eq | apply lookup_insert]|].
  split; [intros other Ho; apply lookup_insert_ne; congruence|].
  split; [reflexivity|].
  intros [Htk _] ->.
  assert (Hsame : TaskSerializer.update instance attrs = instance).
  { cbn [TaskSerializer.Data.title TaskSerializer.Data.description
         TaskSerializer.Data.status TaskSerializer.Data.priority
         TaskSerializer.Data.due_date TaskSerializer.Data.category
         TaskSerializer.Data.empty option_map] in *.
    unfold TaskSerializer.update. rewrite Ht, Hd, Hs, Hp, Hdue, Hcat.
    destruct instance. reflexivity. }
  rewrite Hsame, (map_replace_same (Task.id instance) instance _ Htk Hin eq_refl).
  destruct db. reflexivity.
Qed.

(** Alice renames her task in progress at instant 900: the title changes
    and the row is stamped, the rest is as it was.  An empty PATCH at
    instant 901 stamps the row and changes no column. *)
Lemma patch_changes_supplied_witness :
  (exists out obj,
      TaskTimestamps.partial_update Fixtures.db Fixtures.stamps Fixtures.today
        900 Fixtures.as_alice 2%N (patch_title "  Review twice ") = inr out
      /\ stored_task (snd (fst out)) 2%N = Some obj
      /\ Task.title obj = "Review twice"
      /\ Task.status obj = "in_progress"
      /\ Task.category obj = Some 20%N
      /\ TaskTimestamps.updated_at (snd out) !! 2%N = Some 900
      /\ TaskTimestamps.updated_at (snd out) !! 1%N = Some 100)
  /\ (exists out,
        TaskTimestamps.partial_update Fixtures.db Fixtures.stamps
          Fixtures.today 901 Fixtures.as_alice 2%N TaskSerializer.Data.empty
        = inr out
        /\ snd (fst out) = Fixtures.db
        /\ TaskTimestamps.updated_at (snd out) !! 2%N = Some 901
        /\ TaskTimestamps.updated_at Fixtures.stamps !! 2%N = Some 250).
Proof.
  split.
  - destruct (patch_changes_supplied Fixtures.db Fixtures.stamps Fixtures.today
                900 Fixtures.as_alice 2%N (patch_title "  Review twice ")
                _ eq_refl)
      as [instance [obj [Hget [_ [Hst [_ [_ [Ht [_ [Hs [_ [_ [Hc [_ [_ [Hnow [Hothers _]]]]]]]]]]]]]]]]].
    injection Hget as <-.
    eexists. exists obj. split; [reflexivity|]. split; [exact Hst|].
    split; [exact Ht|]. split; [exact Hs|]. split; [exact Hc|].
    split; [exact Hnow|].
    rewrite (Hothers 1%N) by discriminate. reflexivity.
  - destruct (patch_changes_supplied Fixtures.db Fixtures.stamps Fixtures.today
                901 Fixtures.as_alice 2%N TaskSerializer.Data.empty
                _ eq_refl)
      as [instance [obj [_ [_ [_ [_ [_ [_ [_ [_ [_ [_ [_ [_ [_ [Hnow [_ [_ Hempty]]]]]]]]]]]]]]]]]].
    eexists. split; [reflexivity|].
    split; [apply Hempty;
            [exact (conj fixture_task_keys fixture_category_keys)
            | reflexivity]|].
    split; [exact Hnow | reflexivity].
Defined.
End PatchTheorem.

(** ** Assigning a category *)
Section CategoryAssignment.
Import Py Spec Cover.

Lemma category_rejected categories today u instance partial data m :
  r_category categories (Some u) data = inl (ValidationError (Message m)) ->
  exists errors,
    TaskSerializer.run_validation categories today (Some u) instance partial data
    = inl (ValidationError (FieldErrors errors))
    /\ In ("category", m) errors.
Proof.
  intros H. unfold TaskSerializer.run_validation.
  rewrite to_internal_value_unfold.
  assert (Hin : In ("category", m)
                  (collected_errors categories today (Some u) instance partial
                     data)).
  { unfold collected_errors. rewrite !in_app_iff. do 5 right.
    rewrite H. left. reflexivity. }
  destruct (collected_errors _ _ _ _ _ _) as [|e errs]; [destruct Hin|].
  exists (e :: errs). split; [reflexivity | exact Hin].
Qed.

Lemma category_get_found categories c :
  List.NoDup (map Category.id categories) -> In c categories ->
  Orm.get (CategorySerializer.pk (Category.id c)) categories = inr c.
Proof.
  intros Hnd Hin. unfold Orm.get. rewrite filter_matches.
  rewrite (filter_unique Category.id _ _ c Hnd Hin); [reflexivity| |].
  - cbn [Orm.matches Orm.compare CategorySerializer.pk]. apply N.eqb_refl.
  - intros y _ Hy. cbn [Orm.matches Orm.compare CategorySerializer.pk] in Hy.
    apply N.eqb_eq in Hy. congruence.
Qed.

Lemma category_field_missing categories u k :
  (forall c, In c categories -> Category.id c <> k) ->
  exists m,
    TaskSerializer.category_field categories (Some u) (Some (Some k))
    = inl (ValidationError (Message m)).
Proof.
  intros H. unfold TaskSerializer.category_field.
  rewrite get_DoesNotExist; [eexists; reflexivity|].
  intros c Hc. cbn [Orm.matches Orm.compare CategorySerializer.pk].
  apply N.eqb_neq. intros E. apply (H c Hc). congruence.
Qed.

Lemma category_field_foreign categories u c :
  List.NoDup (map Category.id categories) -> In c categories ->
  Category.user c <> u ->
  TaskSerializer.category_field categories (Some u)
    (Some (Some (Category.id c)))
  = inl (ValidationError (Message foreign_category_message)).
Proof.
  intros Hnd Hin Hu. unfold TaskSerializer.category_field.
  rewrite (category_get_found _ _ Hnd Hin).
  unfold TaskSerializer.validate_category.
  apply N.eqb_neq in Hu. rewrite Hu. reflexivity.
Qed.

Lemma category_field_own categories u c :
  List.NoDup (map Category.id categories) -> In c categories ->
  Category.user c = u ->
  TaskSerializer.category_field categories (Some u)
    (Some (Some (Category.id c)))
  = inr (Some (Some c)).
Proof.
  intros Hnd Hin Hu. unfold TaskSerializer.category_field.
  rewrite (category_get_found _ _ Hnd Hin).
  unfold TaskSerializer.validate_category.
  rewrite Hu, N.eqb_refl. reflexivity.
Qed.

(** X7.  With unique category keys, a task body that names a category is
    refused with 400, an error under [category] and nothing written, when
    no category has that key and when the category belongs to another
    user (then with the message of [validate_category]); this holds for
    creation and for a PATCH of a task the requester can reach.  A
    category of the requester passes the field, and a null category
    always does. *)
Theorem task_category_assignment
    (db : Database.t) (today : date) (request : Request.t)
    (data : TaskSerializer.Data.t) (k : uuid) :
  List.NoDup (map Category.id (Database.categories db)) ->
  TaskSerializer.Data.category data = Some (Some k) ->
  let refused (w : Write) (m : string) :=
    exists errors,
      perform db today request w
      = (Response.mk Response.HTTP_400_BAD_REQUEST (Response.Errors errors), db)
      /\ In ("category", m) errors in
  ((forall c, In c (Database.categories db) -> Category.id c <> k) ->
   exists m,
     (forall new_id, refused (TaskCreate new_id data) m)
     /\ (forall key instance,
            TaskViewSet.get_object db today request key = inr instance ->
            refused (TaskUpdate key data) m))
  /\ (forall c,
         In c (Database.categories db) -> Category.id c = k ->
         Category.user c <> Request.user request ->
         (forall new_id,
             refused (TaskCreate new_id data) foreign_category_message)
         /\ (forall key instance,
                TaskViewSet.get_object db today request key = inr instance ->
                refused (TaskUpdate key data) foreign_category_message))
  /\ (forall c,
         In c (Database.categories db) -> Category.id c = k ->
         Category.user c = Request.user request ->
         TaskSerializer.category_field (Database.categories db)
           (Some (Request.user request)) (TaskSerializer.Data.category data)
         = inr (Some (Some c)))
  /\ TaskSerializer.category_field (Database.categories db)
       (Some (Request.user request)) (Some None)
     = inr (Some None).
Proof.
  intros Hnd Hk refused.
  assert (Hcore : forall m,
             TaskSerializer.category_field (Database.categories db)
               (Some (Request.user request)) (Some (Some k))
             = inl (ValidationError (Message m)) ->
             (forall new_id, refused (TaskCreate new_id data) m)
             /\ (forall key instance,
                    TaskViewSet.get_object db today request key = inr instance ->
                    refused (TaskUpdate key data) m)).
  { intros m Hm. split.
    - intros new_id. unfold refused, perform, TaskViewSet.create.
      destruct (category_rejected (Database.categories db) today
                  (Request.user request) None false data m) as [errs [Hr Hin]].
      { unfold r_category. rewrite Hk. exact Hm. }
      rewrite Hr. exists errs. split; [reflexivity | exact Hin].
    - intros key instance Hget.
      unfold refused, perform, TaskViewSet.partial_update. rewrite Hget.
      cbn [bind].
      destruct (category_rejected (Database.categories db) today
                  (Request.user request) (Some instance) true data m)
        as [errs [Hr Hin]].
      { unfold r_category. rewrite Hk. exact Hm. }
      rewrite Hr. exists errs. split; [reflexivity | exact Hin]. }
  split; [|split; [|split]].
  - intros Hmissing.
    destruct (category_field_missing (Database.categories db)
                (Request.user request) k Hmissing) as [m Hm].
    exists m. apply Hcore. exact Hm.
  - intros c Hin Hid Hu. apply Hcore. rewrite <- Hid.
    apply category_field_foreign; assumption.
  - intros c Hin Hid Hu. rewrite Hk, <- Hid.
    apply category_field_own; assumption.
  - reflexivity.
Qed.

(** Alice tries to file a new task under Bob's category. *)
Lemma task_category_assignment_witness :
  exists errors,
    perform Fixtures.db Fixtures.today Fixtures.as_alice
      (TaskCreate 9%N
         (TaskSerializer.Data.mk (Some "T") None None None None
            (Some (Some 21%N))))
    = (Response.mk 400 (Response.Errors errors), Fixtures.db)
    /\ In ("category", foreign_category_message) errors.
Proof.
  destruct (task_category_assignment Fixtures.db Fixtures.today
              Fixtures.as_alice
              (TaskSerializer.Data.mk (Some "T") None None None None
                 (Some (Some 21%N))) 21%N fixture_category_keys eq_refl)
    as [_ [H _]].
  destruct (H Fixtures.bobs_work ltac:(cbn; tauto) eq_refl ltac:(discriminate))
    as [Hc _].
  apply Hc.
Defined.
End CategoryAssignment.

(** ** Every status can be reached *)
Section StatusReachability.
Import Py Spec Cover.

Lemma patch_status_step db today request key instance (c r : Task.Status.t) :
  keys_unique db ->
  Request.query_params request = TaskFilter.Params.empty ->
  TaskViewSet.get_object db today request key = inr instance ->
  Task.status instance = Task.Status.value c ->
  transition_allowed c r = true ->
  exists out obj,
    TaskViewSet.partial_update db today request key
      (patch_status (Task.Status.value r)) = inr out
    /\ keys_unique (snd out)
    /\ TaskViewSet.get_object (snd out) today request key = inr obj
    /\ Task.status obj = Task.Status.value r
    /\ stored_status (snd out) key = Some (Task.Status.value r).
Proof.
  intros Hk Hp Hget Hc Hallowed.
  destruct (task_get_object_inr _ _ _ _ _ Hget) as [Hin [Hid Hu]].
  pose proof (write_keeps_keys db today request
                (TaskUpdate key (patch_status (Task.Status.value r))) Hk) as Hk'.
  unfold perform in Hk'.
  assert (Hrun : exists attrs,
             TaskSerializer.run_validation (Database.categories db) today
               (Some (Request.user request)) (Some instance) true
               (patch_status (Task.Status.value r)) = inr attrs
             /\ TaskSerializer.Attrs.status attrs = Some (Task.Status.value r)).
  { unfold TaskSerializer.run_validation. rewrite to_internal_value_unfold.
    set (attrs := collected_attrs _ _ _ _ _ _).
    assert (Hst : TaskSerializer.Attrs.status attrs
                  = Some (Task.Status.value r)).
    { subst attrs. rewrite collected_status.
      rewrite (r_status_member (patch_status (Task.Status.value r)) r eq_refl).
      reflexivity. }
    clearbody attrs.
    assert (He : collected_errors (Database.categories db) today
                   (Some (Request.user request)) (Some instance) true
                   (patch_status (Task.Status.value r)) = []).
    { unfold collected_errors.
      rewrite (r_status_member (patch_status (Task.Status.value r)) r eq_refl).
      reflexivity. }
    rewrite He.
    change (Drf.finish (attrs, [])) with (@inr Exc _ attrs). cbn [bind].
    rewrite (validate_transition c r instance attrs Hc Hst), Hallowed.
    exists attrs. split; [reflexivity | exact Hst]. }
  destruct Hrun as [attrs [Hrun Hst]].
  assert (Hupd : TaskViewSet.partial_update db today request key
                   (patch_status (Task.Status.value r))
                 = inr (Response.mk Response.HTTP_200_OK
                          (Response.TaskObject
                             (TaskViewSet.render db today
                                (TaskSerializer.update instance attrs))),
                        Database.mk (Database.categories db)
                          (map (fun t =>
                                  if N.eqb (Task.id t)
                                       (Task.id (TaskSerializer.update instance attrs))
                                  then TaskSerializer.update instance attrs
                                  else t)
                               (Database.tasks db)))).
  { unfold TaskViewSet.partial_update. rewrite Hget. cbn [bind].
    rewrite Hrun. reflexivity. }
  rewrite Hupd in Hk'. cbn [Response.dispatch snd] in Hk'.
  assert (Hobj : Task.status (TaskSerializer.update instance attrs)
                 = Task.Status.value r).
  { unfold TaskSerializer.update. cbn [Task.status]. rewrite Hst. reflexivity. }
  assert (Hin' : In (TaskSerializer.update instance attrs)
                    (map (fun t =>
                            if N.eqb (Task.id t)
                                 (Task.id (TaskSerializer.update instance attrs))
                            then TaskSerializer.update instance attrs
                            else t)
                         (Database.tasks db))).
  { apply (in_replace (Task.id instance)). exists instance. auto. }
  eexists. exists (TaskSerializer.update instance attrs).
  split; [exact Hupd|]. cbn [snd].
  split; [exact Hk'|]. split; [|split; [exact Hobj|]].
  - rewrite <- Hid.
    apply (task_get_object_found _ today request
             (TaskSerializer.update instance attrs) (proj1 Hk') Hin' Hu Hp).
  - assert (Hfind : stored_task
                      (Database.mk (Database.categories db)
                         (map (fun t =>
                                 if N.eqb (Task.id t)
                                      (Task.id (TaskSerializer.update instance attrs))
                                 then TaskSerializer.update instance attrs
                                 else t)
                              (Database.tasks db))) key
                    = Some (TaskSerializer.update instance attrs)).
    { unfold stored_task. cbn [Database.tasks].
      apply find_replace; [exact Hid | exists instance; auto]. }
    unfold stored_status. rewrite Hfind. cbn [option_map]. rewrite Hobj.
    reflexivity.
Qed.

Lemma via_allowed (c r : Task.Status.t) :
  transition_allowed c (via c r) = true
  /\ transition_allowed (via c r) r = true.
Proof. destruct c, r; split; reflexivity. Qed.

(** X8.  With unique primary keys and no query parameters, a task the
    requester can reach is brought from any status to any status by at
    most two accepted PATCH requests that carry only a status: one to an
    intermediate status (the current one again when a single step is
    allowed, in_progress on the way from todo to done, todo on the way
    from done to in_progress) and one to the requested status, after
    which the stored status is the requested one. *)
Theorem status_reachable
    (db : Database.t) (today : date) (request : Request.t) (key : uuid)
    (instance : Task.t) (c r : Task.Status.t) :
  keys_unique db ->
  Request.query_params request = TaskFilter.Params.empty ->
  TaskViewSet.get_object db today request key = inr instance ->
  Task.status instance = Task.Status.value c ->
  exists out1 out2,
    TaskViewSet.partial_update db today request key
      (patch_status (Task.Status.value (via c r))) = inr out1
    /\ TaskViewSet.partial_update (snd out1) today request key
         (patch_status (Task.Status.value r)) = inr out2
    /\ stored_status (snd out2) key = Some (Task.Status.value r).
Proof.
  intros Hk Hp Hget Hc. destruct (via_allowed c r) as [H1 H2].
  destruct (patch_status_step db today request key instance c (via c r)
              Hk Hp Hget Hc H1) as [out1 [obj1 [Hu1 [Hk1 [Hg1 [Hs1 _]]]]]].
  destruct (patch_status_step (snd out1) today request key obj1 (via c r) r
              Hk1 Hp Hg1 Hs1 H2) as [out2 [obj2 [Hu2 [_ [_ [_ Hst]]]]]].
  exists out1, out2. auto.
Qed.

(** Alice's task 1 is todo; two PATCH requests make it done. *)
Lemma status_reachable_witness :
  exists out1 out2,
    TaskViewSet.partial_update Fixtures.db Fixtures.today Fixtures.as_alice 1%N
      (patch_status "in_progress") = inr out1
    /\ TaskViewSet.partial_update (snd out1) Fixtures.today Fixtures.as_alice
         1%N (patch_status "done") = inr out2
    /\ stored_status (snd out2) 1%N = Some "done".
Proof.
  exact (status_reachable Fixtures.db Fixtures.today Fixtures.as_alice 1%N
           Fixtures.t_todo Task.Status.TODO Task.Status.DONE
           (conj fixture_task_keys fixture_category_keys) eq_refl eq_refl
           eq_refl).
Defined.
End StatusReachability.

(** ** Deleting a category *)
Section CategoryDeletion.
Import Py Spec Cover.

Lemma category_view_found db request c :
  List.NoDup (map Category.id (Database.categories db)) ->
  In c (Database.categories db) ->
  Category.user c = Request.user request ->
  CategoryViewSet.get_object db request (Category.id c)
  = inr (CategoryViewSet.annotate (Database.tasks db) c).
Proof.
  intros Hnd Hin Hu. unfold CategoryViewSet.get_object, Orm.get.
  rewrite filter_matches.
  rewrite (filter_unique (fun r => Category.id (CategoryViewSet.category r))
             _ _ (CategoryViewSet.annotate (Database.tasks db) c)).
  - cbn [bind ret]. unfold IsOwner.has_object_permission.
    cbn [CategoryViewSet.annotate CategoryViewSet.category].
    rewrite Hu, N.eqb_refl. reflexivity.
  - unfold CategoryViewSet.get_queryset. rewrite map_map.
    cbn [CategoryViewSet.annotate CategoryViewSet.category].
    apply NoDup_map_filter. exact Hnd.
  - unfold CategoryViewSet.get_queryset. apply in_map.
    rewrite filter_matches. apply filter_In. split; [exact Hin|].
    cbn [Orm.matches Orm.compare CategorySerializer.user].
    rewrite Hu. apply N.eqb_refl.
  - cbn [Orm.matches Orm.compare CategoryViewSet.pk
         CategoryViewSet.annotate CategoryViewSet.category].
    apply N.eqb_refl.
  - intros y _ Hy.
    cbn [Orm.matches Orm.compare CategoryViewSet.pk
         CategoryViewSet.annotate CategoryViewSet.category] in *.
    apply N.eqb_eq in Hy. congruence.
Qed.

(** X9.  With unique category keys, DELETE on a category of the requester
    answers 204; afterwards exactly the categories with another key are
    stored, no task has been deleted or reordered, every task that did
    not refer to the category is stored unchanged, every task that did is
    stored with its reference cleared and all other columns kept, no
    stored task refers to the deleted key, and the category's detail
    route answers 404 to every user. *)
Theorem category_destroy_set_null
    (db : Database.t) (request : Request.t) (c : Category.t) :
  List.NoDup (map Category.id (Database.categories db)) ->
  In c (Database.categories db) ->
  Category.user c = Request.user request ->
  exists out,
    CategoryViewSet.destroy db request (Category.id c) = inr out
    /\ Response.status_code (fst out) = Response.HTTP_204_NO_CONTENT
    /\ (forall c', In c' (Database.categories (snd out))
                   <-> In c' (Database.categories db)
                       /\ Category.id c' <> Category.id c)
    /\ map Task.id (Database.tasks (snd out)) = map Task.id (Database.tasks db)
    /\ (forall t, In t (Database.tasks db) ->
                  Task.category t <> Some (Category.id c) ->
                  In t (Database.tasks (snd out)))
    /\ (forall t, In t (Database.tasks db) ->
                  Task.category t = Some (Category.id c) ->
                  In (uncategorised t) (Database.tasks (snd out)))
    /\ (forall t, In t (Database.tasks (snd out)) ->
                  Task.category t <> Some (Category.id c))
    /\ (forall anyone,
          Response.dispatch (snd out)
            (CategoryViewSet.retrieve (snd out) anyone (Category.id c))
          = (Response.mk Response.HTTP_404_NOT_FOUND
               (Response.Detail "Not found."), snd out)).
Proof.
  intros Hnd Hin Hu. unfold CategoryViewSet.destroy.
  rewrite (category_view_found db request c Hnd Hin Hu).
  cbn [bind ret CategoryViewSet.annotate CategoryViewSet.category].
  eexists. split; [reflexivity|]. cbn [fst snd Database.categories Database.tasks].
  split; [reflexivity|].
  split; [|split; [|split; [|split; [|split]]]].
  - intros c'. rewrite filter_In, negb_true_iff, N.eqb_neq. tauto.
  - rewrite map_map. apply map_ext. intros t.
    destruct (bool_decide _); reflexivity.
  - intros t Ht Hc. apply in_map_iff. exists t. split; [|exact Ht].
    rewrite bool_decide_eq_false_2 by exact Hc. reflexivity.
  - intros t Ht Hc. apply in_map_iff. exists t. split; [|exact Ht].
    rewrite bool_decide_eq_true_2 by exact Hc. reflexivity.
  - intros t' Ht'. apply in_map_iff in Ht'. destruct Ht' as [t [<- _]].
    destruct (bool_decide (Task.category t = Some (Category.id c))) eqn:E.
    + cbn [Task.category]. discriminate.
    + apply bool_decide_eq_false_1 in E. exact E.
  - intros anyone. apply category_detail_404.
    apply category_get_object_404. cbn [Database.categories].
    intros c' Hc' Hid. apply filter_In in Hc'. destruct Hc' as [_ Hc'].
    rewrite negb_true_iff, N.eqb_neq in Hc'. contradiction.
Qed.

(** Alice deletes her category Work (key 20): task 2, which was filed
    under it, is stored without a category. *)
Lemma category_destroy_set_null_witness :
  exists out,
    CategoryViewSet.destroy Fixtures.db Fixtures.as_alice 20%N = inr out
    /\ In (uncategorised Fixtures.t_doing) (Database.tasks (snd out))
    /\ map Task.id (Database.tasks (snd out)) = [1; 2; 3; 4; 5]%N.
Proof.
  destruct (category_destroy_set_null Fixtures.db Fixtures.as_alice
              Fixtures.work fixture_category_keys (or_introl eq_refl) eq_refl)
    as [out [H [_ [_ [Hids [_ [Hcleared _]]]]]]].
  exists out. split; [exact H|]. split; [|exact Hids].
  apply Hcleared; [|reflexivity]. right. left. reflexivity.
Defined.
End CategoryDeletion.

(** ** The stored text columns *)
Section ColumnFacts.
Import Py Spec Cover.

Lemma rstrip_rstrip s : rstrip (rstrip s) = rstrip s.
Proof.
  induction s as [|c s IH]; [reflexivity|]. cbn [rstrip].
  destruct (rstrip s) as [|c' r] eqn:E.
  - destruct (isspace c) eqn:Ec; [reflexivity|].
    cbn [rstrip]. rewrite Ec. reflexivity.
  - cbn [rstrip]. cbn [rstrip] in IH.
    destruct (rstrip r) as [|c'' r'] eqn:Er.
    + destruct (isspace c'); [discriminate IH|]. rewrite IH. reflexivity.
    + rewrite IH. reflexivity.
Qed.

Lemma lstrip_fixed s :
  (forall c t, s = String c t -> isspace c = false) -> lstrip s = s.
Proof.
  destruct s as [|c t]; [reflexivity|]. intros H. cbn [lstrip].
  rewrite (H c t eq_refl). reflexivity.
Qed.

Lemma strip_strip s : strip (strip s) = strip s.
Proof.
  unfold strip at 1. rewrite (lstrip_fixed (strip s)).
  - unfold strip. apply rstrip_rstrip.
  - intros c t H. apply (strip_head s c t H).
Qed.

Lemma char_field_valid n req partial data v :
  Drf.char_field n req partial data = inr (Some v) ->
  v <> EmptyString /\ (String.length v <= n)%nat /\ trimmed v.
Proof.
  unfold Drf.char_field. destruct data as [s|].
  - destruct (truthy (strip s)) eqn:Et; [|discriminate]. cbn [negb].
    destruct (n <? String.length (strip s))%nat eqn:El; [discriminate|].
    intros [= <-]. apply truthy_true in Et. apply Nat.ltb_ge in El.
    split; [exact Et|]. split; [exact El | apply strip_strip].
  - destruct (req && negb partial); discriminate.
Qed.

Lemma char_field_required n data v :
  Drf.char_field n true false data = inr v -> v <> None.
Proof.
  unfold Drf.char_field. destruct data as [s|]; [|discriminate].
  destruct (negb _); [discriminate|].
  destruct (_ <? _)%nat; [discriminate|]. intros [= <-]. discriminate.
Qed.

(** The pattern of [validate_colour] behind the colour field: the final
    newline the end anchor tolerates never gets through. *)
Lemma colour_checked v :
  (String.length v <= 7)%nat ->
  CategorySerializer.colour_re_match v = hex_colour v.
Proof.
  destruct v as [|h [|a [|b [|c [|d [|e [|f [|g rest]]]]]]]];
    cbn [String.length]; intros Hlen; try lia; try reflexivity;
    try (unfold CategorySerializer.colour_re_match, hex_colour;
         destruct (Ascii.eqb h "#"); reflexivity).
  unfold CategorySerializer.colour_re_match, hex_colour.
  cbn [String.length list_ascii_of_string Nat.eqb String.eqb orb].
  rewrite !andb_true_r. reflexivity.
Qed.

Lemma colour_field_inr partial data r :
  CategorySerializer.colour_field partial data = inr r <->
  r = option_map strip data
  /\ forall s, data = Some s -> hex_colour (strip s) = true.
Proof.
  unfold CategorySerializer.colour_field, Drf.char_field.
  destruct data as [s|]; cbn [option_map andb bind ret].
  - destruct (truthy (strip s)) eqn:Et; cbn [negb].
    + destruct (7 <? String.length (strip s))%nat eqn:El; cbn [bind].
      * split; [discriminate|]. intros [_ H]. specialize (H s eq_refl).
        apply Nat.ltb_lt in El. exfalso.
        destruct (strip s) as [|h digits]; [discriminate H|].
        cbn [hex_colour] in H. apply andb_true_iff in H. destruct H as [H _].
        apply andb_true_iff in H. destruct H as [_ H].
        apply Nat.eqb_eq in H. cbn [String.length] in El. lia.
      * apply Nat.ltb_ge in El. cbn [bind ret].
        unfold CategorySerializer.validate_colour.
        rewrite (colour_checked _ El).
        destruct (hex_colour (strip s)) eqn:Eh; cbn [negb bind ret raise].
        -- split; [intros [= <-]; split; [reflexivity|]|intros [-> _]; reflexivity].
           intros s' [= <-]. exact Eh.
        -- split; [discriminate|]. intros [_ H]. specialize (H s eq_refl).
           congruence.
    + cbn [bind raise]. split; [discriminate|]. intros [_ H].
      specialize (H s eq_refl). destruct (strip s); discriminate.
  - split; [intros [= <-]; split; [reflexivity | discriminate]
           | intros [-> _]; reflexivity].
Qed.

Lemma name_field_valid objects request instance partial data v :
  CategorySerializer.name_field objects request instance partial data
  = inr (Some v) ->
  v <> EmptyString /\ (String.length v <= 100)%nat /\ trimmed v.
Proof.
  unfold CategorySerializer.name_field. intros H.
  apply bind_inr in H. destruct H as [[s|] [Hc H]]; [|discriminate].
  apply bind_inr in H. destruct H as [s' [Hv H]]. injection H as <-.
  assert (s' = s) as ->.
  { unfold CategorySerializer.validate_name in Hv.
    destruct request as [u|]; [|injection Hv as <-; reflexivity].
    destruct (Orm.exists_ _); [discriminate|]. injection Hv as <-.
    reflexivity. }
  apply (char_field_valid _ _ _ _ _ Hc).
Qed.

Lemma name_field_required objects request instance data v :
  CategorySerializer.name_field objects request instance false data = inr v ->
  v <> None.
Proof.
  unfold CategorySerializer.name_field. intros H.
  apply bind_inr in H. destruct H as [[s|] [Hc H]].
  - apply bind_inr in H. destruct H as [s' [_ H]]. injection H as <-.
    discriminate.
  - apply char_field_required in Hc. contradiction.
Qed.

Lemma category_validated objects request instance partial data attrs :
  CategorySerializer.run_validation objects request instance partial data
  = inr attrs ->
  CategorySerializer.name_field objects request instance partial
    (CategorySerializer.Data.name data)
  = inr (CategorySerializer.Attrs.name attrs)
  /\ CategorySerializer.colour_field partial
       (CategorySerializer.Data.colour data)
     = inr (CategorySerializer.Attrs.colour attrs).
Proof.
  unfold CategorySerializer.run_validation.
  destruct (CategorySerializer.name_field _ _ _ _ _)
    as [[[m|d]| | | | | | | | ]|[n|]];
    cbn [Drf.collect bind ret raise fst snd]; try discriminate;
    destruct (CategorySerializer.colour_field _ _)
      as [[[m'|d']| | | | | | | | ]|[c|]];
    cbn [Drf.collect bind ret raise fst snd Drf.finish app]; try discriminate;
    intros [= <-]; split; reflexivity.
Qed.

Lemma category_columns objects request instance partial data attrs :
  CategorySerializer.run_validation objects request instance partial data
  = inr attrs ->
  (forall v, CategorySerializer.Attrs.name attrs = Some v ->
             v <> EmptyString /\ (String.length v <= 100)%nat /\ trimmed v)
  /\ (partial = false -> CategorySerializer.Attrs.name attrs <> None)
  /\ (forall v, CategorySerializer.Attrs.colour attrs = Some v ->
                hex_colour v = true).
Proof.
  intros H. apply category_validated in H. destruct H as [Hn Hc].
  split; [|split].
  - intros v Hv. rewrite Hv in Hn. apply (name_field_valid _ _ _ _ _ _ Hn).
  - intros ->. apply (name_field_required _ _ _ _ _ Hn).
  - intros v Hv. rewrite Hv in Hc. apply colour_field_inr in Hc.
    destruct Hc as [Hs Hhex].
    destruct (CategorySerializer.Data.colour data) as [s|]; [|discriminate].
    injection Hs as ->. apply (Hhex s eq_refl).
Qed.

Lemma task_columns categories today request instance partial data attrs :
  TaskSerializer.run_validation categories today request instance partial data
  = inr attrs ->
  (forall v, TaskSerializer.Attrs.title attrs = Some v ->
             v <> EmptyString /\ (String.length v <= 200)%nat /\ trimmed v)
  /\ (partial = false -> TaskSerializer.Attrs.title attrs <> None)
  /\ (forall v, TaskSerializer.Attrs.description attrs = Some v -> trimmed v)
  /\ (forall v, TaskSerializer.Attrs.status attrs = Some v ->
                In v Task.Status.values)
  /\ (forall v, TaskSerializer.Attrs.priority attrs = Some v ->
                In v Task.Priority.values).
Proof.
  intros H. apply run_validation_inr in H. destruct H as [-> Herr].
  unfold collected_errors in Herr.
  repeat (apply app_eq_nil in Herr;
          let H := fresh "He" in destruct Herr as [H Herr]).
  apply tame_no_error in He; [|apply char_field_tame].
  apply tame_no_error in He1; [|apply choice_field_tame].
  apply tame_no_error in He2; [|apply choice_field_tame].
  destruct He as [v1 H1], He1 as [v3 H3], He2 as [v4 H4].
  rewrite collected_title, collected_description, collected_status,
    collected_priority.
  rewrite H1, H3, H4.
  unfold r_title, TaskSerializer.title_field in H1.
  apply choice_field_inr in H3, H4.
  destruct H3 as [-> H3], H4 as [-> H4].
  split; [|split; [|split; [|split]]].
  - intros v ->. apply (char_field_valid _ _ _ _ _ H1).
  - intros ->. apply (char_field_required _ _ _ H1).
  - unfold r_description, TaskSerializer.description_field. cbn [ret].
    destruct (TaskSerializer.Data.description data) as [s|];
      cbn [option_map]; [|discriminate].
    intros v [= <-]. apply strip_strip.
  - exact H3.
  - exact H4.
Qed.

Lemma write_keeps_columns
    (db : Database.t) (today : date) (request : Request.t) (w : Write) :
  columns_valid db -> columns_valid (snd (perform db today request w)).
Proof.
  intros [Ht Hc]. unfold perform.
  destruct w as [new_id data|key data|key|new_id data|key data|key].
  - destruct (TaskViewSet.create db today new_id request data) as [e|out] eqn:H;
      [split; assumption|].
    apply task_create_inr in H. destruct H as [attrs [Hrun [_ Hdb]]].
    cbn [Response.dispatch]. rewrite Hdb.
    split; [|exact Hc]. cbn [Database.tasks]. intros t Hin.
    apply in_app_or in Hin. destruct Hin as [Hin|[<-|[]]]; [auto|].
    apply task_columns in Hrun.
    destruct Hrun as [Htitle [Hreq [Hdesc [Hst Hpr]]]].
    specialize (Hreq eq_refl).
    unfold valid_task, TaskSerializer.create.
    cbn [Task.title Task.description Task.status Task.priority].
    destruct (TaskSerializer.Attrs.title attrs) as [v|]; [|contradiction].
    cbn [from_option id]. destruct (Htitle v eq_refl) as [H1 [H2 H3]].
    split; [exact H1|]. split; [exact H2|]. split; [exact H3|].
    split; [|split].
    + destruct (TaskSerializer.Attrs.description attrs) as [d|];
        cbn [from_option id]; [apply Hdesc|]; reflexivity.
    + destruct (TaskSerializer.Attrs.status attrs) as [x|];
        cbn [from_option id]; [apply Hst; reflexivity|].
      left. reflexivity.
    + destruct (TaskSerializer.Attrs.priority attrs) as [x|];
        cbn [from_option id]; [apply Hpr; reflexivity|].
      right. left. reflexivity.
  - destruct (TaskViewSet.partial_update db today request key data)
      as [e|out] eqn:H; [split; assumption|].
    apply task_update_inr in H.
    destruct H as [instance [attrs [Hget [Hrun Hdb]]]].
    destruct (task_get_object_inr _ _ _ _ _ Hget) as [Hinst _].
    cbn [Response.dispatch]. rewrite Hdb.
    split; [|exact Hc]. cbn [Database.tasks]. intros t Hin.
    apply in_map_iff in Hin. destruct Hin as [t0 [Ht0 Hin0]].
    destruct (N.eqb (Task.id t0) (Task.id instance)); subst t; [|auto].
    apply task_columns in Hrun.
    destruct Hrun as [Htitle [_ [Hdesc [Hst Hpr]]]].
    destruct (Ht instance Hinst) as [I1 [I2 [I3 [I4 [I5 I6]]]]].
    unfold valid_task, TaskSerializer.update.
    cbn [Task.title Task.description Task.status Task.priority].
    destruct (TaskSerializer.Attrs.title attrs) as [v|]; cbn [from_option id].
    + destruct (Htitle v eq_refl) as [H1 [H2 H3]].
      split; [exact H1|]. split; [exact H2|]. split; [exact H3|].
      split; [|split].
      * destruct (TaskSerializer.Attrs.description attrs) as [d|];
          cbn [from_option id]; [apply Hdesc; reflexivity | exact I4].
      * destruct (TaskSerializer.Attrs.status attrs) as [x|];
          cbn [from_option id]; [apply Hst; reflexivity | exact I5].
      * destruct (TaskSerializer.Attrs.priority attrs) as [x|];
          cbn [from_option id]; [apply Hpr; reflexivity | exact I6].
    + split; [exact I1|]. split; [exact I2|]. split; [exact I3|].
      split; [|split].
      * destruct (TaskSerializer.Attrs.description attrs) as [d|];
          cbn [from_option id]; [apply Hdesc; reflexivity | exact I4].
      * destruct (TaskSerializer.Attrs.status attrs) as [x|];
          cbn [from_option id]; [apply Hst; reflexivity | exact I5].
      * destruct (TaskSerializer.Attrs.priority attrs) as [x|];
          cbn [from_option id]; [apply Hpr; reflexivity | exact I6].
  - destruct (TaskViewSet.destroy db today request key) as [e|out] eqn:H;
      [split; assumption|].
    apply task_destroy_inr in H. destruct H as [instance [_ Hdb]].
    cbn [Response.dispatch]. rewrite Hdb.
    split; [|exact Hc]. cbn [Database.tasks]. intros t Hin.
    apply filter_In in Hin. destruct Hin as [Hin _]. auto.
  - destruct (CategoryViewSet.create db new_id request data) as [e|out] eqn:H;
      [split; assumption|].
    cbn [Response.dispatch]. unfold CategoryViewSet.create in H.
    apply bind_inr in H. destruct H as [attrs [Hrun H]].
    destruct (existsb _ _); [discriminate|]. injection H as <-.
    cbn [snd]. split; [exact Ht|]. cbn [Database.categories]. intros c Hin.
    apply in_app_or in Hin. destruct Hin as [Hin|[<-|[]]]; [auto|].
    apply category_columns in Hrun. destruct Hrun as [Hname [Hreq Hcol]].
    specialize (Hreq eq_refl).
    unfold valid_category, CategorySerializer.create.
    cbn [Category.name Category.colour].
    destruct (CategorySerializer.Attrs.name attrs) as [v|]; [|contradiction].
    cbn [from_option id]. destruct (Hname v eq_refl) as [H1 [H2 H3]].
    split; [exact H1|]. split; [exact H2|]. split; [exact H3|].
    destruct (CategorySerializer.Attrs.colour attrs) as [x|];
      cbn [from_option id]; [apply Hcol|]; reflexivity.
  - destruct (CategoryViewSet.partial_update db request key data)
      as [e|out] eqn:H; [split; assumption|].
    cbn [Response.dispatch]. unfold CategoryViewSet.partial_update in H.
    apply bind_inr in H. destruct H as [instance [Hget H]].
    apply bind_inr in H. destruct H as [attrs [Hrun H]]. injection H as <-.
    destruct (category_get_object_inr _ _ _ _ Hget) as [Hinst _].
    cbn [snd]. split; [exact Ht|]. cbn [Database.categories]. intros c Hin.
    apply in_map_iff in Hin. destruct Hin as [c0 [Hc0 Hin0]].
    destruct (N.eqb (Category.id c0) _); subst c; [|auto].
    apply category_columns in Hrun. destruct Hrun as [Hname [_ Hcol]].
    destruct (Hc _ Hinst) as [I1 [I2 [I3 I4]]].
    unfold valid_category, CategorySerializer.update.
    cbn [Category.name Category.colour].
    destruct (CategorySerializer.Attrs.name attrs) as [v|]; cbn [from_option id].
    + destruct (Hname v eq_refl) as [H1 [H2 H3]].
      split; [exact H1|]. split; [exact H2|]. split; [exact H3|].
      destruct (CategorySerializer.Attrs.colour attrs) as [x|];
        cbn [from_option id]; [apply Hcol; reflexivity | exact I4].
    + split; [exact I1|]. split; [exact I2|]. split; [exact I3|].
      destruct (CategorySerializer.Attrs.colour attrs) as [x|];
        cbn [from_option id]; [apply Hcol; reflexivity | exact I4].
  - destruct (CategoryViewSet.destroy db request key) as [e|out] eqn:H;
      [split; assumption|].
    apply category_destroy_inr in H. destruct H as [instance [_ Hdb]].
    cbn [Response.dispatch]. rewrite Hdb. split.
    + cbn [Database.tasks]. intros t Hin.
      apply in_map_iff in Hin. destruct Hin as [t0 [Ht0 Hin0]].
      destruct (bool_decide _); subst t; [|auto].
      apply (Ht t0 Hin0).
    + cbn [Database.categories]. intros c Hin.
      apply filter_In in Hin. destruct Hin as [Hin _]. auto.
Qed.
End ColumnFacts.

Section StoredColumns.
Import Py Spec Cover.

(** X10.  Every write request keeps the stored text columns as the
    serializers leave them: a task title is non-empty, trimmed and at
    most 200 characters long, a description is trimmed, status and
    priority are members of their choices, a category name is non-empty,
    trimmed and at most 100 characters long, and a category colour is a
    hash sign followed by exactly six hexadecimal digits.  A database
    whose rows are of this form stays so under every sequence of create,
    partial-update and delete requests, accepted or refused. *)
Theorem stored_columns_valid
    (db : Database.t) (steps : list (date * Request.t * Write)) :
  columns_valid db -> columns_valid (run db steps).
Proof.
  unfold run. revert db.
  induction steps as [|[[today request] w] steps IH]; intros db H;
    cbn [fold_left fst snd]; [exact H|].
  apply IH. apply write_keeps_columns. exact H.
Qed.

Lemma fixture_columns : columns_valid Fixtures.db.
Proof.
  split.
  - intros t Hin. cbn in Hin.
    destruct Hin as [<-|[<-|[<-|[<-|[<-|[]]]]]];
      (split; [discriminate|]); (split; [apply Nat.leb_le; reflexivity|]);
      (split; [reflexivity|]); (split; [reflexivity|]);
      (split; apply str_in_In; reflexivity).
  - intros c Hin. cbn in Hin.
    destruct Hin as [<-|[<-|[]]];
      (split; [discriminate|]); (split; [apply Nat.leb_le; reflexivity|]);
      split; reflexivity.
Defined.

(** Alice renames her category and gives it a new colour, then files a
    task under it: the stored columns are still of the promised form. *)
Lemma stored_columns_valid_witness :
  columns_valid
    (run Fixtures.db
       [(Fixtures.today, Fixtures.as_alice,
         CategoryUpdate 20%N
           (CategorySerializer.Data.mk (Some "  Office ") (Some "#00ff7F ")));
        (Fixtures.today, Fixtures.as_alice,
         TaskCreate 6%N
           (TaskSerializer.Data.mk (Some " Plan ") None None (Some "low")
              None (Some (Some 20%N))))]).
Proof. apply stored_columns_valid. exact fixture_columns. Defined.

(** X11.  The colour of a category request body is accepted exactly when,
    with the white space at both ends removed, it is a hash sign followed
    by exactly six hexadecimal digits, and the trimmed text is what is
    stored; an absent colour is skipped.  The final newline that the end
    anchor of the pattern tolerates never gets through. *)
Theorem colour_field_accepts (partial : bool) :
  (forall s r,
      CategorySerializer.colour_field partial (Some s) = inr r
      <-> r = Some (strip s) /\ hex_colour (strip s) = true)
  /\ CategorySerializer.colour_field partial None = inr None
  /\ (forall s v,
        CategorySerializer.colour_field partial (Some s) = inr (Some v) ->
        String.length v = 7%nat /\ occurs "010" v = false).
Proof.
  assert (H1 : forall s r,
             CategorySerializer.colour_field partial (Some s) = inr r
             <-> r = Some (strip s) /\ hex_colour (strip s) = true).
  { intros s r. rewrite colour_field_inr. cbn [option_map]. split.
    - intros [-> H]. split; [reflexivity | apply (H s eq_refl)].
    - intros [-> H]. split; [reflexivity|]. intros s' [= <-]. exact H. }
  split; [exact H1|]. split; [reflexivity|].
  intros s v H. apply H1 in H. destruct H as [[= ->] H].
  destruct (strip s) as [|h [|a [|b [|c [|d [|e [|f [|g rest]]]]]]]];
    try discriminate H;
    try (cbn in H; rewrite andb_false_r in H; discriminate H).
  split; [reflexivity|].
  unfold hex_colour in H.
  cbn [String.length Nat.eqb list_ascii_of_string forallb] in H.
  apply andb_true_iff in H. destruct H as [H Hf].
  apply andb_true_iff in H. destruct H as [H _].
  repeat (apply andb_true_iff in Hf; destruct Hf as [? Hf]).
  apply Ascii.eqb_eq in H. subst h.
  cbn [occurs].
  assert (Hx : forall x, CategorySerializer.is_hex x = true ->
                         Ascii.eqb x "010" = false).
  { intros x Hx. destruct (Ascii.eqb x "010") eqn:E; [|reflexivity].
    apply Ascii.eqb_eq in E. subst x. discriminate Hx. }
  repeat match goal with
         | Hh : CategorySerializer.is_hex ?x = true |- _ =>
             rewrite (Hx x Hh); clear Hh
         end.
  reflexivity.
Qed.

(** A colour sent with spaces around it is stored without them. *)
Lemma colour_field_accepts_witness :
  CategorySerializer.colour_field false (Some " #6366F1 ")
  = inr (Some "#6366F1")
  /\ String.length "#6366F1" = 7%nat /\ occurs "010" "#6366F1" = false.
Proof.
  split; [reflexivity|].
  apply (proj2 (proj2 (colour_field_accepts false)) " #6366F1 " "#6366F1").
  reflexivity.
Defined.
End StoredColumns.

(** ** The reset mail *)
Section ResetMail.
Import Py Spec Cover.

Variable email_validator : string -> bool.
Variable client_send : string -> Emails.Mail -> option nat.
Variable urlsafe_base64_encode : uuid -> string.
Variable make_token : User.t -> string.

Lemma contains_here (part after : string) : contains part (part +:+ after).
Proof. exists EmptyString, after. reflexivity. Qed.

Lemma contains_after (x part whole : string) :
  contains part whole -> contains part (x +:+ whole).
Proof.
  intros [before [after ->]]. exists (x +:+ before), after.
  induction x as [|c x IH]; [reflexivity|].
  rewrite !append_cons, IH. reflexivity.
Qed.

Lemma reset_lookup (users : list User.t) (email : string) :
  List.NoDup (map User.email users) ->
  (Orm.get (Orm.QAnd (User.email_is email) (User.is_active_is true)) users
   = inl DoesNotExist
   /\ forall u, In u users -> User.email u = email ->
                User.is_active u = false)
  \/ (exists u,
         Orm.get (Orm.QAnd (User.email_is email) (User.is_active_is true))
           users = inr u
         /\ In u users /\ User.email u = email /\ User.is_active u = true).
Proof.
  intros Hnd.
  set (q := Orm.QAnd (User.email_is email) (User.is_active_is true)).
  assert (Hq : forall u, Orm.matches q u = true
                         <-> User.email u = email /\ User.is_active u = true).
  { intros u. subst q.
    cbn [Orm.matches Orm.compare User.email_is User.is_active_is].
    rewrite andb_true_iff, String.eqb_eq.
    destruct (User.is_active u); cbn [Bool.eqb]; intuition congruence. }
  destruct (List.filter (Orm.matches q) users) as [|u l] eqn:E.
  - left. split.
    + apply get_DoesNotExist. intros r Hr.
      destruct (Orm.matches q r) eqn:Em; [|reflexivity].
      assert (Hin : In r (List.filter (Orm.matches q) users))
        by (apply filter_In; auto).
      rewrite E in Hin. destruct Hin.
    + intros u Hu He. destruct (User.is_active u) eqn:Ea; [|reflexivity].
      assert (Hin : In u (List.filter (Orm.matches q) users))
        by (apply filter_In; split; [exact Hu | apply Hq; auto]).
      rewrite E in Hin. destruct Hin.
  - right. exists u.
    assert (Hin : In u (List.filter (Orm.matches q) users))
      by (rewrite E; left; reflexivity).
    apply filter_In in Hin. destruct Hin as [Hin Hm].
    pose proof (proj1 (Hq u) Hm) as [He Ha].
    split; [|auto].
    unfold Orm.get. rewrite filter_matches.
    rewrite (filter_unique User.email _ users u Hnd Hin Hm); [reflexivity|].
    intros y _ Hy. apply Hq in Hy. destruct Hy as [Hy _]. congruence.
Qed.

(** X12.  Let addresses be unique in the user table.  A reset request
    with a well-formed address is answered 200 with the fixed message
    and hands at most one message to the mail client: one exactly when
    the API key is configured and the normalised address is that of an
    active account, whether or not the client then fails.  That message
    is addressed to the stored address of this account and its body
    contains the reset link built from the front-end base URL, the
    encoded key of the account and its token. *)
Theorem password_reset_mail
    (settings : Settings.t) (users : list User.t) (raw : string) :
  List.NoDup (map User.email users) ->
  well_formed email_validator raw ->
  exists mails,
    PasswordResetRequestView.post email_validator client_send
      urlsafe_base64_encode make_token settings users (Some raw)
    = inr (Response.mk Response.HTTP_200_OK
             PasswordResetRequestView.success_msg, mails)
    /\ (length mails <= 1)%nat
    /\ (mails <> []
        <-> Settings.SENDGRID_API_KEY settings <> EmptyString
            /\ exists u, In u users /\ User.email u = looked_up raw
                         /\ User.is_active u = true)
    /\ (forall m, In m mails ->
          exists u,
            In u users /\ User.is_active u = true
            /\ User.email u = looked_up raw
            /\ Emails.to_emails m = User.email u
            /\ contains (reset_link settings
                           (urlsafe_base64_encode (User.id u)) (make_token u))
                        (Emails.html_content m)).
Proof.
  intros Hnd Hw. unfold PasswordResetRequestView.post.
  rewrite (reset_validation email_validator raw Hw). cbn [bind].
  destruct (reset_lookup users (looked_up raw) Hnd)
    as [[Hget Hnone]|[u [Hget [Hin [He Ha]]]]]; rewrite Hget.
  - exists []. split; [reflexivity|]. split; [cbn; lia|]. split.
    + split; [intros H; contradiction|].
      intros [_ [u [Hu [He Ha]]]]. rewrite (Hnone u Hu He) in Ha.
      discriminate.
    + intros m [].
  - cbn zeta. unfold Emails.send_password_reset_email, Emails._send_email.
    cbn zeta.
    destruct (truthy (Settings.SENDGRID_API_KEY settings)) eqn:Ek;
      cbn [negb snd].
    + apply truthy_true in Ek.
      match goal with
      | |- context [client_send ?k ?m] => set (msg := m)
      end.
      exists [msg]. split; [destruct (client_send _ msg); reflexivity|].
      split; [cbn; lia|]. split.
      * split; [intros _; split; [exact Ek | exists u; auto]
               | intros _; discriminate].
      * intros m [<-|[]]. exists u. subst msg.
        cbn [Emails.to_emails Emails.html_content].
        split; [exact Hin|]. split; [exact Ha|]. split; [exact He|].
        split; [reflexivity|].
        do 9 apply contains_after. apply contains_here.
    + exists []. split; [reflexivity|]. split; [cbn; lia|]. split.
      * split; [intros H; contradiction|]. intros [Hk _].
        apply truthy_true in Hk. congruence.
      * intros m [].
Qed.
End ResetMail.

Section ResetMailWitness.
Import Py Spec Cover.

(** Alice asks for a reset with her address in another case and with
    spaces around it: whatever is handed to the mail client goes to her
    stored address. *)
Lemma password_reset_mail_witness :
  exists mails,
    PasswordResetRequestView.post Fixtures.has_at_sign
      Fixtures.accepting_client Fixtures.encode_key Fixtures.token_of
      Fixtures.settings Fixtures.users (Some " Alice@Example.com ")
    = inr (Response.mk Response.HTTP_200_OK
             PasswordResetRequestView.success_msg, mails)
    /\ forall m, In m mails -> Emails.to_emails m = "alice@example.com".
Proof.
  assert (Hw : well_formed Fixtures.has_at_sign " Alice@Example.com ")
    by (split; [discriminate | reflexivity]).
  pose proof (password_reset_mail Fixtures.has_at_sign
                Fixtures.accepting_client Fixtures.encode_key Fixtures.token_of
                Fixtures.settings Fixtures.users " Alice@Example.com "
                fixture_emails Hw) as H.
  destruct H as [mails [Hpost [_ [_ Hto]]]].
  exists mails. split; [exact Hpost|].
  intros m Hm. destruct (Hto m Hm) as [u [_ [_ [He [Hm' _]]]]].
  rewrite Hm', He. reflexivity.
Defined.
End ResetMailWitness.

(** ** The pages of the task list *)
Section Pages.
Import Py Spec Cover.

Lemma chunks_concat {A} (k n : nat) (l : list A) :
  (length l <= n * k)%nat ->
  concat (map (fun p => firstn k (skipn ((p - 1) * k) l)) (seq 1 n)) = l.
Proof.
  revert l. induction n as [|n IH]; intros l Hlen.
  - destruct l; [reflexivity | cbn in Hlen; lia].
  - cbn [seq map concat]. rewrite <- seq_shift, map_map.
    cbn [Nat.sub Nat.mul skipn].
    transitivity (firstn k l ++ skipn k l)%list; [|apply firstn_skipn].
    f_equal.
    transitivity
      (concat (map (fun p => firstn k (skipn ((p - 1) * k) (skipn k l)))
                   (seq 1 n)));
      [|apply IH; rewrite length_skipn; nia].
    f_equal. apply map_ext_in. intros p Hp. apply in_seq in Hp.
    rewrite skipn_skipn. f_equal. f_equal. nia.
Qed.

Lemma pages_cover (count : nat) :
  (count <= Pagination.num_pages count * Pagination.PAGE_SIZE)%nat.
Proof.
  unfold Pagination.num_pages, Pagination.PAGE_SIZE.
  pose proof (Nat.div_mod_eq (count + 10 - 1) 10) as H.
  pose proof (Nat.mod_upper_bound (count + 10 - 1) 10 ltac:(lia)) as Hm.
  lia.
Qed.

Lemma insert_desc_perm key x l :
  Permutation (TaskTimestamps.insert_desc key x l) (x :: l).
Proof.
  induction l as [|y l IH]; cbn [TaskTimestamps.insert_desc]; [reflexivity|].
  destruct (key x <? key y); [|reflexivity].
  rewrite IH. apply perm_swap.
Qed.

Lemma order_by_desc_perm key l :
  Permutation (TaskTimestamps.order_by_desc key l) l.
Proof.
  induction l as [|x l IH]; cbn [TaskTimestamps.order_by_desc fold_right];
    [reflexivity|].
  rewrite insert_desc_perm. apply perm_skip. exact IH.
Qed.

Lemma insert_desc_sorted key x l :
  StronglySorted (fun a b => key b <= key a) l ->
  StronglySorted (fun a b => key b <= key a)
    (TaskTimestamps.insert_desc key x l).
Proof.
  induction l as [|y l IH]; cbn [TaskTimestamps.insert_desc]; intros Hs.
  - repeat constructor.
  - apply StronglySorted_inv in Hs. destruct Hs as [Hs Hy].
    destruct (key x <? key y) eqn:E.
    + apply Z.ltb_lt in E. constructor; [apply IH; exact Hs|].
      rewrite List.Forall_forall in *. intros z Hz.
      apply (Permutation_in _ (insert_desc_perm key x l)) in Hz.
      destruct Hz as [<-|Hz]; [lia | apply Hy; exact Hz].
    + apply Z.ltb_ge in E. constructor; [constructor; assumption|].
      constructor; [exact E|].
      rewrite List.Forall_forall in *. intros z Hz. specialize (Hy z Hz). lia.
Qed.

Lemma order_by_desc_sorted key l :
  StronglySorted (fun a b => key b <= key a)
    (TaskTimestamps.order_by_desc key l).
Proof.
  induction l as [|x l IH]; cbn [TaskTimestamps.order_by_desc fold_right].
  - constructor.
  - apply insert_desc_sorted. exact IH.
Qed.

(** Without ties there is one way to put rows newest first. *)
Lemma sorted_perm_unique (key : Task.t -> Z) (l1 l2 : list Task.t) :
  List.NoDup (map key l1) ->
  StronglySorted (fun a b => key b <= key a) l1 ->
  StronglySorted (fun a b => key b <= key a) l2 ->
  Permutation l1 l2 -> l1 = l2.
Proof.
  revert l2. induction l1 as [|a l1 IH]; intros l2 Hnd H1 H2 Hp.
  - apply Permutation_nil in Hp. congruence.
  - destruct l2 as [|b l2];
      [apply Permutation_sym, Permutation_nil in Hp; discriminate|].
    apply StronglySorted_inv in H1. destruct H1 as [H1 Ha].
    apply StronglySorted_inv in H2. destruct H2 as [H2 Hb].
    rewrite List.Forall_forall in Ha, Hb.
    assert (Hab : a = b).
    { assert (Ha2 : In a (b :: l2))
        by (apply (Permutation_in _ Hp); left; reflexivity).
      assert (Hb1 : In b (a :: l1))
        by (apply (Permutation_in _ (Permutation_sym Hp)); left; reflexivity).
      destruct Ha2 as [->|Ha2]; [reflexivity|].
      destruct Hb1 as [->|Hb1]; [reflexivity|].
      pose proof (Hb a Ha2). pose proof (Ha b Hb1).
      apply (unique_key key (a :: l1) a b Hnd);
        [left; reflexivity | right; exact Hb1 | lia]. }
    subst b. f_equal. apply Permutation_cons_inv in Hp.
    cbn [map] in Hnd. apply List.NoDup_cons_iff in Hnd.
    apply IH; [apply Hnd | exact H1 | exact H2 | exact Hp].
Qed.

Lemma list_on_page db stamps today request p rows :
  TaskViewSet.filter_queryset today request
    (TaskViewSet.get_queryset db request) = inr rows ->
  TaskTimestamps.list db stamps today (on_page request p)
  = (let? page := Pagination.paginate_queryset p
                    (TaskTimestamps.order_by_desc
                       (TaskTimestamps.created stamps) rows) in
     ret (Response.mk Response.HTTP_200_OK
            (Response.TaskPage (length rows)
               (map (TaskViewSet.render db today) page)),
          db)).
Proof.
  intros H. unfold TaskTimestamps.list.
  change (TaskViewSet.filter_queryset today (on_page request p)
            (TaskViewSet.get_queryset db (on_page request p)))
    with (TaskViewSet.filter_queryset today request
            (TaskViewSet.get_queryset db request)).
  rewrite H. cbn [bind]. unfold Orm.count.
  rewrite (Permutation_length (order_by_desc_perm _ rows)). reflexivity.
Qed.

Lemma shown_page db stamps today request p rows :
  TaskViewSet.filter_queryset today request
    (TaskViewSet.get_queryset db request) = inr rows ->
  shown db stamps today request p
  = match Pagination.paginate_queryset p
            (TaskTimestamps.order_by_desc (TaskTimestamps.created stamps) rows)
    with
    | inr page => page
    | inl _ => []
    end.
Proof.
  intros H. unfold shown. rewrite (list_on_page _ _ _ _ _ _ H).
  destruct (Pagination.paginate_queryset p _) as [e|page]; run_dispatch.
  - apply (proj1 (exception_lists_nothing e)).
  - cbn [listed_tasks Response.data]. rewrite map_map.
    cbn [TaskViewSet.render TaskSerializer.to_representation TaskSerializer.task].
    apply map_id.
Qed.

(** X13.  The list route of the tasks, for a request without search and
    ordering parameters whose declared filters leave rows with distinct
    creation instants.  The rows are put newest first, and without ties
    there is only one such order.  Page p, for p from 1 to the number of
    pages, is answered 200 with the total count and the p-th ten rows of
    that order; the pages in order, put end to end, are exactly the
    filtered rows, each once; every other page number is answered 404
    with the message of an invalid page; no page request writes. *)
Theorem task_pages_partition
    (db : Database.t) (stamps : TaskTimestamps.t) (today : date)
    (request : Request.t) (rows : list Task.t) :
  TaskViewSet.filter_queryset today request
    (TaskViewSet.get_queryset db request) = inr rows ->
  List.NoDup (map (TaskTimestamps.created stamps) rows) ->
  exists ordered,
    Permutation ordered rows
    /\ newest_first stamps ordered
    /\ (forall other, Permutation other rows -> newest_first stamps other ->
                      other = ordered)
    /\ concat (map (shown db stamps today request)
                   (seq 1 (Pagination.num_pages (length rows)))) = ordered
    /\ (forall p,
          (1 <= p <= Pagination.num_pages (length rows))%nat ->
          Response.dispatch db
            (TaskTimestamps.list db stamps today (on_page request p))
          = (Response.mk Response.HTTP_200_OK
               (Response.TaskPage (length rows)
                  (map (TaskViewSet.render db today)
                       (firstn 10 (skipn ((p - 1) * 10) ordered)))),
             db)
          /\ shown db stamps today request p
             = firstn 10 (skipn ((p - 1) * 10) ordered))
    /\ (forall p,
          (p < 1 \/ Pagination.num_pages (length rows) < p)%nat ->
          Response.dispatch db
            (TaskTimestamps.list db stamps today (on_page request p))
          = (Response.mk Response.HTTP_404_NOT_FOUND
               (Response.Detail "Invalid page."), db)).
Proof.
  intros Hrows Hties.
  set (ordered := TaskTimestamps.order_by_desc
                    (TaskTimestamps.created stamps) rows).
  assert (Hperm : Permutation ordered rows) by apply order_by_desc_perm.
  assert (Hsorted : newest_first stamps ordered)
    by apply order_by_desc_sorted.
  assert (Hlen : length ordered = length rows)
    by apply (Permutation_length Hperm).
  assert (Hvalid : forall p,
             (1 <= p <= Pagination.num_pages (length rows))%nat ->
             Pagination.paginate_queryset p ordered
             = inr (firstn Pagination.PAGE_SIZE
                      (skipn ((p - 1) * Pagination.PAGE_SIZE) ordered))).
  { intros p [H1 H2]. unfold Pagination.paginate_queryset. rewrite Hlen.
    rewrite (proj2 (Nat.ltb_ge p 1) H1), (proj2 (Nat.ltb_ge _ _) H2).
    reflexivity. }
  exists ordered. split; [exact Hperm|]. split; [exact Hsorted|].
  split; [|split; [|split]].
  - intros other Hp Hs. symmetry.
    apply (sorted_perm_unique (TaskTimestamps.created stamps) ordered other).
    + apply (Permutation_NoDup (l := map (TaskTimestamps.created stamps) rows));
        [|exact Hties].
      apply Permutation_map, Permutation_sym, Hperm.
    + exact Hsorted.
    + exact Hs.
    + rewrite Hp. exact Hperm.
  - transitivity
      (concat (map (fun p => firstn Pagination.PAGE_SIZE
                               (skipn ((p - 1) * Pagination.PAGE_SIZE) ordered))
                   (seq 1 (Pagination.num_pages (length rows)))));
      [|apply chunks_concat; rewrite Hlen; apply pages_cover].
    f_equal. apply map_ext_in. intros p Hp. apply in_seq in Hp.
    rewrite (shown_page _ _ _ _ _ _ Hrows). fold ordered.
    rewrite Hvalid by lia. reflexivity.
  - intros p Hp. rewrite (shown_page _ _ _ _ _ _ Hrows).
    rewrite (list_on_page _ _ _ _ _ _ Hrows). fold ordered.
    rewrite (Hvalid p Hp). split; reflexivity.
  - intros p Hp. rewrite (list_on_page _ _ _ _ _ _ Hrows). fold ordered.
    unfold Pagination.paginate_queryset. rewrite Hlen.
    assert (Hb : ((p <? 1) || (Pagination.num_pages (length rows) <? p))%nat
                 = true).
    { apply orb_true_iff. rewrite !Nat.ltb_lt. exact Hp. }
    rewrite Hb. reflexivity.
Qed.

(** Alice's four tasks come newest first on the first page and there is
    no second page; a task she creates later comes first. *)
Lemma task_pages_partition_witness :
  shown Fixtures.db Fixtures.stamps Fixtures.today Fixtures.as_alice 1
  = [Fixtures.t_undated; Fixtures.t_done; Fixtures.t_doing; Fixtures.t_todo]
  /\ Response.dispatch Fixtures.db
       (TaskTimestamps.list Fixtures.db Fixtures.stamps Fixtures.today
          (on_page Fixtures.as_alice 2))
     = (Response.mk Response.HTTP_404_NOT_FOUND
          (Response.Detail "Invalid page."), Fixtures.db)
  /\ match TaskTimestamps.create Fixtures.db Fixtures.stamps Fixtures.today
             500 6%N Fixtures.as_alice (patch_title "Plan") with
     | inr out =>
         map Task.id
           (shown (snd (fst out)) (snd out) Fixtures.today Fixtures.as_alice 1)
     | inl _ => []
     end = [6; 4; 3; 2; 1]%N.
Proof.
  assert (Hties : List.NoDup
                    (map (TaskTimestamps.created Fixtures.stamps)
                       [Fixtures.t_todo; Fixtures.t_doing; Fixtures.t_done;
                        Fixtures.t_undated])).
  { vm_compute.
    repeat (apply List.NoDup_cons; [cbn; intuition discriminate|]).
    apply List.NoDup_nil. }
  pose proof (task_pages_partition Fixtures.db Fixtures.stamps Fixtures.today
                Fixtures.as_alice
                [Fixtures.t_todo; Fixtures.t_doing; Fixtures.t_done;
                 Fixtures.t_undated] eq_refl Hties) as H.
  destruct H as [ordered [_ [_ [Honly [_ [Hpage Hnone]]]]]].
  assert (Hord : [Fixtures.t_undated; Fixtures.t_done; Fixtures.t_doing;
                  Fixtures.t_todo] = ordered).
  { apply Honly.
    - apply Permutation_sym,
        (Permutation_rev [Fixtures.t_todo; Fixtures.t_doing; Fixtures.t_done;
                          Fixtures.t_undated]).
    - unfold newest_first. repeat constructor; vm_compute; discriminate. }
  split; [|split].
  - destruct (Hpage 1%nat) as [_ H]; [cbn; lia|]. rewrite H, <- Hord.
    reflexivity.
  - apply Hnone. right. cbn. lia.
  - vm_compute. reflexivity.
Defined.

End Pages.

(** ** The profile image *)
Section ProfileImage.
Import Py Spec Cover.

Variable uploader
  : CloudinaryUtils.UploadedFile -> CloudinaryUtils.UploadKwargs
    -> option string.
Variable str_pk : uuid -> string.

Lemma allowed_type (ct : string) :
  bool_decide (ct ∈ CloudinaryUtils.ALLOWED_IMAGE_TYPES)
  = str_in ct ["image/jpeg"; "image/png"; "image/gif"; "image/webp"].
Proof.
  destruct (str_in ct _) eqn:E.
  - apply bool_decide_eq_true_2. apply str_in_In in E.
    unfold CloudinaryUtils.ALLOWED_IMAGE_TYPES.
    rewrite !elem_of_union, !elem_of_singleton. cbn [In] in E.
    intuition congruence.
  - apply bool_decide_eq_false_2. intros H.
    assert (Hin : In ct ["image/jpeg"; "image/png"; "image/gif"; "image/webp"]).
    { unfold CloudinaryUtils.ALLOWED_IMAGE_TYPES in H.
      rewrite !elem_of_union, !elem_of_singleton in H. cbn [In].
      intuition congruence. }
    apply str_in_In in Hin. congruence.
Qed.

Lemma validate_image_cases (file : CloudinaryUtils.UploadedFile) :
  (acceptable file = true /\ CloudinaryUtils.validate_image file = inr tt)
  \/ (acceptable file = false
      /\ exists m, CloudinaryUtils.validate_image file
                   = inl (CloudinaryUtils.ImageValidationError m)
                   /\ (str_in (CloudinaryUtils.content_type file)
                         ["image/jpeg"; "image/png"; "image/gif"; "image/webp"]
                       = false ->
                       m = unsupported_type_message
                             (CloudinaryUtils.content_type file))).
Proof.
  unfold CloudinaryUtils.validate_image, acceptable.
  rewrite allowed_type.
  destruct (str_in (CloudinaryUtils.content_type file) _) eqn:Et;
    cbn [negb andb].
  - change CloudinaryUtils.MAX_IMAGE_SIZE with 5242880%N.
    rewrite N.ltb_antisym.
    destruct (CloudinaryUtils.size file <=? 5242880)%N; cbn [negb].
    + left. auto.
    + right. split; [reflexivity|]. eexists. split; [reflexivity|].
      discriminate.
  - right. split; [reflexivity|]. eexists. split; [reflexivity|].
    intros _. reflexivity.
Qed.

(** X14.  Profile image upload, for a user whose key has a non-empty
    text form.  The answer is 200 exactly when a named file is present,
    its type is one of the four image types, its size is at most
    5 242 880 bytes and the upload under the public id of the user (no
    folder argument) yields a URL; then this URL is stored for the user
    and returned.  It is 500 exactly when such a file is refused by the
    uploader, and 400 otherwise.  Whenever the answer is not 200 nothing
    is stored, no answer changes the entry of another user, and a file
    of an unsupported type is told so with the sorted list of the
    allowed types, whatever its size. *)
Theorem profile_image_upload
    (profiles : gmap N string) (user : uuid)
    (image : option CloudinaryUtils.UploadedFile) :
  str_pk user <> EmptyString ->
  let out := ProfileImageUploadView.post uploader str_pk profiles user image in
  let reply := fst out in
  (ProfileImageUploadView.status_code reply = 200%nat
   <-> exists file url,
         image = Some file /\ CloudinaryUtils.name file <> EmptyString
         /\ acceptable file = true
         /\ uploader file (profile_kwargs (str_pk user)) = Some url
         /\ snd out = <[ user := url ]> profiles
         /\ ProfileImageUploadView.profile_image reply = Some url)
  /\ (ProfileImageUploadView.status_code reply = 500%nat
      <-> exists file,
            image = Some file /\ CloudinaryUtils.name file <> EmptyString
            /\ acceptable file = true
            /\ uploader file (profile_kwargs (str_pk user)) = None)
  /\ (ProfileImageUploadView.status_code reply = 400%nat
      <-> image = None
          \/ exists file,
               image = Some file
               /\ (CloudinaryUtils.name file = EmptyString
                   \/ acceptable file = false))
  /\ (ProfileImageUploadView.status_code reply <> 200%nat ->
      snd out = profiles
      /\ ProfileImageUploadView.profile_image reply = None)
  /\ (forall other, other <> user -> snd out !! other = profiles !! other)
  /\ (forall file,
        image = Some file -> CloudinaryUtils.name file <> EmptyString ->
        str_in (CloudinaryUtils.content_type file)
          ["image/jpeg"; "image/png"; "image/gif"; "image/webp"] = false ->
        ProfileImageUploadView.detail reply
        = unsupported_type_message (CloudinaryUtils.content_type file)).
Proof.
  intros Hpk out reply. subst reply out.
  unfold ProfileImageUploadView.post.
  destruct image as [file|].
  2:{ cbn [fst snd ProfileImageUploadView.status_code
           ProfileImageUploadView.profile_image].
      unfold Response.HTTP_400_BAD_REQUEST.
      split; [|split; [|split; [|split; [|split]]]].
      - split; [discriminate|]. intros [f [u [H _]]]. discriminate.
      - split; [discriminate|]. intros [f [H _]]. discriminate.
      - split; [left; reflexivity | reflexivity].
      - intros _. split; reflexivity.
      - reflexivity.
      - intros f H. discriminate. }
  destruct (truthy (CloudinaryUtils.name file)) eqn:En; cbn [negb].
  2:{ assert (Hn : CloudinaryUtils.name file = EmptyString)
        by (destruct (CloudinaryUtils.name file); [reflexivity|discriminate]).
      cbn [fst snd ProfileImageUploadView.status_code
           ProfileImageUploadView.profile_image].
      unfold Response.HTTP_400_BAD_REQUEST.
      split; [|split; [|split; [|split; [|split]]]].
      - split; [discriminate|]. intros [f [u [[= <-] [H _]]]]. contradiction.
      - split; [discriminate|]. intros [f [[= <-] [H _]]]. contradiction.
      - split; [|reflexivity]. intros _. right. exists file. auto.
      - intros _. split; reflexivity.
      - reflexivity.
      - intros f [= <-] H. contradiction. }
  apply truthy_true in En.
  unfold CloudinaryUtils.upload_profile_image.
  apply truthy_true in Hpk. rewrite Hpk.
  change (CloudinaryUtils.mkKwargs None
            (Some (CloudinaryUtils.PROFILE_IMAGE_FOLDER +:+ "/" +:+ str_pk user))
            true)
    with (profile_kwargs (str_pk user)).
  destruct (validate_image_cases file) as [[Hacc Hv]|[Hacc [m [Hv Hm]]]];
    rewrite Hv.
  - destruct (uploader file (profile_kwargs (str_pk user))) as [url|] eqn:Eu;
      cbn [fst snd ProfileImageUploadView.status_code
           ProfileImageUploadView.profile_image
           ProfileImageUploadView.detail];
      unfold Response.HTTP_200_OK, Response.HTTP_500_INTERNAL_SERVER_ERROR,
        Response.HTTP_400_BAD_REQUEST;
      (split; [|split; [|split; [|split; [|split]]]]).
    + split; [|reflexivity]. intros _. exists file, url. auto 10.
    + split; [discriminate|]. intros [f [[= <-] [_ [_ H]]]]. congruence.
    + split; [discriminate|].
      intros [H|[f [[= <-] [H|H]]]]; congruence.
    + intros H. contradiction.
    + intros other Ho. apply lookup_insert_ne. congruence.
    + intros f [= <-] _ Ht. unfold acceptable in Hacc. rewrite Ht in Hacc.
      discriminate.
    + split; [discriminate|].
      intros [f [u [[= <-] [_ [_ [H _]]]]]]. congruence.
    + split; [|reflexivity]. intros _. exists file. auto.
    + split; [discriminate|].
      intros [H|[f [[= <-] [H|H]]]]; congruence.
    + intros _. split; reflexivity.
    + reflexivity.
    + intros f [= <-] _ Ht. unfold acceptable in Hacc. rewrite Ht in Hacc.
      discriminate.
  - cbn [fst snd ProfileImageUploadView.status_code
         ProfileImageUploadView.profile_image ProfileImageUploadView.detail].
    unfold Response.HTTP_400_BAD_REQUEST.
    split; [|split; [|split; [|split; [|split]]]].
    + split; [discriminate|].
      intros [f [u [[= <-] [_ [H _]]]]]. congruence.
    + split; [discriminate|]. intros [f [[= <-] [_ [H _]]]]. congruence.
    + split; [|reflexivity]. intros _. right. exists file. auto.
    + intros _. split; reflexivity.
    + reflexivity.
    + intros f [= <-] _ Ht. apply Hm. exact Ht.
Qed.
End ProfileImage.

Section ProfileImageWitness.
Import Py Spec Cover.

(** A photograph of exactly five mebibytes is stored under the URL the
    uploader returns. *)
Lemma profile_image_upload_witness :
  ProfileImageUploadView.status_code
    (fst (ProfileImageUploadView.post
            (fun _ k => CloudinaryUtils.public_id k) (fun _ => "7")
            ∅ Fixtures.alice
            (Some (CloudinaryUtils.mkFile "me.png" "image/png" 5242880))))
  = 200%nat.
Proof.
  apply (profile_image_upload (fun _ k => CloudinaryUtils.public_id k)
           (fun _ => "7") ∅ Fixtures.alice
           (Some (CloudinaryUtils.mkFile "me.png" "image/png" 5242880))
           ltac:(discriminate)).
  eexists. eexists. repeat split; try reflexivity. discriminate.
Defined.
End ProfileImageWitness.

(** ** The address a reset request looks up *)
Section AddressNormalForm.
Import Py Spec Cover.

Lemma isspace_lower_char c : isspace (lower_char c) = isspace c.
Proof. destruct c as [[] [] [] [] [] [] [] []]; vm_compute; reflexivity. Qed.

Lemma lower_char_idem c : lower_char (lower_char c) = lower_char c.
Proof. destruct c as [[] [] [] [] [] [] [] []]; vm_compute; reflexivity. Qed.

Lemma lower_idem s : lower (lower s) = lower s.
Proof.
  induction s as [|c s IH]; [reflexivity|]. cbn [lower].
  rewrite lower_char_idem, IH. reflexivity.
Qed.

Lemma lstrip_lower s : lstrip (lower s) = lower (lstrip s).
Proof.
  induction s as [|c s IH]; [reflexivity|]. cbn [lower lstrip].
  rewrite isspace_lower_char. destruct (isspace c); [exact IH | reflexivity].
Qed.

Lemma rstrip_lower s : rstrip (lower s) = lower (rstrip s).
Proof.
  induction s as [|c s IH]; [reflexivity|]. cbn [lower rstrip].
  rewrite IH, isspace_lower_char.
  destruct (rstrip s) as [|c' r]; cbn [lower].
  - destruct (isspace c); reflexivity.
  - reflexivity.
Qed.

Lemma strip_lower s : strip (lower s) = lower (strip s).
Proof. unfold strip. rewrite lstrip_lower, rstrip_lower. reflexivity. Qed.

(** X15.  The address that a reset request looks up is the submitted
    text in lower case with the white space at both ends removed: the
    trimming done by the field and the one done by [validate_email]
    amount to one.  It is in normal form: lower-casing it, trimming it
    or normalising it again changes nothing, so two submissions that
    differ only in the case of letters and in outer white space look up
    the same address. *)
Theorem reset_address_normal_form (raw : string) :
  looked_up raw = strip (lower raw)
  /\ lower (looked_up raw) = looked_up raw
  /\ strip (looked_up raw) = looked_up raw
  /\ looked_up (looked_up raw) = looked_up raw
  /\ PasswordResetRequestSerializer.validate_email (looked_up raw)
     = looked_up raw
  /\ forall other, lower (strip other) = lower (strip raw) ->
                   looked_up other = looked_up raw.
Proof.
  assert (H1 : looked_up raw = strip (lower raw)).
  { unfold looked_up, PasswordResetRequestSerializer.validate_email.
    rewrite strip_lower, strip_strip, strip_lower. reflexivity. }
  assert (H2 : lower (looked_up raw) = looked_up raw).
  { rewrite H1, <- strip_lower, lower_idem. reflexivity. }
  assert (H3 : strip (looked_up raw) = looked_up raw).
  { rewrite H1. apply strip_strip. }
  assert (H5 : PasswordResetRequestSerializer.validate_email (looked_up raw)
               = looked_up raw).
  { unfold PasswordResetRequestSerializer.validate_email.
    rewrite H2. exact H3. }
  split; [exact H1|]. split; [exact H2|]. split; [exact H3|].
  split; [|split; [exact H5|]].
  - unfold looked_up at 1. rewrite H3. exact H5.
  - intros other H. unfold looked_up.
    unfold PasswordResetRequestSerializer.validate_email. rewrite H.
    reflexivity.
Qed.

(** Alice's address in another case and with spaces around it is looked
    up as her stored address. *)
Lemma reset_address_normal_form_witness :
  looked_up " Alice@Example.com " = looked_up "alice@example.com".
Proof.
  apply (proj2 (proj2 (proj2 (proj2 (proj2
           (reset_address_normal_form "alice@example.com")))))
           " Alice@Example.com ").
  reflexivity.
Defined.
End AddressNormalForm.

(** ** The task count of a category *)
Section TaskCount.
Import Py Spec Cover.

Lemma category_matches (key : uuid) (t : Task.t) :
  Orm.matches (TaskFilter.category__id key) t
  = bool_decide (Task.category t = Some key).
Proof.
  cbn [Orm.matches Orm.compare TaskFilter.category__id].
  destruct (Task.category t) as [k|]; cbn [option_map].
  - destruct (N.eqb key k) eqn:E.
    + apply N.eqb_eq in E. subst. symmetry. apply bool_decide_eq_true.
      reflexivity.
    + apply N.eqb_neq in E. symmetry. apply bool_decide_eq_false.
      intros [= ->]. contradiction.
  - symmetry. apply bool_decide_eq_false. discriminate.
Qed.

Lemma annotate_count tasks c :
  CategoryViewSet.task_count (CategoryViewSet.annotate tasks c)
  = filed_under (Category.id c) tasks.
Proof.
  unfold CategoryViewSet.annotate, filed_under, Orm.count.
  cbn [CategoryViewSet.task_count]. rewrite filter_matches.
  f_equal. apply List.filter_ext. intros t. apply category_matches.
Qed.

Lemma category_retrieve_found db request c :
  List.NoDup (map Category.id (Database.categories db)) ->
  In c (Database.categories db) ->
  Category.user c = Request.user request ->
  CategoryViewSet.retrieve db request (Category.id c)
  = inr (Response.mk Response.HTTP_200_OK
           (Response.CategoryObject c
              (Some (filed_under (Category.id c) (Database.tasks db)))),
         db).
Proof.
  intros Hnd Hin Hu. unfold CategoryViewSet.retrieve.
  rewrite (category_view_found db request c Hnd Hin Hu). cbn [bind ret].
  rewrite annotate_count. reflexivity.
Qed.

Lemma created_category categories today u data attrs :
  TaskSerializer.run_validation categories today (Some u) None false data
  = inr attrs ->
  option_map (option_map Category.id) (TaskSerializer.Attrs.category attrs)
  = TaskSerializer.Data.category data.
Proof.
  intros H. apply run_validation_inr in H. destruct H as [-> Herr].
  unfold collected_errors in Herr.
  repeat (apply app_eq_nil in Herr;
          let H := fresh "He" in destruct Herr as [H Herr]).
  apply tame_no_error in Herr; [|apply category_field_tame].
  destruct Herr as [v Hv]. rewrite collected_category, Hv.
  apply (category_field_keys _ _ _ _ Hv).
Qed.

(** X16.  With unique primary keys and every category reference pointing
    to a category of the task's owner, retrieve on a category of the
    requester answers 200 with the stored row and, as its task count,
    the number of tasks filed under it; all of these are the requester's
    own tasks.  After the requester has created a task, the count is one
    higher when the request body named this category and unchanged
    otherwise. *)
Theorem category_task_count
    (db : Database.t) (today : date) (request : Request.t) (c : Category.t) :
  keys_unique db -> refs_owned db ->
  In c (Database.categories db) ->
  Category.user c = Request.user request ->
  CategoryViewSet.retrieve db request (Category.id c)
  = inr (Response.mk Response.HTTP_200_OK
           (Response.CategoryObject c
              (Some (filed_under (Category.id c) (Database.tasks db)))),
         db)
  /\ filed_under (Category.id c) (Database.tasks db)
     = filed_under (Category.id c) (tasks_of (Request.user request) db)
  /\ forall new_id data out,
       TaskViewSet.create db today new_id request data = inr out ->
       CategoryViewSet.retrieve (snd out) request (Category.id c)
       = inr (Response.mk Response.HTTP_200_OK
                (Response.CategoryObject c
                   (Some (if bool_decide (TaskSerializer.Data.category data
                                          = Some (Some (Category.id c)))
                          then S (filed_under (Category.id c)
                                    (Database.tasks db))
                          else filed_under (Category.id c)
                                 (Database.tasks db)))),
              snd out).
Proof.
  intros [Htk Hck] Hrefs Hin Hu. split; [|split].
  - apply (category_retrieve_found db request c Hck Hin Hu).
  - unfold filed_under, tasks_of. f_equal. symmetry.
    apply filter_filter_frame. intros t Ht Hcat.
    apply bool_decide_eq_true in Hcat.
    destruct (Hrefs t _ Ht Hcat) as [c' [Hc' [Hid Hcu]]].
    rewrite (unique_key Category.id _ c' c Hck Hc' Hin Hid) in Hcu.
    apply N.eqb_eq. congruence.
  - intros new_id data out H. apply task_create_inr in H.
    destruct H as [attrs [Hrun [_ Hdb]]].
    apply created_category in Hrun.
    rewrite Hdb at 1.
    rewrite (category_retrieve_found
               (Database.mk (Database.categories db)
                  (Database.tasks db
                   ++ [TaskSerializer.create new_id (Request.user request)
                         attrs]))
               request c Hck Hin Hu).
    rewrite <- Hdb. f_equal. f_equal. f_equal. f_equal. f_equal.
    rewrite Hdb. cbn [Database.tasks]. unfold filed_under.
    assert (Hcat : Task.category
                     (TaskSerializer.create new_id (Request.user request) attrs)
                   = default None (TaskSerializer.Data.category data)).
    { unfold TaskSerializer.create. cbn [Task.category]. rewrite Hrun.
      reflexivity. }
    set (obj := TaskSerializer.create new_id (Request.user request) attrs) in *.
    clearbody obj.
    rewrite List.filter_app, length_app. cbn [List.filter].
    destruct (bool_decide (Task.category obj = Some (Category.id c))) eqn:E1;
      destruct (bool_decide (TaskSerializer.Data.category data
                             = Some (Some (Category.id c)))) eqn:E2;
      cbn [length]; try lia; exfalso.
    + apply bool_decide_eq_true in E1. apply bool_decide_eq_false in E2.
      rewrite Hcat in E1. apply E2.
      destruct (TaskSerializer.Data.category data) as [[k|]|];
        cbn [from_option id] in E1; congruence.
    + apply bool_decide_eq_false in E1. apply bool_decide_eq_true in E2.
      rewrite Hcat, E2 in E1. apply E1. reflexivity.
Qed.

(** Alice's category Work holds one task; after she files a second one
    under it the count is two. *)
Lemma category_task_count_witness :
  CategoryViewSet.retrieve Fixtures.db Fixtures.as_alice 20%N
  = inr (Response.mk 200 (Response.CategoryObject Fixtures.work (Some 1%nat)),
         Fixtures.db)
  /\ forall out,
       TaskViewSet.create Fixtures.db Fixtures.today 6%N Fixtures.as_alice
         (TaskSerializer.Data.mk (Some "Plan") None None None None
            (Some (Some 20%N))) = inr out ->
       CategoryViewSet.retrieve (snd out) Fixtures.as_alice 20%N
       = inr (Response.mk 200
                (Response.CategoryObject Fixtures.work (Some 2%nat)),
              snd out).
Proof.
  pose proof (category_task_count Fixtures.db Fixtures.today Fixtures.as_alice
                Fixtures.work (conj fixture_task_keys fixture_category_keys)
                fixture_refs (or_introl eq_refl) eq_refl) as H.
  destruct H as [H1 [_ H3]].
  split; [exact H1|]. intros out Hout. exact (H3 _ _ _ Hout).
Defined.
End TaskCount.

(** ** Category names stay unique *)
Section NameInvariant.
Import Py Spec Cover.

Lemma name_field_checked objects u instance partial data v :
  CategorySerializer.name_field objects (Some u) instance partial data
  = inr (Some v) ->
  CategorySerializer.validate_name objects (Some u) instance v = inr v.
Proof.
  unfold CategorySerializer.name_field. intros H.
  apply bind_inr in H. destruct H as [[s|] [_ H]]; [|discriminate].
  apply bind_inr in H. destruct H as [s' [Hv H]]. injection H as <-.
  assert (Hs : s' = s).
  { rewrite validate_name_eq in Hv.
    destruct (existsb _ _); [discriminate|]. injection Hv as <-.
    reflexivity. }
  subst s'. exact Hv.
Qed.

Lemma name_free objects u instance v c :
  CategorySerializer.validate_name objects (Some u) instance v = inr v ->
  In c objects -> Category.user c = u -> same_name (Category.name c) v ->
  match instance with
  | Some inst => Category.id inst = Category.id c
  | None => False
  end.
Proof.
  rewrite validate_name_eq. intros H Hin Hu Hn.
  destruct (existsb _ objects) eqn:E; [discriminate|].
  assert (Hc : forall x, In x objects ->
                 (Orm.iexact v (Category.name x)
                  && N.eqb u (Category.user x)
                  && match instance with
                     | Some inst => negb (N.eqb (Category.id inst) (Category.id x))
                     | None => true
                     end) = false).
  { intros x Hx. destruct (_ && _ && _) eqn:Ex; [|reflexivity].
    assert (existsb
              (fun c0 =>
                 Orm.iexact v (Category.name c0) && N.eqb u (Category.user c0)
                 && match instance with
                    | Some inst =>
                        negb (N.eqb (Category.id inst) (Category.id c0))
                    | None => true
                    end) objects = true)
      by (apply existsb_exists; exists x; auto).
    congruence. }
  specialize (Hc c Hin).
  rewrite (proj2 (iexact_same_name v (Category.name c)) Hn), Hu, N.eqb_refl
    in Hc.
  cbn [andb] in Hc. destruct instance as [inst|]; [|discriminate].
  apply negb_false_iff, N.eqb_eq in Hc. exact Hc.
Qed.

Lemma write_keeps_names
    (db : Database.t) (today : date) (request : Request.t) (w : Write) :
  keys_unique db -> names_unique (Database.categories db) ->
  names_unique (Database.categories (snd (perform db today request w))).
Proof.
  intros [_ Hck] Hn. unfold perform.
  destruct w as [new_id data|key data|key|new_id data|key data|key].
  - destruct (TaskViewSet.create db today new_id request data) as [e|out] eqn:H;
      [exact Hn|].
    apply task_create_inr in H. destruct H as [attrs [_ [_ Hdb]]].
    cbn [Response.dispatch]. rewrite Hdb. exact Hn.
  - destruct (TaskViewSet.partial_update db today request key data)
      as [e|out] eqn:H; [exact Hn|].
    apply task_update_inr in H. destruct H as [instance [attrs [_ [_ Hdb]]]].
    cbn [Response.dispatch]. rewrite Hdb. exact Hn.
  - destruct (TaskViewSet.destroy db today request key) as [e|out] eqn:H;
      [exact Hn|].
    apply task_destroy_inr in H. destruct H as [instance [_ Hdb]].
    cbn [Response.dispatch]. rewrite Hdb. exact Hn.
  - destruct (CategoryViewSet.create db new_id request data) as [e|out] eqn:H;
      [exact Hn|].
    cbn [Response.dispatch]. unfold CategoryViewSet.create in H.
    apply bind_inr in H. destruct H as [attrs [Hrun H]].
    destruct (existsb _ _) eqn:Efresh; [discriminate|]. injection H as <-.
    cbn [snd Database.categories].
    apply category_validated in Hrun. destruct Hrun as [Hname _].
    pose proof (name_field_required _ _ _ _ _ Hname) as Hreq.
    destruct (CategorySerializer.Attrs.name attrs) as [v|] eqn:Ev;
      [|contradiction].
    apply name_field_checked in Hname.
    set (obj := CategorySerializer.create new_id (Request.user request) attrs).
    assert (Hobj : Category.name obj = v /\ Category.user obj = Request.user request).
    { subst obj. unfold CategorySerializer.create.
      cbn [Category.name Category.user]. rewrite Ev. auto. }
    destruct Hobj as [Hon Hou]. clearbody obj.
    intros c1 c2 H1 H2 Hu Hs.
    apply in_app_or in H1. apply in_app_or in H2.
    destruct H1 as [H1|[<-|[]]], H2 as [H2|[<-|[]]].
    + apply (Hn c1 c2 H1 H2 Hu Hs).
    + exfalso. rewrite Hon in Hs.
      apply (name_free _ _ _ _ c1 Hname H1); [congruence | exact Hs].
    + exfalso. rewrite Hon in Hs.
      apply (name_free _ _ _ _ c2 Hname H2); [congruence|].
      unfold same_name in *. congruence.
    + reflexivity.
  - destruct (CategoryViewSet.partial_update db request key data)
      as [e|out] eqn:H; [exact Hn|].
    cbn [Response.dispatch]. unfold CategoryViewSet.partial_update in H.
    apply bind_inr in H. destruct H as [instance [Hget H]].
    apply bind_inr in H. destruct H as [attrs [Hrun H]]. injection H as <-.
    destruct (category_get_object_inr _ _ _ _ Hget) as [Hinst [_ Hiu]].
    cbn [snd Database.categories].
    set (inst := CategoryViewSet.category instance) in *. clearbody inst.
    apply category_validated in Hrun. destruct Hrun as [Hname _].
    set (obj := CategorySerializer.update inst attrs).
    assert (Hobj : Category.id obj = Category.id inst
                   /\ Category.user obj = Category.user inst
                   /\ forall c, In c (Database.categories db) ->
                                Category.user c = Category.user inst ->
                                same_name (Category.name c) (Category.name obj) ->
                                Category.id c = Category.id inst).
    { subst obj. unfold CategorySerializer.update.
      cbn [Category.id Category.name Category.user].
      split; [reflexivity|]. split; [reflexivity|].
      intros c Hc Hcu Hcs.
      destruct (CategorySerializer.Attrs.name attrs) as [v|];
        cbn [from_option id] in Hcs.
      - apply name_field_checked in Hname. symmetry.
        apply (name_free _ _ _ _ c Hname Hc); [congruence | exact Hcs].
      - apply (Hn c inst Hc Hinst Hcu Hcs). }
    destruct Hobj as [Hoid [Hou Hfree]].
    change (Category.id (CategorySerializer.update inst attrs))
      with (Category.id inst).
    clearbody obj.
    assert (Hcase : forall c', In c' (map (fun c => if N.eqb (Category.id c)
                                                        (Category.id inst)
                                                   then obj else c)
                                          (Database.categories db)) ->
                      c' = obj
                      \/ (In c' (Database.categories db)
                          /\ Category.id c' <> Category.id inst)).
    { intros c' Hc'. apply in_map_iff in Hc'. destruct Hc' as [c0 [<- Hc0]].
      destruct (N.eqb (Category.id c0) (Category.id inst)) eqn:E;
        [left; reflexivity|].
      right. apply N.eqb_neq in E. split; [exact Hc0 | exact E]. }
    intros c1 c2 H1 H2 Hu Hs.
    destruct (Hcase c1 H1) as [->|[H1' N1]], (Hcase c2 H2) as [->|[H2' N2]].
    + reflexivity.
    + exfalso. apply N2. apply Hfree; [exact H2' | congruence|].
      unfold same_name in *. congruence.
    + exfalso. apply N1. apply Hfree; [exact H1' | congruence | exact Hs].
    + apply (Hn c1 c2 H1' H2' Hu Hs).
  - destruct (CategoryViewSet.destroy db request key) as [e|out] eqn:H;
      [exact Hn|].
    apply category_destroy_inr in H. destruct H as [instance [_ Hdb]].
    cbn [Response.dispatch]. rewrite Hdb. cbn [Database.categories].
    intros c1 c2 H1 H2. apply filter_In in H1, H2.
    apply (Hn c1 c2 (proj1 H1) (proj1 H2)).
Qed.

(** X17.  Uniqueness of category names per owner, up to the case of
    letters, is kept by every write request in a database with unique
    primary keys: a creation or a rename that would give an owner two
    categories with the same name up to case is refused, and no other
    request changes a name.  So it holds in every database reached from
    the empty one by write requests, and with it the table constraint
    [unique_category_per_user] on name and owner. *)
Theorem category_names_stay_unique :
  (forall db today request w,
      keys_unique db -> names_unique (Database.categories db) ->
      names_unique (Database.categories (snd (perform db today request w))))
  /\ (forall steps,
         names_unique (Database.categories (run empty_database steps))
         /\ unique_category_per_user
              (Database.categories (run empty_database steps))).
Proof.
  split; [intros; apply write_keeps_names; assumption|].
  intros steps.
  assert (H : keys_unique (run empty_database steps)
              /\ names_unique (Database.categories (run empty_database steps))).
  { unfold run.
    assert (H0 : keys_unique empty_database
                 /\ names_unique (Database.categories empty_database)).
    { split; [split; apply List.NoDup_nil | intros c1 c2 []]. }
    revert H0. generalize empty_database.
    induction steps as [|[[today request] w] steps IH]; intros db H0;
      cbn [fold_left fst snd]; [exact H0|].
    apply IH. destruct H0 as [Hk Hn].
    split; [apply write_keeps_keys | apply write_keeps_names]; assumption. }
  destruct H as [[_ Hck] Hn]. split; [exact Hn|].
  intros c1 c2 H1 H2 Hname Hu.
  apply (unique_key Category.id _ c1 c2 Hck H1 H2).
  apply (Hn c1 c2 H1 H2 Hu). unfold same_name. rewrite Hname. reflexivity.
Qed.

(** Alice asks for a second category named like her first, in another
    case: it is refused and her names are still unique. *)
Lemma category_names_stay_unique_witness :
  names_unique
    (Database.categories
       (snd (perform Fixtures.db Fixtures.today Fixtures.as_alice
               (CategoryCreate 30%N
                  (CategorySerializer.Data.mk (Some "WORK") None)))))
  /\ Response.status_code
       (fst (perform Fixtures.db Fixtures.today Fixtures.as_alice
               (CategoryCreate 30%N
                  (CategorySerializer.Data.mk (Some "WORK") None))))
     = 400%nat.
Proof.
  split; [|reflexivity].
  apply (proj1 category_names_stay_unique Fixtures.db Fixtures.today
           Fixtures.as_alice
           (CategoryCreate 30%N (CategorySerializer.Data.mk (Some "WORK") None))
           (conj fixture_task_keys fixture_category_keys)
           fixture_names_unique).
Defined.
End NameInvariant.

(** ** Category names on the routes *)
Section CategoryNames.
Import Py Spec Cover.



End CategoryNames.
